(** * HT16K33 driver for two 8-digit 7-segment displays: model and properties

    A shallow embedding of the Go package [ht16k33] (the revision with the
    rune-indexed font map, the [setPattern] helper and the non-blocking fade
    state machine), followed by the properties of the buffer codec, of the
    bus protocol and of the fade controller.

    Conventions of the embedding
    - [byte]/[uint8] values are integers in [0,255]; arithmetic that Go
      performs in [byte] is wrapped with [u8].  [int], [rune], [time.Time]
      and [time.Duration] values are unbounded integers.
    - the [[16]byte] display RAM image is a [list Z]; the Go type fixes its
      length to 16.
    - the [I2CBus] interface is a type class; [Tx] returns the state of the
      bus after the transfer together with the Go [error] ([None] is [nil]).
    - a method with receiver [d *Device] maps the device before the call to
      the device after it.  None of the methods has a Go result except
      [UpdateFade] and [IsFading], which return a [bool].
    - the clock is an input: [StartFade] and [UpdateFade] receive the values
      that [time.Now()] and [time.Since] read.  [time.Sleep] has no effect on
      the device and is left out. *)

From Stdlib Require Import ZArith List Lia Bool Ascii String.
From stdpp Require Import base list gmap.
Import ListNotations.

Local Open Scope Z_scope.

(** ** Constants *)

Definition ht16k33TurnOnOscillator : Z := 0x21.
Definition ht16k33TurnOnDisplay : Z := 0x81.
Definition ht16k33SetBrightness : Z := 0xE0.

Definition MaxDigitsPerDisplay : Z := 8.
Definition NumDisplays : Z := 2.

Definition blankPatternIndex : Z := 10.

(** [fadeState] enumeration. *)
Inductive fadeState_t : Type :=
| fadeStateIdle
| fadeStateOut
| fadeStateIn.

Definition fadeState_eqb (a b : fadeState_t) : bool :=
  match a, b with
  | fadeStateIdle, fadeStateIdle => true
  | fadeStateOut, fadeStateOut => true
  | fadeStateIn, fadeStateIn => true
  | _, _ => false
  end.

(** ** Machine integers *)

(** Conversion to [uint8]/[byte]: keep the low eight bits. *)
Definition u8 (x : Z) : Z := x mod 256.

(** A rune literal. *)
Definition rune (c : ascii) : Z := Z.of_N (N_of_ascii c).

(** The runes of a string literal made of ASCII characters only (for such
    a string [[]rune(s)] is the sequence of its bytes). *)
Definition ascii_runes (s : string) : list Z :=
  List.map rune (list_ascii_of_string s).

(** ** Glyph table

    [font] is a [map[rune]byte]; patterns are in g-f-e-d-c-b-a order. *)
Definition font : gmap Z Z :=
  list_to_map
    [ (rune "0", 0x3F); (rune "1", 0x06); (rune "2", 0x5B); (rune "3", 0x4F);
      (rune "4", 0x66); (rune "5", 0x6D); (rune "6", 0x7D); (rune "7", 0x07);
      (rune "8", 0x7F); (rune "9", 0x6F);
      (rune "A", 0x77); (rune "B", 0x7C); (rune "C", 0x39); (rune "D", 0x5E);
      (rune "E", 0x79); (rune "F", 0x71); (rune "G", 0x3D); (rune "H", 0x76);
      (rune "I", 0x06); (rune "J", 0x1E); (rune "L", 0x38); (rune "O", 0x3F);
      (rune "P", 0x73); (rune "Q", 0x67); (rune "R", 0x50); (rune "S", 0x6D);
      (rune "U", 0x3E); (rune "Y", 0x6E);
      (rune " ", 0x00); (rune "-", 0x40); (rune "_", 0x08); (rune "'", 0x02);
      (34 (* double quote *), 0x22); (rune "=", 0x48); (rune "?", 0x53) ].

(** ** The bus *)

(** Go's [error]; [None] stands for [nil]. *)
Definition error : Type := string.

(** [Tx(addr uint16, w, r []byte) error] on a bus in state [b]. *)
Class I2CBus (B : Type) := Tx : B -> Z -> list Z -> list Z -> B * option error.

(** The bus after a series of write-only transfers to one address, made in
    order, each exactly once, whatever error each of them returns. *)
Definition TxAll {B} `{I2CBus B} (b : B) (addr : Z) (ws : list (list Z)) : B :=
  fold_left (fun b w => fst (Tx b addr w [])) ws b.

(** The mock of the test file: it remembers the last transfer and always
    returns [nil]. *)
Record mockI2C : Type := MockI2C { mock_addr : Z; mock_data : list Z }.

#[export] Instance mockI2C_bus : I2CBus mockI2C :=
  fun _ addr w _ => (MockI2C addr w, None).

(** A scripted bus: it records every transfer in order and answers the
    n-th transfer with the n-th entry of its script ([nil] once the script
    is used up). *)
Record scriptI2C : Type :=
  ScriptI2C { sent : list (Z * list Z); script : list (option error) }.

#[export] Instance scriptI2C_bus : I2CBus scriptI2C :=
  fun b addr w _ =>
    (ScriptI2C (sent b ++ [(addr, w)]) (tl (script b)), hd None (script b)).

(** ** The device *)

Record Device (B : Type) : Type := mkDevice {
  bus : B;
  Address : Z;
  buffer : list Z;
  currentBrightness : Z;
  fadeState : fadeState_t;
  fadeStep : Z;
  lastUpdateTime : Z;
  fadeDelay : Z
}.

Arguments mkDevice {B}.
Arguments bus {B}.
Arguments Address {B}.
Arguments buffer {B}.
Arguments currentBrightness {B}.
Arguments fadeState {B}.
Arguments fadeStep {B}.
Arguments lastUpdateTime {B}.
Arguments fadeDelay {B}.

(** Field assignments. *)
Definition with_bus {B B'} (d : Device B) (b : B') : Device B' :=
  mkDevice b (Address d) (buffer d) (currentBrightness d)
           (fadeState d) (fadeStep d) (lastUpdateTime d) (fadeDelay d).

Definition with_buffer {B} (d : Device B) (buf : list Z) : Device B :=
  mkDevice (bus d) (Address d) buf (currentBrightness d)
           (fadeState d) (fadeStep d) (lastUpdateTime d) (fadeDelay d).

Definition with_currentBrightness {B} (d : Device B) (v : Z) : Device B :=
  mkDevice (bus d) (Address d) (buffer d) v
           (fadeState d) (fadeStep d) (lastUpdateTime d) (fadeDelay d).

Definition with_fadeState {B} (d : Device B) (s : fadeState_t) : Device B :=
  mkDevice (bus d) (Address d) (buffer d) (currentBrightness d)
           s (fadeStep d) (lastUpdateTime d) (fadeDelay d).

Definition with_fadeStep {B} (d : Device B) (n : Z) : Device B :=
  mkDevice (bus d) (Address d) (buffer d) (currentBrightness d)
           (fadeState d) n (lastUpdateTime d) (fadeDelay d).

Definition with_lastUpdateTime {B} (d : Device B) (t : Z) : Device B :=
  mkDevice (bus d) (Address d) (buffer d) (currentBrightness d)
           (fadeState d) (fadeStep d) t (fadeDelay d).

Definition with_fadeDelay {B} (d : Device B) (t : Z) : Device B :=
  mkDevice (bus d) (Address d) (buffer d) (currentBrightness d)
           (fadeState d) (fadeStep d) (lastUpdateTime d) t.

(** Everything in a device except the bus it talks to. *)
Definition fields {B} (d : Device B) : Device unit := with_bus d tt.

(** ** Loops *)

(** [for i := 0; i < n; i++ { body }] over a state [S]. *)
Definition for_upto {S} (n : nat) (body : nat -> S -> S) (s : S) : S :=
  fold_left (fun s i => body i s) (seq 0 n) s.

(** [for i := hi; i >= 0; i-- { body }]: the values [hi, hi-1, ..., 0]; no
    iteration when [hi] is negative. *)
Definition countdown (hi : Z) : list Z :=
  List.map Z.of_nat (rev (seq 0 (Z.to_nat (hi + 1)))).

(** [for i := 0; i <= hi; i++ { body }]: the values [0, 1, ..., hi]. *)
Definition countup (hi : Z) : list Z :=
  List.map Z.of_nat (seq 0 (Z.to_nat (hi + 1))).

Definition for_each {S} (xs : list Z) (body : Z -> S -> S) (s : S) : S :=
  fold_left (fun s i => body i s) xs s.

(** ** Operations of [Device] *)

Section Driver.
Context {B : Type} `{I2CBus B}.

(** [New]: zero buffer, maximum brightness, idle fade machine; the
    remaining fields have Go's zero value. *)
Definition New (b : B) (address : Z) : Device B :=
  mkDevice b address (replicate 16 0) 15 fadeStateIdle 0 0 0.

(** [SetBrightness(brightness uint8)].  The result of [Tx] is dropped. *)
Definition SetBrightness (d : Device B) (brightness : Z) : Device B :=
  let brightness := if 15 <? brightness then 15 else brightness in
  let d := with_currentBrightness d brightness in
  with_bus d
    (fst (Tx (bus d) (Address d) [Z.lor ht16k33SetBrightness brightness] [])).

(** [Display]: one transfer of the start address followed by the buffer.
    The result of [Tx] is dropped. *)
Definition Display (d : Device B) : Device B :=
  let data := [0x00] ++ buffer d in
  with_bus d (fst (Tx (bus d) (Address d) data [])).

(** [Configure]. The results of both [Tx] calls are dropped. *)
Definition Configure (d : Device B) : Device B :=
  let d := with_bus d
             (fst (Tx (bus d) (Address d) [ht16k33TurnOnOscillator] [])) in
  let d := with_bus d
             (fst (Tx (bus d) (Address d) [ht16k33TurnOnDisplay] [])) in
  SetBrightness d 15.

(** [ClearAll]: [for i := range d.buffer { d.buffer[i] = 0 }]. *)
Definition ClearAll (d : Device B) : Device B :=
  with_buffer d
    (for_upto (length (buffer d)) (fun i buf => <[i := 0]> buf) (buffer d)).

(** [setPattern(display, position int, pattern byte, dot bool)].
    After the guard every index [rowOffset+i] lies in [0,15]. *)
Definition setPattern (d : Device B) (display position pattern : Z)
           (dot : bool) : Device B :=
  if (display <? 0) || (display >=? NumDisplays)
     || (position <? 0) || (position >=? MaxDigitsPerDisplay)
  then d
  else
    let rowOffset := display * MaxDigitsPerDisplay in
    let mask := Z.lxor 0xFF (u8 (Z.shiftl 1 position)) in
    (* Clear the bits for this digit position first *)
    let buf :=
      for_upto (Z.to_nat MaxDigitsPerDisplay)
        (fun i buf =>
           alter (fun b => Z.land b mask) (Z.to_nat (rowOffset + Z.of_nat i)) buf)
        (buffer d) in
    (* Set the new segment bits *)
    let buf :=
      for_upto 7
        (fun seg buf =>
           if Z.land (Z.shiftr pattern (Z.of_nat seg)) 1 =? 1
           then alter (fun b => Z.lor b (u8 (Z.shiftl 1 position)))
                      (Z.to_nat (rowOffset + Z.of_nat seg)) buf
           else buf)
        buf in
    (* Set the new dot bit *)
    let buf :=
      if dot
      then let dotRow := rowOffset + 7 in
           alter (fun b => Z.lor b (u8 (Z.shiftl 1 position)))
                 (Z.to_nat dotRow) buf
      else buf in
    with_buffer d buf.

(** [SetDigitOnDisplay(display, position int, num byte, dot bool)].
    ['0' + num] is a [byte] sum; a rune missing from [font] yields the
    zero pattern. *)
Definition SetDigitOnDisplay (d : Device B) (display position num : Z)
           (dot : bool) : Device B :=
  if (display <? 0) || (display >=? NumDisplays)
     || (position <? 0) || (position >=? MaxDigitsPerDisplay)
  then d
  else
    let char := u8 (rune "0" + num) in
    let pattern := default 0 (font !! char) in
    let rowOffset := display * MaxDigitsPerDisplay in
    let mask := Z.lxor 0xFF (u8 (Z.shiftl 1 position)) in
    let buf :=
      for_upto (Z.to_nat MaxDigitsPerDisplay)
        (fun i buf =>
           alter (fun b => Z.land b mask) (Z.to_nat (rowOffset + Z.of_nat i)) buf)
        (buffer d) in
    let buf :=
      for_upto 7
        (fun seg buf =>
           if Z.land (Z.shiftr pattern (Z.of_nat seg)) 1 =? 1
           then alter (fun b => Z.lor b (u8 (Z.shiftl 1 position)))
                      (Z.to_nat (rowOffset + Z.of_nat seg)) buf
           else buf)
        buf in
    let buf :=
      if dot
      then let dotRow := rowOffset + 7 in
           alter (fun b => Z.lor b (u8 (Z.shiftl 1 position)))
                 (Z.to_nat dotRow) buf
      else buf in
    with_buffer d buf.

(** [SetDigit16(position int, num byte, dot bool)].  Go's [/] and [%]
    truncate towards zero: [Z.quot] and [Z.rem]. *)
Definition SetDigit16 (d : Device B) (position num : Z) (dot : bool)
  : Device B :=
  if (position <? 0) || (position >=? MaxDigitsPerDisplay * NumDisplays)
  then d
  else
    let display := Z.quot position MaxDigitsPerDisplay in
    let digitInDisplay := Z.rem position MaxDigitsPerDisplay in
    SetDigitOnDisplay d display digitInDisplay num dot.

(** [ClearOnDisplay(display int)]. *)
Definition ClearOnDisplay (d : Device B) (display : Z) : Device B :=
  if (display <? 0) || (display >=? NumDisplays)
  then d
  else
    for_upto (Z.to_nat MaxDigitsPerDisplay)
      (fun pos d =>
         SetDigitOnDisplay d display (Z.of_nat pos) blankPatternIndex false)
      d.

(** The loop of [WriteString], one iteration per unit of [fuel]:
    [for i := 0; i < len(runes) && digitPos < MaxDigitsPerDisplay; i++]. *)
Fixpoint WriteString_loop (fuel : nat) (runes : list Z) (display : Z)
         (i digitPos : Z) (d : Device B) : Device B :=
  match fuel with
  | O => d
  | S fuel =>
      if (i <? Z.of_nat (length runes)) && (digitPos <? MaxDigitsPerDisplay)
      then
        let char := default 0 (runes !! Z.to_nat i) in
        (* Convert to uppercase to match the font map keys *)
        let char :=
          if (char >=? rune "a") && (char <=? rune "z")
          then char - rune "a" + rune "A" else char in
        match font !! char with
        | Some pattern =>
            (* Look ahead for a dot *)
            let look :=
              (i + 1 <? Z.of_nat (length runes))
              && (default 0 (runes !! Z.to_nat (i + 1)) =? rune ".") in
            let dot := look in
            let i := if look then i + 1 else i in
            let d := setPattern d display digitPos pattern dot in
            WriteString_loop fuel runes display (i + 1) (digitPos + 1) d
        | None =>
            WriteString_loop fuel runes display (i + 1) digitPos d
        end
      else d
  end.

(** [WriteString(display int, s string)], on [runes = []rune(s)].  The
    index grows at every iteration, so [length runes] iterations are
    enough (see [WriteString_loop_fuel]). *)
Definition WriteString (d : Device B) (display : Z) (runes : list Z)
  : Device B :=
  if (display <? 0) || (display >=? NumDisplays)
  then d
  else
    let d := ClearOnDisplay d display in
    WriteString_loop (length runes) runes display 0 0 d.

(** [LightUpAll]: [for i := range d.buffer { d.buffer[i] = 0xFF }]. *)
Definition LightUpAll (d : Device B) : Device B :=
  with_buffer d
    (for_upto (length (buffer d)) (fun i buf => <[i := 0xFF]> buf) (buffer d)).

(** [LightUpAllFadeBlocking(delay)]. *)
Definition LightUpAllFadeBlocking (d : Device B) (delay : Z) : Device B :=
  let d := LightUpAll d in
  for_each (countup 15) (fun i d => SetBrightness d (u8 i)) d.

(** [DisplayFadeBlocking(delay)]. *)
Definition DisplayFadeBlocking (d : Device B) (delay : Z) : Device B :=
  (* Fade out *)
  let d := for_each (countdown (currentBrightness d))
                    (fun i d => SetBrightness d (u8 i)) d in
  (* Update the display content *)
  let d := Display d in
  (* Fade in *)
  let d := for_each (countup 15) (fun i d => SetBrightness d (u8 i)) d in
  (* Ensure brightness is set to the final desired level *)
  SetBrightness d 15.

(** [ClearFadeOnDisplayBlocking(display, delay)]. *)
Definition ClearFadeOnDisplayBlocking (d : Device B) (display delay : Z)
  : Device B :=
  if (display <? 0) || (display >=? NumDisplays)
  then d
  else DisplayFadeBlocking (ClearOnDisplay d display) delay.

(** [ClearAllFadeBlocking(delay)]. *)
Definition ClearAllFadeBlocking (d : Device B) (delay : Z) : Device B :=
  DisplayFadeBlocking (ClearAll d) delay.

(** [IsFading]. *)
Definition IsFading (d : Device B) : bool :=
  negb (fadeState_eqb (fadeState d) fadeStateIdle).

(** [StartFade(delay)]; [now] is the value read by [time.Now()]. *)
Definition StartFade (d : Device B) (delay now : Z) : Device B :=
  if negb (fadeState_eqb (fadeState d) fadeStateIdle)
  then d (* Already fading *)
  else
    let d := with_fadeDelay d delay in
    let d := with_fadeState d fadeStateOut in
    let d := with_fadeStep d (currentBrightness d) in
    with_lastUpdateTime d now.

(** [UpdateFade].  The clock is read twice: [checked] is the reading
    inside [time.Since], [stamped] the later [time.Now()] stored in
    [lastUpdateTime]. *)
Definition UpdateFade (d : Device B) (checked stamped : Z)
  : Device B * bool :=
  if fadeState_eqb (fadeState d) fadeStateIdle
     || (checked - lastUpdateTime d <? fadeDelay d)
  then (d, IsFading d)
  else
    let d := with_lastUpdateTime d stamped in
    let d :=
      match fadeState d with
      | fadeStateOut =>
          let d := SetBrightness d (u8 (fadeStep d)) in
          let d := with_fadeStep d (fadeStep d - 1) in
          if fadeStep d <? 0
          then
            let d := Display d in (* Switch content when fully faded out *)
            let d := with_fadeState d fadeStateIn in
            with_fadeStep d 0
          else d
      | fadeStateIn =>
          let d := SetBrightness d (u8 (fadeStep d)) in
          let d := with_fadeStep d (fadeStep d + 1) in
          if 15 <? fadeStep d
          then with_fadeState d fadeStateIdle (* Fade finished *)
          else d
      | fadeStateIdle => d
      end in
    (d, IsFading d).

End Driver.

(** ** Vocabulary of the properties *)

(** [digit_row position pattern dot j b] is the content, after a digit
    write, of sub-row [j] (0-6: segments a-g, 7: decimal point) of the
    addressed display block when the row held [b] before: bit [position]
    cleared, then set again iff the segment is lit. *)
Definition digit_row (position pattern : Z) (dot : bool) (j : nat) (b : Z) : Z :=
  let cleared := Z.land b (Z.lxor 0xFF (u8 (Z.shiftl 1 position))) in
  let lit :=
    if (j <? 7)%nat then Z.land (Z.shiftr pattern (Z.of_nat j)) 1 =? 1 else dot in
  if lit then Z.lor cleared (u8 (Z.shiftl 1 position)) else cleared.

(** The level [SetBrightness] stores for an argument [level]. *)
Definition clamp15 (level : Z) : Z := if 15 <? level then 15 else level.

(** The payload [SetBrightness(level)] writes: the brightness command base
    OR'ed with the clamped level. *)
Definition brightnessCommand (level : Z) : list Z :=
  [Z.lor ht16k33SetBrightness (clamp15 level)].

(** The payload [Display] writes for a buffer. *)
Definition displayData (buf : list Z) : list Z := [0x00] ++ buf.

(** A payload that addresses the display RAM (first byte 0x00), as opposed
    to a one-byte command. *)
Definition is_flush (w : list Z) : bool :=
  match w with
  | a :: _ :: _ => a =? 0x00
  | _ => false
  end.

(** The error of a transfer that is not acknowledged. *)
Definition nack : error := "i2c: no acknowledge"%string.

(** A bus on which each of the next three transfers fails. *)
Definition failing_bus : scriptI2C :=
  ScriptI2C [] [Some nack; Some nack; Some nack].

(** A bus on which every transfer succeeds. *)
Definition healthy_bus : scriptI2C := ScriptI2C [] [].

(** A transcript split at its first display-RAM write. *)
Fixpoint split_at_flush (log : list (list Z)) : list (list Z) * list (list Z) :=
  match log with
  | [] => ([], [])
  | w :: rest =>
      if is_flush w then ([], rest)
      else let '(before, after) := split_at_flush rest in (w :: before, after)
  end.

(** The transfers a blocking fade adds to the transcript of a scripted
    bus: the number of writes before the display-RAM write and the number
    after it. *)
Definition blocking_fade_steps (d : Device scriptI2C) : nat * nat :=
  let before := length (sent (bus d)) in
  let log := List.map snd (drop before (sent (bus (DisplayFadeBlocking d 1000)))) in
  let '(out, inn) := split_at_flush log in
  (length out, length inn).

(** A device dimmed to level 5 through the public interface. *)
Definition dimmed : Device scriptI2C := SetBrightness (New healthy_bus 0x70) 5.

(** One call of [UpdateFade] as seen by the clock: the reading compared
    with [lastUpdateTime] and the reading stored into it. *)
Definition tick : Type := (Z * Z)%type.

(** Repeated calls of [UpdateFade], results ignored. *)
Definition run_ticks {B} `{I2CBus B} (d : Device B) (ticks : list tick)
  : Device B :=
  fold_left (fun d t => fst (UpdateFade d (fst t) (snd t))) ticks d.

(** Every tick comes at least [delay] after the time stored by the
    previous one ([last] for the first). *)
Fixpoint well_spaced (delay last : Z) (ticks : list tick) : bool :=
  match ticks with
  | [] => true
  | t :: rest => (delay <=? fst t - last) && well_spaced delay (snd t) rest
  end.

(** Thirty-two ticks, 100 apart, each stamped one unit after its check. *)
Definition sample_ticks : list tick :=
  List.map (fun k => (100 * Z.of_nat k, 100 * Z.of_nat k + 1)) (seq 1 32).

(** The public operations of [Device]. *)
Inductive op : Type :=
| OpConfigure
| OpClearAll
| OpSetDigitOnDisplay (display position num : Z) (dot : bool)
| OpSetDigit16 (position num : Z) (dot : bool)
| OpClearOnDisplay (display : Z)
| OpClearFadeOnDisplayBlocking (display delay : Z)
| OpClearAllFadeBlocking (delay : Z)
| OpWriteString (display : Z) (runes : list Z)
| OpDisplay
| OpLightUpAll
| OpLightUpAllFadeBlocking (delay : Z)
| OpDisplayFadeBlocking (delay : Z)
| OpStartFade (delay now : Z)
| OpUpdateFade (checked stamped : Z)
| OpIsFading
| OpSetBrightness (brightness : Z).

(** The arguments of Go type [byte]/[uint8] are in range. *)
Definition uint8_args (o : op) : bool :=
  match o with
  | OpSetDigitOnDisplay _ _ num _ => (0 <=? num) && (num <=? 255)
  | OpSetDigit16 _ num _ => (0 <=? num) && (num <=? 255)
  | OpSetBrightness brightness => (0 <=? brightness) && (brightness <=? 255)
  | _ => true
  end.

(** One public call; the [bool] of [UpdateFade] and [IsFading] is not
    kept. *)
Definition exec {B} `{I2CBus B} (o : op) (d : Device B) : Device B :=
  match o with
  | OpConfigure => Configure d
  | OpClearAll => ClearAll d
  | OpSetDigitOnDisplay display position num dot =>
      SetDigitOnDisplay d display position num dot
  | OpSetDigit16 position num dot => SetDigit16 d position num dot
  | OpClearOnDisplay display => ClearOnDisplay d display
  | OpClearFadeOnDisplayBlocking display delay =>
      ClearFadeOnDisplayBlocking d display delay
  | OpClearAllFadeBlocking delay => ClearAllFadeBlocking d delay
  | OpWriteString display runes => WriteString d display runes
  | OpDisplay => Display d
  | OpLightUpAll => LightUpAll d
  | OpLightUpAllFadeBlocking delay => LightUpAllFadeBlocking d delay
  | OpDisplayFadeBlocking delay => DisplayFadeBlocking d delay
  | OpStartFade delay now => StartFade d delay now
  | OpUpdateFade checked stamped => fst (UpdateFade d checked stamped)
  | OpIsFading => d
  | OpSetBrightness brightness => SetBrightness d brightness
  end.

(** A sequence of public calls, first to last. *)
Definition run {B} `{I2CBus B} (ops : list op) (d : Device B) : Device B :=
  fold_left (fun d o => exec o d) ops d.

(** The stored brightness is a level the chip accepts. *)
Definition brightness_ok {B} (d : Device B) : Prop :=
  0 <= currentBrightness d <= 15.

(** A session that touches every kind of operation. *)
Definition sample_session : list op :=
  [ OpConfigure; OpWriteString 0 (ascii_runes "12.5"); OpDisplay;
    OpSetBrightness 200; OpSetBrightness 3; OpSetDigit16 9 7 true;
    OpStartFade 50 0; OpUpdateFade 100 101; OpUpdateFade 120 121;
    OpUpdateFade 200 201; OpIsFading; OpDisplayFadeBlocking 10;
    OpLightUpAllFadeBlocking 10; OpClearAllFadeBlocking 10;
    OpSetDigitOnDisplay 1 2 8 false; OpClearOnDisplay 1; OpClearAll;
    OpLightUpAll; OpClearFadeOnDisplayBlocking 0 10 ].

(** Whether segment [j] (0-6: a-g, 7: decimal point) of the digit in slot
    [position] of [display] is lit in a buffer: bit [position] of row
    [display * 8 + j]. *)
Definition segment_lit (buf : list Z) (display position : Z) (j : nat) : bool :=
  Z.testbit (default 0 (buf !! Z.to_nat (display * MaxDigitsPerDisplay + Z.of_nat j)))
            position.

(** The segment a digit write asks for: bit [j] of the pattern for the
    seven segments, the dot flag for the decimal point. *)
Definition wanted (pattern : Z) (dot : bool) (j : nat) : bool :=
  if (j <? 7)%nat then Z.testbit pattern (Z.of_nat j) else dot.

(** The case folding of [WriteString]: ['a'..'z'] to ['A'..'Z']. *)
Definition to_upper (c : Z) : Z :=
  if (c >=? rune "a") && (c <=? rune "z") then c - rune "a" + rune "A" else c.

(** The glyphs [WriteString] finds in a rune sequence, left to right, each
    with its decimal point: a rune whose upper case is a key of [font]
    yields its pattern, with the dot set when the very next rune is ['.']
    (which is then used up); any other rune is passed over. *)
Fixpoint glyphs (runes : list Z) : list (Z * bool) :=
  match runes with
  | [] => []
  | c :: rest =>
      match font !! to_upper c with
      | None => glyphs rest
      | Some pattern =>
          match rest with
          | c' :: rest' =>
              if c' =? rune "." then (pattern, true) :: glyphs rest'
              else (pattern, false) :: glyphs rest
          | [] => [(pattern, false)]
          end
      end
  end.

(** Glyphs written into consecutive slots of a display from slot
    [digitPos] on, as long as slots are left. *)
Fixpoint place {B} `{I2CBus B} (display digitPos : Z) (gs : list (Z * bool))
         (d : Device B) : Device B :=
  match gs with
  | [] => d
  | (pattern, dot) :: gs' =>
      if digitPos <? MaxDigitsPerDisplay
      then place display (digitPos + 1) gs'
                 (setPattern d display digitPos pattern dot)
      else d
  end.

(** What [place] makes of sub-row [j] of the display block. *)
Fixpoint row_place (digitPos : Z) (gs : list (Z * bool)) (j : nat) (b : Z) : Z :=
  match gs with
  | [] => b
  | (pattern, dot) :: gs' =>
      if digitPos <? MaxDigitsPerDisplay
      then row_place (digitPos + 1) gs' j (digit_row digitPos pattern dot j b)
      else b
  end.

(** A tick that comes less than [fadeDelay] after [lastUpdateTime]. *)
Definition too_early {B} (d : Device B) (t : tick) : bool :=
  fst t - lastUpdateTime d <? fadeDelay d.

(** The transfers of a whole fade from stored brightness [b0] with the
    buffer [buf]: down from [b0] to 0, the display-RAM write, up from 0 to
    15. *)
Definition fade_writes (b0 : Z) (buf : list Z) : list (list Z) :=
  List.map brightnessCommand (countdown b0)
  ++ [displayData buf]
  ++ List.map brightnessCommand (countup 15).

(** A bus that takes every transfer and keeps nothing. *)
#[export] Instance nullI2C_bus : I2CBus unit := fun _ _ _ _ => (tt, None).

(** ** The revision with digit arguments only ([src/ht16k33.go])

    [font] is an array of eleven patterns, [SetDigitOnDisplay] takes a
    number and [WriteString] knows digits and dots only.  The functions
    below are those whose text differs from the driver above; the fields
    of [Device] that this revision does not have are carried along
    untouched. *)
Module DigitAPI.

(** [var font = [11]byte{...}]: 0-9 and the blank pattern. *)
Definition font : list Z :=
  [0x3F; 0x06; 0x5B; 0x4F; 0x66; 0x6D; 0x7D; 0x07; 0x7F; 0x6F; 0x00].

(** [SetDigitOnDisplay(display, position int, num byte, dot bool)]. *)
Definition SetDigitOnDisplay {B} (d : Device B) (display position num : Z)
           (dot : bool) : Device B :=
  if (display <? 0) || (display >=? NumDisplays)
     || (position <? 0) || (position >=? MaxDigitsPerDisplay)
  then d
  else
    let pattern :=
      if num <? 10
      then default 0 (font !! Z.to_nat num)
      else default 0 (font !! Z.to_nat blankPatternIndex) in
    let rowOffset := display * MaxDigitsPerDisplay in
    let mask := Z.lxor 0xFF (u8 (Z.shiftl 1 position)) in
    let buf :=
      for_upto (Z.to_nat MaxDigitsPerDisplay)
        (fun i buf =>
           alter (fun b => Z.land b mask) (Z.to_nat (rowOffset + Z.of_nat i)) buf)
        (buffer d) in
    let buf :=
      for_upto 7
        (fun seg buf =>
           if Z.land (Z.shiftr pattern (Z.of_nat seg)) 1 =? 1
           then alter (fun b => Z.lor b (u8 (Z.shiftl 1 position)))
                      (Z.to_nat (rowOffset + Z.of_nat seg)) buf
           else buf)
        buf in
    let buf :=
      if dot
      then let dotRow := rowOffset + 7 in
           alter (fun b => Z.lor b (u8 (Z.shiftl 1 position)))
                 (Z.to_nat dotRow) buf
      else buf in
    with_buffer d buf.

(** [SetDigit16(position int, num byte, dot bool)]. *)
Definition SetDigit16 {B} (d : Device B) (position num : Z) (dot : bool)
  : Device B :=
  if (position <? 0) || (position >=? MaxDigitsPerDisplay * NumDisplays)
  then d
  else
    let display := Z.quot position MaxDigitsPerDisplay in
    let digitInDisplay := Z.rem position MaxDigitsPerDisplay in
    SetDigitOnDisplay d display digitInDisplay num dot.

(** [ClearOnDisplay(display int)]. *)
Definition ClearOnDisplay {B} (d : Device B) (display : Z) : Device B :=
  if (display <? 0) || (display >=? NumDisplays)
  then d
  else
    for_upto (Z.to_nat MaxDigitsPerDisplay)
      (fun pos d =>
         SetDigitOnDisplay d display (Z.of_nat pos) blankPatternIndex false)
      d.

(** The loop of [WriteString]; [byte(char - '0')] is the digit. *)
Fixpoint WriteString_loop {B} (fuel : nat) (runes : list Z) (display : Z)
         (i digitPos : Z) (d : Device B) : Device B :=
  match fuel with
  | O => d
  | S fuel =>
      if (i <? Z.of_nat (length runes)) && (digitPos <? MaxDigitsPerDisplay)
      then
        let char := default 0 (runes !! Z.to_nat i) in
        if (char >=? rune "0") && (char <=? rune "9")
        then
          let num := u8 (char - rune "0") in
          let look :=
            (i + 1 <? Z.of_nat (length runes))
            && (default 0 (runes !! Z.to_nat (i + 1)) =? rune ".") in
          let dot := look in
          let i := if look then i + 1 else i in
          let d := SetDigitOnDisplay d display digitPos num dot in
          WriteString_loop fuel runes display (i + 1) (digitPos + 1) d
        else
          WriteString_loop fuel runes display (i + 1) digitPos d
      else d
  end.

(** [WriteString(display int, s string)] on [runes = []rune(s)]. *)
Definition WriteString {B} (d : Device B) (display : Z) (runes : list Z)
  : Device B :=
  if (display <? 0) || (display >=? NumDisplays)
  then d
  else
    let d := ClearOnDisplay d display in
    WriteString_loop (length runes) runes display 0 0 d.

End DigitAPI.

(** ** The revision with rune arguments ([src/unnamed/part_000])

    [font] is written with named segment bits, [SetDigitOnDisplay] and
    [SetDigit16] take the rune to show, and [WriteString] looks runes up as
    they are.  [setPattern] and every function not listed here have the
    same text as in the driver above. *)
Module RuneAPI.

Definition segA : Z := u8 (Z.shiftl 1 0).
Definition segB : Z := u8 (Z.shiftl 1 1).
Definition segC : Z := u8 (Z.shiftl 1 2).
Definition segD : Z := u8 (Z.shiftl 1 3).
Definition segE : Z := u8 (Z.shiftl 1 4).
Definition segF : Z := u8 (Z.shiftl 1 5).
Definition segG : Z := u8 (Z.shiftl 1 6).

(** Bitwise OR of a list of segments. *)
Definition segs (l : list Z) : Z := fold_left Z.lor l 0.

Definition font : gmap Z Z :=
  list_to_map
    [ (rune "0", segs [segA; segB; segC; segD; segE; segF]);
      (rune "1", segs [segB; segC]);
      (rune "2", segs [segA; segB; segG; segE; segD]);
      (rune "3", segs [segA; segB; segG; segC; segD]);
      (rune "4", segs [segF; segG; segB; segC]);
      (rune "5", segs [segA; segF; segG; segC; segD]);
      (rune "6", segs [segA; segF; segE; segD; segC; segG]);
      (rune "7", segs [segA; segB; segC]);
      (rune "8", segs [segA; segB; segC; segD; segE; segF; segG]);
      (rune "9", segs [segA; segB; segC; segD; segF; segG]);
      (rune "A", segs [segA; segB; segC; segE; segF; segG]);
      (rune "B", segs [segF; segE; segD; segC; segG]);
      (rune "C", segs [segA; segF; segE; segD]);
      (rune "D", segs [segB; segC; segD; segE; segG]);
      (rune "E", segs [segA; segF; segG; segE; segD]);
      (rune "F", segs [segA; segF; segG; segE]);
      (rune "G", segs [segA; segF; segE; segD; segC]);
      (rune "H", segs [segF; segE; segG; segB; segC]);
      (rune "I", segs [segB; segC]);
      (rune "J", segs [segB; segC; segD; segE]);
      (rune "L", segs [segF; segE; segD]);
      (rune "O", segs [segA; segB; segC; segD; segE; segF]);
      (rune "P", segs [segA; segB; segG; segF; segE]);
      (rune "Q", segs [segA; segB; segC; segF; segG]);
      (rune "R", segs [segE; segG]);
      (rune "S", segs [segA; segF; segG; segC; segD]);
      (rune "U", segs [segB; segC; segD; segE; segF]);
      (rune "Y", segs [segF; segG; segB; segC; segD]);
      (rune " ", 0);
      (rune "-", segs [segG]);
      (rune "_", segs [segD]);
      (rune "'", segs [segB]);
      (34 (* double quote *), segs [segB; segF]);
      (rune "=", segs [segD; segG]);
      (rune "?", segs [segA; segB; segG; segE]) ].

(** [SetDigitOnDisplay(display, position int, char rune, dot bool)]: a
    rune that is not in the font map is shown as [font[' ']]. *)
Definition SetDigitOnDisplay {B} (d : Device B) (display position char : Z)
           (dot : bool) : Device B :=
  let pattern :=
    match font !! char with
    | Some pattern => pattern
    | None => default 0 (font !! rune " ")
    end in
  setPattern d display position pattern dot.

(** [SetDigit16(position int, char rune, dot bool)]. *)
Definition SetDigit16 {B} (d : Device B) (position char : Z) (dot : bool)
  : Device B :=
  if (position <? 0) || (position >=? MaxDigitsPerDisplay * NumDisplays)
  then d
  else
    let display := Z.quot position MaxDigitsPerDisplay in
    let digitInDisplay := Z.rem position MaxDigitsPerDisplay in
    SetDigitOnDisplay d display digitInDisplay char dot.

(** [ClearOnDisplay(display int)]. *)
Definition ClearOnDisplay {B} (d : Device B) (display : Z) : Device B :=
  if (display <? 0) || (display >=? NumDisplays)
  then d
  else
    for_upto (Z.to_nat MaxDigitsPerDisplay)
      (fun pos d =>
         setPattern d display (Z.of_nat pos) (default 0 (font !! rune " ")) false)
      d.

(** The loop of [WriteString]: no case folding in this revision. *)
Fixpoint WriteString_loop {B} (fuel : nat) (runes : list Z) (display : Z)
         (i digitPos : Z) (d : Device B) : Device B :=
  match fuel with
  | O => d
  | S fuel =>
      if (i <? Z.of_nat (length runes)) && (digitPos <? MaxDigitsPerDisplay)
      then
        let char := default 0 (runes !! Z.to_nat i) in
        match font !! char with
        | Some pattern =>
            let look :=
              (i + 1 <? Z.of_nat (length runes))
              && (default 0 (runes !! Z.to_nat (i + 1)) =? rune ".") in
            let dot := look in
            let i := if look then i + 1 else i in
            let d := setPattern d display digitPos pattern dot in
            WriteString_loop fuel runes display (i + 1) (digitPos + 1) d
        | None =>
            WriteString_loop fuel runes display (i + 1) digitPos d
        end
      else d
  end.

(** [WriteString(display int, s string)] on [runes = []rune(s)]. *)
Definition WriteString {B} (d : Device B) (display : Z) (runes : list Z)
  : Device B :=
  if (display <? 0) || (display >=? NumDisplays)
  then d
  else
    let d := ClearOnDisplay d display in
    WriteString_loop (length runes) runes display 0 0 d.

End RuneAPI.

(** A rune that the revisions with a font map treat as the digits-only
    revision does: a decimal digit, or a rune without a glyph. *)
Definition plain_rune (c : Z) : bool :=
  match font !! to_upper c with
  | Some _ => (c >=? rune "0") && (c <=? rune "9")
  | None => true
  end.

(** [SetBrightness] called once for each level of a list, first to last,
    with the level itself as argument: the calls of a fade, given by the
    arguments it passes. *)
Definition ramp {B} `{I2CBus B} (levels : list Z) (d : Device B) : Device B :=
  for_each levels (fun level d => SetBrightness d level) d.

(** While a fade is running, its step counter is a level the chip accepts. *)
Definition fadeStep_ok {B} (d : Device B) : Prop :=
  fadeState d = fadeStateIdle \/ 0 <= fadeStep d <= 15.

(** * Properties *)

(** ** Loops over a buffer *)

Lemma for_upto_S {S} (n : nat) (body : nat -> S -> S) (s : S) :
  for_upto (Datatypes.S n) body s = body n (for_upto n body s).
Proof.
  unfold for_upto. rewrite seq_S, fold_left_app. reflexivity.
Qed.

Lemma for_upto_ext {S} (n : nat) (f g : nat -> S -> S) (s : S) :
  (forall i x, (i < n)%nat -> f i x = g i x) ->
  for_upto n f s = for_upto n g s.
Proof.
  induction n as [|n IH]; intros Hfg; [reflexivity|].
  rewrite !for_upto_S, IH by (intros; apply Hfg; lia).
  apply Hfg; lia.
Qed.

(** Rows [off .. off+n-1] are rewritten by [f] where [c] selects them;
    every other row is left alone. *)
Lemma lookup_for_upto_alter (c : nat -> bool) (f : Z -> Z) (off n : nat)
      (l : list Z) (k : nat) :
  for_upto n (fun i buf => if c i then alter f (off + i)%nat buf else buf) l !! k
  = if decide (off <= k < off + n)%nat
    then (if c (k - off)%nat then f <$> l !! k else l !! k)
    else l !! k.
Proof.
  induction n as [|n IH].
  - cbn. destruct (decide _); [lia | reflexivity].
  - rewrite for_upto_S.
    destruct (c n) eqn:Hc.
    + destruct (decide (off + n = k)%nat) as [<-|Hne].
      * rewrite list_lookup_alter_eq, IH.
        replace (off + n - off)%nat with n by lia. rewrite Hc.
        repeat destruct (decide _); try lia. reflexivity.
      * rewrite list_lookup_alter_ne, IH by assumption.
        repeat destruct (decide _); try lia; reflexivity.
    + rewrite IH.
      repeat destruct (decide _); try lia; try reflexivity.
      assert (k = off + n)%nat as -> by lia.
      replace (off + n - off)%nat with n by lia. rewrite Hc. reflexivity.
Qed.

(** [for i := range buf { buf[i] = x }] *)
Lemma for_upto_fill (x : Z) (l : list Z) :
  for_upto (length l) (fun i buf => <[i := x]> buf) l = replicate (length l) x.
Proof.
  assert (Hgen : forall n k,
    for_upto n (fun i buf => <[i := x]> buf) l !! k
    = if decide (k < n)%nat then (fun _ => x) <$> l !! k else l !! k).
  { intros n k.
    rewrite (for_upto_ext n _
               (fun i buf => if true then alter (fun _ => x) (0 + i)%nat buf else buf))
      by (intros; cbn; apply list_insert_alter).
    rewrite (lookup_for_upto_alter (fun _ => true)).
    repeat destruct (decide _); try lia; reflexivity. }
  apply list_eq. intros k. rewrite Hgen.
  destruct (decide (k < length l)%nat) as [Hlt|Hge].
  - destruct (lookup_lt_is_Some_2 l k Hlt) as [y ->]. cbn.
    symmetry. apply lookup_replicate_2. exact Hlt.
  - rewrite lookup_ge_None_2 by lia.
    symmetry. apply lookup_ge_None_2. rewrite length_replicate. lia.
Qed.

(** ** Records *)

Lemma with_buffer_same {B} (d : Device B) : with_buffer d (buffer d) = d.
Proof. destruct d; reflexivity. Qed.

(** ** The bounds checks *)

Lemma position_guard_false (display position : Z) :
  0 <= display < NumDisplays -> 0 <= position < MaxDigitsPerDisplay ->
  (display <? 0) || (display >=? NumDisplays)
  || (position <? 0) || (position >=? MaxDigitsPerDisplay) = false.
Proof.
  unfold NumDisplays, MaxDigitsPerDisplay. intros Hd Hp.
  rewrite !Z.geb_leb.
  destruct (Z.ltb_spec display 0), (Z.leb_spec 2 display),
    (Z.ltb_spec position 0), (Z.leb_spec 8 position); try lia; reflexivity.
Qed.

Lemma position_guard_true (display position : Z) :
  ~ (0 <= display < NumDisplays) \/ ~ (0 <= position < MaxDigitsPerDisplay) ->
  (display <? 0) || (display >=? NumDisplays)
  || (position <? 0) || (position >=? MaxDigitsPerDisplay) = true.
Proof.
  unfold NumDisplays, MaxDigitsPerDisplay. intros Hout.
  rewrite !Z.geb_leb.
  destruct (Z.ltb_spec display 0), (Z.leb_spec 2 display),
    (Z.ltb_spec position 0), (Z.leb_spec 8 position); try lia; reflexivity.
Qed.

(** ** Bit masks *)

Lemma position_cases (position : Z) :
  0 <= position < MaxDigitsPerDisplay ->
  position = 0 \/ position = 1 \/ position = 2 \/ position = 3 \/
  position = 4 \/ position = 5 \/ position = 6 \/ position = 7.
Proof. unfold MaxDigitsPerDisplay. lia. Qed.

(** The bit of a digit slot and the mask that clears it are disjoint. *)
Lemma bit_mask_disjoint (position : Z) :
  0 <= position < MaxDigitsPerDisplay ->
  Z.land (u8 (Z.shiftl 1 position)) (Z.lxor 0xFF (u8 (Z.shiftl 1 position))) = 0.
Proof.
  intros Hp.
  destruct (position_cases position Hp) as [->|[->|[->|[->|[->|[->|[->| ->]]]]]]];
    reflexivity.
Qed.

Lemma bit_is_pow2 (position : Z) :
  0 <= position < MaxDigitsPerDisplay ->
  u8 (Z.shiftl 1 position) = 2 ^ position.
Proof.
  intros Hp.
  destruct (position_cases position Hp) as [->|[->|[->|[->|[->|[->|[->| ->]]]]]]];
    reflexivity.
Qed.

Lemma digit_row_idem (position pattern : Z) (dot : bool) (j : nat) (b : Z) :
  0 <= position < MaxDigitsPerDisplay ->
  digit_row position pattern dot j (digit_row position pattern dot j b)
  = digit_row position pattern dot j b.
Proof.
  intros Hp. unfold digit_row. cbv zeta.
  pose proof (bit_mask_disjoint position Hp) as Hdis.
  set (s := u8 (Z.shiftl 1 position)) in *.
  set (m := Z.lxor 255 s) in *.
  destruct (if (j <? 7)%nat then _ else dot).
  - rewrite Z.land_lor_distr_l, Hdis, Z.lor_0_r.
    rewrite <- Z.land_assoc, Z.land_diag. reflexivity.
  - rewrite <- Z.land_assoc, Z.land_diag. reflexivity.
Qed.

Section Codec.
Context {B : Type} `{I2CBus B}.

(** [setPattern] touches the buffer only. *)
Lemma setPattern_frame (d : Device B) (display position pattern : Z) (dot : bool) :
  setPattern d display position pattern dot
  = with_buffer d (buffer (setPattern d display position pattern dot)).
Proof.
  unfold setPattern. destruct (_ || _); cbn; [symmetry; apply with_buffer_same|].
  reflexivity.
Qed.

(** The contract of the buffer codec, row by row. *)
Lemma lookup_setPattern (d : Device B) (display position pattern : Z)
      (dot : bool) (k : nat) :
  0 <= display < NumDisplays -> 0 <= position < MaxDigitsPerDisplay ->
  buffer (setPattern d display position pattern dot) !! k
  = if decide (Z.to_nat (display * 8) <= k < Z.to_nat (display * 8) + 8)%nat
    then digit_row position pattern dot (k - Z.to_nat (display * 8)) <$> buffer d !! k
    else buffer d !! k.
Proof.
  intros Hd Hp. unfold setPattern.
  rewrite position_guard_false by assumption.
  unfold NumDisplays, MaxDigitsPerDisplay in *. cbn [buffer with_buffer].
  set (off := Z.to_nat (display * 8)).
  set (s := u8 (Z.shiftl 1 position)).
  set (m := Z.lxor 255 s).
  assert (Hidx : forall i : nat, Z.to_nat (display * 8 + Z.of_nat i) = (off + i)%nat)
    by (intros; unfold off; lia).
  replace (display * 8 + 7) with (display * 8 + Z.of_nat 7) by lia.
  rewrite Hidx.
  rewrite (for_upto_ext (Z.to_nat 8) _
             (fun i buf => if true then alter (fun b => Z.land b m) (off + i)%nat buf
                           else buf))
    by (intros; rewrite Hidx; reflexivity).
  rewrite (for_upto_ext 7 _
             (fun seg buf =>
                if Z.land (Z.shiftr pattern (Z.of_nat seg)) 1 =? 1
                then alter (fun b => Z.lor b s) (off + seg)%nat buf else buf))
    by (intros; rewrite Hidx; reflexivity).
  set (cleared := for_upto (Z.to_nat 8) _ (buffer d)).
  set (segs := for_upto 7 _ cleared).
  assert (Hcleared : forall k,
    cleared !! k = if decide (off <= k < off + 8)%nat
                   then (fun b => Z.land b m) <$> buffer d !! k else buffer d !! k).
  { intros k'. unfold cleared.
    rewrite (lookup_for_upto_alter (fun _ => true)).
    change (Z.to_nat 8) with 8%nat. reflexivity. }
  assert (Hsegs : forall k,
    segs !! k = if decide (off <= k < off + 7)%nat
                then (if Z.land (Z.shiftr pattern (Z.of_nat (k - off))) 1 =? 1
                      then (fun b => Z.lor b s) <$> cleared !! k else cleared !! k)
                else cleared !! k).
  { intros k'. unfold segs.
    apply (lookup_for_upto_alter
             (fun seg => Z.land (Z.shiftr pattern (Z.of_nat seg)) 1 =? 1)). }
  unfold digit_row. fold s. fold m.
  destruct dot.
  - destruct (decide (off + 7 = k)%nat) as [<-|Hne].
    + rewrite list_lookup_alter_eq, Hsegs, Hcleared.
      repeat destruct (decide _); try lia.
      replace (off + 7 - off)%nat with 7%nat by lia. cbn [Nat.ltb Nat.leb].
      destruct (buffer d !! (off + 7)%nat); reflexivity.
    + rewrite list_lookup_alter_ne, Hsegs, Hcleared by assumption.
      repeat destruct (decide _); try lia; try reflexivity.
      destruct (Nat.ltb_spec (k - off) 7); [|lia].
      destruct (_ =? 1); destruct (buffer d !! k); reflexivity.
  - rewrite Hsegs, Hcleared.
    repeat destruct (decide _); try lia; try reflexivity.
    + destruct (Nat.ltb_spec (k - off) 7); [|lia].
      destruct (_ =? 1); destruct (buffer d !! k); reflexivity.
    + destruct (Nat.ltb_spec (k - off) 7); [lia|].
      destruct (buffer d !! k); reflexivity.
Qed.

End Codec.

(** ** Digit writes *)

Section DigitWrites.
Context {B : Type} `{I2CBus B}.

(** [SetDigitOnDisplay] is [setPattern] at the glyph of ['0' + num]. *)
Lemma SetDigitOnDisplay_setPattern (d : Device B) (display position num : Z)
      (dot : bool) :
  SetDigitOnDisplay d display position num dot
  = setPattern d display position (default 0 (font !! u8 (rune "0" + num))) dot.
Proof. reflexivity. Qed.

Lemma setPattern_out_of_range (d : Device B) (display position pattern : Z)
      (dot : bool) :
  ~ (0 <= display < NumDisplays) \/ ~ (0 <= position < MaxDigitsPerDisplay) ->
  setPattern d display position pattern dot = d.
Proof.
  intros Hout. unfold setPattern.
  rewrite position_guard_true by assumption. reflexivity.
Qed.

(** Writing the same digit twice is writing it once, for all arguments. *)
Lemma setPattern_twice (d : Device B) (display position pattern : Z) (dot : bool) :
  setPattern (setPattern d display position pattern dot)
             display position pattern dot
  = setPattern d display position pattern dot.
Proof.
  destruct (decide (0 <= display < NumDisplays)) as [Hd|Hd];
    [|rewrite !setPattern_out_of_range by tauto; reflexivity].
  destruct (decide (0 <= position < MaxDigitsPerDisplay)) as [Hp|Hp];
    [|rewrite !setPattern_out_of_range by tauto; reflexivity].
  set (d1 := setPattern d display position pattern dot).
  assert (Hbuf : buffer (setPattern d1 display position pattern dot) = buffer d1).
  { apply list_eq. intros k.
    rewrite (lookup_setPattern d1) by assumption.
    unfold d1. rewrite (lookup_setPattern d) by assumption.
    destruct (decide _); [|reflexivity].
    destruct (buffer d !! k); cbn; [|reflexivity].
    rewrite digit_row_idem by assumption. reflexivity. }
  rewrite (setPattern_frame d1), Hbuf. apply with_buffer_same.
Qed.

(** C2.  For display 0 or 1, a position from 0 to 7, a pattern from 0 to
    127, either value of the dot and any device (hence any buffer), writing
    a digit twice with the same arguments leaves the device, and so its
    buffer, exactly as writing it once does.  This holds for the codec
    [setPattern] and for [SetDigitOnDisplay] built on the same steps. *)
Theorem setPattern_idempotent (d : Device B) (display position pattern : Z)
        (dot : bool) (num : Z) :
  0 <= display <= 1 -> 0 <= position <= 7 -> 0 <= pattern <= 127 ->
  setPattern (setPattern d display position pattern dot)
             display position pattern dot
  = setPattern d display position pattern dot
  /\ SetDigitOnDisplay (SetDigitOnDisplay d display position num dot)
                       display position num dot
     = SetDigitOnDisplay d display position num dot.
Proof.
  intros _ _ _. split.
  - apply setPattern_twice.
  - rewrite !SetDigitOnDisplay_setPattern. apply setPattern_twice.
Qed.

(** C3.  For a position from 0 to 15 on the 16-digit view, any digit
    argument, dot and device, [SetDigit16] yields the same device (the same
    buffer) as [SetDigitOnDisplay] on display [position / 8] at digit
    [position mod 8], that is, as the codec [setPattern] there with the
    glyph of the digit. *)
Theorem SetDigit16_remap (d : Device B) (position num : Z) (dot : bool) :
  0 <= position <= 15 ->
  SetDigit16 d position num dot
  = SetDigitOnDisplay d (position / 8) (position mod 8) num dot
  /\ SetDigit16 d position num dot
     = setPattern d (position / 8) (position mod 8)
                  (default 0 (font !! u8 (rune "0" + num))) dot.
Proof.
  intros Hp.
  assert (Heq : SetDigit16 d position num dot
                = SetDigitOnDisplay d (position / 8) (position mod 8) num dot).
  { unfold SetDigit16, MaxDigitsPerDisplay, NumDisplays.
    rewrite Z.geb_leb.
    destruct (Z.ltb_spec position 0); [lia|].
    destruct (Z.leb_spec (8 * 2) position); [lia|]. cbn [orb].
    rewrite Z.quot_div_nonneg, Z.rem_mod_nonneg by lia. reflexivity. }
  split; [exact Heq|].
  rewrite Heq. apply SetDigitOnDisplay_setPattern.
Qed.

(** C4.  A position outside 0..15 given to [SetDigit16], and a display
    outside 0..1 or a position outside 0..7 given to [setPattern] or
    [SetDigitOnDisplay], leave the whole device, buffer included, as it
    was; the call returns normally and reports nothing. *)
Theorem out_of_range_is_noop (d : Device B) (position16 display position : Z)
        (pattern num : Z) (dot : bool) :
  position16 < 0 \/ 15 < position16 ->
  (display < 0 \/ 1 < display) \/ (position < 0 \/ 7 < position) ->
  SetDigit16 d position16 num dot = d
  /\ setPattern d display position pattern dot = d
  /\ SetDigitOnDisplay d display position num dot = d.
Proof.
  intros H16 Hdp.
  assert (Hout : ~ (0 <= display < NumDisplays)
                 \/ ~ (0 <= position < MaxDigitsPerDisplay))
    by (unfold NumDisplays, MaxDigitsPerDisplay; lia).
  split; [|split].
  - unfold SetDigit16, MaxDigitsPerDisplay, NumDisplays.
    rewrite Z.geb_leb.
    destruct (Z.ltb_spec position16 0); [reflexivity|].
    destruct (Z.leb_spec (8 * 2) position16); [reflexivity|lia].
  - apply setPattern_out_of_range, Hout.
  - rewrite SetDigitOnDisplay_setPattern. apply setPattern_out_of_range, Hout.
Qed.

(** Fuel beyond the number of runes left does not change the result of the
    [WriteString] loop: the loop has stopped by then. *)
Lemma WriteString_loop_fuel (fuel1 fuel2 : nat) (runes : list Z)
      (display i digitPos : Z) (d : Device B) :
  0 <= i ->
  Z.of_nat (length runes) - i <= Z.of_nat fuel1 ->
  Z.of_nat (length runes) - i <= Z.of_nat fuel2 ->
  WriteString_loop fuel1 runes display i digitPos d
  = WriteString_loop fuel2 runes display i digitPos d.
Proof.
  revert fuel2 i digitPos d.
  induction fuel1 as [|fuel1 IH]; intros fuel2 i digitPos d Hi H1 H2.
  - destruct fuel2 as [|fuel2]; [reflexivity|]. cbn [WriteString_loop].
    destruct (Z.ltb_spec i (Z.of_nat (length runes))); [lia|]. reflexivity.
  - destruct fuel2 as [|fuel2].
    + cbn [WriteString_loop].
      destruct (Z.ltb_spec i (Z.of_nat (length runes))); [lia|]. reflexivity.
    + cbn [WriteString_loop].
      destruct (Z.ltb_spec i (Z.of_nat (length runes))); [|reflexivity].
      destruct (digitPos <? MaxDigitsPerDisplay); [|reflexivity].
      cbn [andb]. cbv zeta.
      destruct (font !! _); [|apply IH; lia].
      destruct (_ && _); apply IH; lia.
Qed.

(** C5.  On a fresh device, [WriteString(0, "1.")] followed by
    [WriteString(1, "2")] leaves the buffer
    [0,1,1,0,0,0,0,1, 1,1,0,1,1,0,1,0]: the glyph of '1' is segments b and c
    (0x06), shown with its decimal point in slot 0 of display A, and the
    glyph of '2' is segments a, b, d, e and g (0x5B), shown in slot 0 of
    display B. *)
Theorem WriteString_regression (b : B) (address : Z) :
  buffer (WriteString (WriteString (New b address) 0 (ascii_runes "1."))
                      1 (ascii_runes "2"))
  = [0; 1; 1; 0; 0; 0; 0; 1; 1; 1; 0; 1; 1; 0; 1; 0]
  /\ font !! rune "1" = Some (Z.lor 2 4)
  /\ font !! rune "2" = Some (Z.lor 1 (Z.lor 2 (Z.lor 8 (Z.lor 16 64)))).
Proof.
  split; [|split]; vm_compute; reflexivity.
Qed.

End DigitWrites.

(** Witnesses *)

Lemma setPattern_idempotent_witness :
  let d := New (MockI2C 0 []) 0x70 in
  setPattern (setPattern d 1 7 0x5B true) 1 7 0x5B true = setPattern d 1 7 0x5B true
  /\ SetDigitOnDisplay (SetDigitOnDisplay d 1 7 2 true) 1 7 2 true
     = SetDigitOnDisplay d 1 7 2 true.
Proof.
  apply (setPattern_idempotent (New (MockI2C 0 []) 0x70) 1 7 0x5B true 2); lia.
Defined.

Lemma SetDigit16_remap_witness :
  let d := New (MockI2C 0 []) 0x70 in
  SetDigit16 d 8 2 true = SetDigitOnDisplay d (8 / 8) (8 mod 8) 2 true
  /\ SetDigit16 d 8 2 true
     = setPattern d (8 / 8) (8 mod 8) (default 0 (font !! u8 (rune "0" + 2))) true.
Proof.
  apply (SetDigit16_remap (New (MockI2C 0 []) 0x70) 8 2 true); lia.
Defined.

Lemma out_of_range_is_noop_witness :
  let d := New (MockI2C 0 []) 0x70 in
  SetDigit16 d 16 8 true = d
  /\ setPattern d 2 0 0x7F true = d
  /\ SetDigitOnDisplay d 2 0 8 true = d.
Proof.
  apply (out_of_range_is_noop (New (MockI2C 0 []) 0x70) 16 2 0 0x7F 8 true); lia.
Defined.

(** ** Bus protocol *)

Lemma clamp15_range (level : Z) : 0 <= level -> 0 <= clamp15 level <= 15.
Proof. unfold clamp15. destruct (Z.ltb_spec 15 level); lia. Qed.

Lemma clamp15_min (level : Z) : clamp15 level = Z.min level 15.
Proof. unfold clamp15. destruct (Z.ltb_spec 15 level); lia. Qed.

(** The sixteen levels. *)
Lemma level_cases (level : Z) : 0 <= level <= 15 -> List.In level (countup 15).
Proof.
  intros Hl. unfold countup. apply List.in_map_iff.
  exists (Z.to_nat level). split; [lia|]. apply List.in_seq. lia.
Qed.

(** The level sits in the low four bits of the command byte. *)
Lemma brightness_byte (level : Z) :
  0 <= level <= 15 ->
  Z.lor ht16k33SetBrightness level = 0xE0 + level
  /\ Z.land (Z.lor ht16k33SetBrightness level) 0x0F = level
  /\ Z.land (Z.lor ht16k33SetBrightness level) 0xF0 = ht16k33SetBrightness.
Proof.
  intros Hl. pose proof (level_cases level Hl) as Hin.
  vm_compute in Hin.
  repeat (destruct Hin as [<-|Hin]; [repeat split; reflexivity|]).
  destruct Hin.
Qed.

Lemma u8_small (x : Z) : 0 <= x <= 255 -> u8 x = x.
Proof. intros Hx. unfold u8. apply Z.mod_small. lia. Qed.

Lemma u8_range (x : Z) : 0 <= u8 x <= 255.
Proof. unfold u8. pose proof (Z.mod_pos_bound x 256). lia. Qed.

Section Bus.
Context {B : Type} `{I2CBus B}.

Lemma TxAll_app (b : B) (addr : Z) (ws1 ws2 : list (list Z)) :
  TxAll b addr (ws1 ++ ws2) = TxAll (TxAll b addr ws1) addr ws2.
Proof. unfold TxAll. apply fold_left_app. Qed.

Lemma SetBrightness_eq (d : Device B) (level : Z) :
  SetBrightness d level
  = with_bus (with_currentBrightness d (clamp15 level))
             (TxAll (bus d) (Address d) [brightnessCommand level]).
Proof. reflexivity. Qed.

Lemma Display_eq (d : Device B) :
  Display d = with_bus d (TxAll (bus d) (Address d) [displayData (buffer d)]).
Proof. reflexivity. Qed.

(** C8.  For every level a [uint8] can hold, [SetBrightness] stores the
    level clamped to 0..15 (the minimum of the level and 15) and performs
    exactly one transfer, whose payload is the single byte made of the
    brightness command base 0xE0 OR'ed with the clamped level, which
    occupies its low four bits.  In particular [SetBrightness(20)] stores
    15 and [SetBrightness(0)] writes the byte [0xE0 | 0]. *)
Theorem SetBrightness_clamps (d : Device B) (level : Z) :
  0 <= level <= 255 ->
  currentBrightness (SetBrightness d level) = Z.min level 15
  /\ 0 <= currentBrightness (SetBrightness d level) <= 15
  /\ bus (SetBrightness d level)
     = fst (Tx (bus d) (Address d)
               [Z.lor ht16k33SetBrightness (Z.min level 15)] [])
  /\ Z.land (Z.lor ht16k33SetBrightness (Z.min level 15)) 0x0F = Z.min level 15
  /\ Z.land (Z.lor ht16k33SetBrightness (Z.min level 15)) 0xF0
     = ht16k33SetBrightness
  /\ currentBrightness (SetBrightness d 20) = 15
  /\ bus (SetBrightness d 0)
     = fst (Tx (bus d) (Address d) [Z.lor ht16k33SetBrightness 0] []).
Proof.
  intros Hl.
  assert (Hmin : 0 <= Z.min level 15 <= 15) by lia.
  destruct (brightness_byte _ Hmin) as (_ & Hlo & Hhi).
  unfold SetBrightness. cbn [currentBrightness bus Address with_bus
                               with_currentBrightness].
  change (if 15 <? level then 15 else level) with (clamp15 level).
  rewrite clamp15_min.
  repeat split; try assumption; try lia; reflexivity.
Qed.

(** C7.  [LightUpAll] leaves a buffer of sixteen bytes all equal to 0xFF,
    and a [Display] after it performs exactly one transfer, of 17 bytes:
    0x00 followed by sixteen 0xFF. *)
Theorem LightUpAll_then_Display (d : Device B) :
  length (buffer d) = 16%nat ->
  buffer (LightUpAll d) = replicate 16 0xFF
  /\ bus (Display (LightUpAll d))
     = fst (Tx (bus d) (Address d) (0x00 :: replicate 16 0xFF) [])
  /\ length (0x00 :: replicate 16 0xFF) = 17%nat.
Proof.
  intros Hlen.
  assert (Hbuf : buffer (LightUpAll d) = replicate 16 255).
  { unfold LightUpAll. cbn [buffer with_buffer].
    rewrite for_upto_fill, Hlen. reflexivity. }
  split; [exact Hbuf|]. split; [|reflexivity].
  unfold Display. rewrite Hbuf. reflexivity.
Qed.

End Bus.

Lemma SetBrightness_clamps_witness :
  let d := New (MockI2C 0 []) 0x70 in
  currentBrightness (SetBrightness d 200) = Z.min 200 15
  /\ 0 <= currentBrightness (SetBrightness d 200) <= 15
  /\ bus (SetBrightness d 200)
     = fst (Tx (bus d) (Address d) [Z.lor ht16k33SetBrightness (Z.min 200 15)] [])
  /\ Z.land (Z.lor ht16k33SetBrightness (Z.min 200 15)) 0x0F = Z.min 200 15
  /\ Z.land (Z.lor ht16k33SetBrightness (Z.min 200 15)) 0xF0
     = ht16k33SetBrightness
  /\ currentBrightness (SetBrightness d 20) = 15
  /\ bus (SetBrightness d 0)
     = fst (Tx (bus d) (Address d) [Z.lor ht16k33SetBrightness 0] []).
Proof.
  apply (SetBrightness_clamps (New (MockI2C 0 []) 0x70) 200); lia.
Defined.

Lemma LightUpAll_then_Display_witness :
  let d := New (MockI2C 0 []) 0x70 in
  buffer (LightUpAll d) = replicate 16 0xFF
  /\ bus (Display (LightUpAll d))
     = fst (Tx (bus d) (Address d) (0x00 :: replicate 16 0xFF) [])
  /\ length (0x00 :: replicate 16 0xFF) = 17%nat.
Proof.
  apply (LightUpAll_then_Display (New (MockI2C 0 []) 0x70)); reflexivity.
Defined.

(** ** Transport errors *)

Section TransportErrors.
Context {B : Type} `{I2CBus B}.

Lemma fields_SetBrightness (d : Device B) (level : Z) :
  fields (SetBrightness d level)
  = with_currentBrightness (fields d) (clamp15 level).
Proof. reflexivity. Qed.

Lemma fields_Display (d : Device B) : fields (Display d) = fields d.
Proof. reflexivity. Qed.

Lemma fields_Configure (d : Device B) :
  fields (Configure d) = with_currentBrightness (fields d) 15.
Proof. reflexivity. Qed.

(** C1, as the code has it.  [SetBrightness], [Display] and [Configure]
    have no result.  Each performs its transfers exactly once and in order
    (one brightness command; one display-RAM write; oscillator-on,
    display-on and brightness 15), whatever error a transfer returns, and
    the device they leave behind is determined by the device they started
    from: two devices that differ only in their bus, hence in the errors
    it returns, end up with the same fields.  The error of [Tx] is
    dropped, not handed to the caller, and the transfer is not retried. *)
Theorem bus_errors_are_dropped (d d' : Device B) (level : Z) :
  fields d = fields d' ->
  (bus (SetBrightness d level)
   = TxAll (bus d) (Address d) [brightnessCommand level]
   /\ fields (SetBrightness d level) = fields (SetBrightness d' level))
  /\ (bus (Display d) = TxAll (bus d) (Address d) [displayData (buffer d)]
      /\ fields (Display d) = fields (Display d'))
  /\ (bus (Configure d)
      = TxAll (bus d) (Address d)
              [[ht16k33TurnOnOscillator]; [ht16k33TurnOnDisplay];
               brightnessCommand 15]
      /\ fields (Configure d) = fields (Configure d')).
Proof.
  intros Hsame.
  rewrite !fields_SetBrightness, !fields_Display, !fields_Configure, Hsame.
  repeat split; reflexivity.
Qed.

End TransportErrors.

(** C1 fails on the code.  On [failing_bus] the transfer made by
    [SetBrightness(5)] on a fresh device returns an error, on [healthy_bus]
    it returns [nil]; the transfer of [Display] fails likewise, and
    [Configure] uses up the three scripted failures, one per transfer.
    Yet each operation leaves the same device
    fields in both cases and has no other result, so nothing the caller
    receives tells the failure from the success: no function of what
    [SetBrightness] hands back yields the error in one case and [nil] in
    the other. *)
Lemma transport_error_is_swallowed :
  let d_bad := New failing_bus 0x70 in
  let d_ok := New healthy_bus 0x70 in
  snd (Tx (bus d_bad) (Address d_bad) (brightnessCommand 5) []) = Some nack
  /\ snd (Tx (bus d_ok) (Address d_ok) (brightnessCommand 5) []) = None
  /\ snd (Tx (bus d_bad) (Address d_bad) (displayData (buffer d_bad)) [])
     = Some nack
  /\ script (bus (Configure d_bad)) = []
  /\ fields (SetBrightness d_bad 5) = fields (SetBrightness d_ok 5)
  /\ fields (Display d_bad) = fields (Display d_ok)
  /\ fields (Configure d_bad) = fields (Configure d_ok)
  /\ sent (bus (SetBrightness d_bad 5)) = [(0x70, [0xE5])]
  /\ ~ (exists report : Device unit -> option error,
           report (fields (SetBrightness d_bad 5)) = Some nack
           /\ report (fields (SetBrightness d_ok 5)) = None).
Proof.
  cbv zeta. repeat split; try reflexivity.
  intros (report & Hbad & Hok).
  change (fields (SetBrightness (New failing_bus 112) 5))
    with (fields (SetBrightness (New healthy_bus 112) 5)) in Hbad.
  congruence.
Qed.

Lemma bus_errors_are_dropped_witness :
  let d := New failing_bus 0x70 in
  let d' := New healthy_bus 0x70 in
  (bus (SetBrightness d 5) = TxAll (bus d) (Address d) [brightnessCommand 5]
   /\ fields (SetBrightness d 5) = fields (SetBrightness d' 5))
  /\ (bus (Display d) = TxAll (bus d) (Address d) [displayData (buffer d)]
      /\ fields (Display d) = fields (Display d'))
  /\ (bus (Configure d)
      = TxAll (bus d) (Address d)
              [[ht16k33TurnOnOscillator]; [ht16k33TurnOnDisplay];
               brightnessCommand 15]
      /\ fields (Configure d) = fields (Configure d')).
Proof.
  apply (bus_errors_are_dropped (New failing_bus 0x70) (New healthy_bus 0x70) 5).
  reflexivity.
Defined.

(** ** Brightness ramps *)

Lemma last_cons {A} (a d : A) (l : list A) : List.last (a :: l) d = List.last l a.
Proof.
  revert a d. induction l as [|x l IH]; intros a d; [reflexivity|].
  change (List.last (a :: x :: l) d) with (List.last (x :: l) d).
  rewrite !IH. reflexivity.
Qed.

Lemma countdown_range (hi : Z) :
  hi <= 255 -> Forall (fun i => 0 <= i <= 255) (countdown hi).
Proof.
  intros Hhi. apply List.Forall_forall. intros i Hin.
  apply List.in_map_iff in Hin as (k & <- & Hk).
  apply List.in_rev in Hk.
  apply List.in_seq in Hk. lia.
Qed.

Lemma countup_range (hi : Z) :
  hi <= 255 -> Forall (fun i => 0 <= i <= 255) (countup hi).
Proof.
  intros Hhi. apply List.Forall_forall. intros i Hin.
  apply List.in_map_iff in Hin as (k & <- & Hk).
  apply List.in_seq in Hk. lia.
Qed.

Lemma length_countdown (hi : Z) : length (countdown hi) = Z.to_nat (hi + 1).
Proof. unfold countdown. rewrite List.length_map, List.length_rev, List.length_seq. reflexivity. Qed.

Lemma countdown_succ (n : nat) :
  countdown (Z.of_nat (S n)) = Z.of_nat (S n) :: countdown (Z.of_nat n).
Proof.
  unfold countdown.
  replace (Z.to_nat (Z.of_nat (S n) + 1)) with (S (S n)) by lia.
  replace (Z.to_nat (Z.of_nat n + 1)) with (S n) by lia.
  rewrite (seq_S (S n)), List.rev_app_distr. reflexivity.
Qed.

Section Ramps.
Context {B : Type} `{I2CBus B}.

(** A loop of [SetBrightness(uint8(i))] over levels that fit a [uint8]:
    one brightness command per level, in order; the last level is the one
    that stays stored; nothing else changes. *)
Lemma for_each_SetBrightness (levels : list Z) (d : Device B) :
  Forall (fun i => 0 <= i <= 255) levels ->
  for_each levels (fun i d => SetBrightness d (u8 i)) d
  = with_bus
      (with_currentBrightness d
         (List.last (List.map clamp15 levels) (currentBrightness d)))
      (TxAll (bus d) (Address d) (List.map brightnessCommand levels)).
Proof.
  revert d. induction levels as [|i levels IH]; intros d Hall.
  - destruct d; reflexivity.
  - inversion Hall as [|? ? Hi Hrest]; subst.
    unfold for_each in *. cbn [fold_left].
    rewrite IH by assumption.
    rewrite u8_small by assumption.
    cbn [List.map]. rewrite last_cons.
    rewrite SetBrightness_eq. reflexivity.
Qed.

(** C9, as the code has it.  From a device whose stored brightness is [b0]
    (any [uint8] value), the blocking fade performs, in this order: [b0+1]
    brightness commands for the levels [b0, b0-1, ..., 0] (sixteen of them
    exactly when [b0] is 15; a level above 15 is sent as 15), one
    display-RAM write of the buffer, the sixteen brightness commands for
    the levels [0, 1, ..., 15], and one more brightness command for level
    15.  It ends with stored brightness 15 and changes nothing else. *)
Theorem DisplayFadeBlocking_trace (d : Device B) (delay : Z) :
  0 <= currentBrightness d <= 255 ->
  bus (DisplayFadeBlocking d delay)
  = TxAll (bus d) (Address d)
          (List.map brightnessCommand (countdown (currentBrightness d))
           ++ [displayData (buffer d)]
           ++ List.map brightnessCommand (countup 15)
           ++ [brightnessCommand 15])
  /\ Z.of_nat (length (countdown (currentBrightness d)))
     = currentBrightness d + 1
  /\ length (countup 15) = 16%nat
  /\ currentBrightness (DisplayFadeBlocking d delay) = 15
  /\ fields (DisplayFadeBlocking d delay) = with_currentBrightness (fields d) 15.
Proof.
  intros Hb.
  unfold DisplayFadeBlocking.
  rewrite (for_each_SetBrightness (countdown _)) by (apply countdown_range; lia).
  rewrite Display_eq.
  rewrite (for_each_SetBrightness (countup 15)) by (apply countup_range; lia).
  rewrite SetBrightness_eq.
  cbn [bus Address buffer currentBrightness with_bus with_currentBrightness].
  rewrite !TxAll_app.
  rewrite length_countdown.
  repeat split; try reflexivity. lia.
Qed.

End Ramps.

(** C9 fails on the code.  After [SetBrightness(5)] the blocking fade
    writes six brightness commands (levels 5 down to 0) before the
    display-RAM write, not sixteen, and seventeen after it (levels 0 up to
    15, then 15 once more). *)
Lemma blocking_fade_from_level_5 :
  List.map snd (drop 1 (sent (bus (DisplayFadeBlocking dimmed 1000))))
  = [ [0xE5]; [0xE4]; [0xE3]; [0xE2]; [0xE1]; [0xE0];
      0x00 :: replicate 16 0x00;
      [0xE0]; [0xE1]; [0xE2]; [0xE3]; [0xE4]; [0xE5]; [0xE6]; [0xE7];
      [0xE8]; [0xE9]; [0xEA]; [0xEB]; [0xEC]; [0xED]; [0xEE]; [0xEF];
      [0xEF] ]
  /\ blocking_fade_steps dimmed = (6%nat, 17%nat)
  /\ blocking_fade_steps dimmed <> (16%nat, 16%nat).
Proof.
  split; [vm_compute; reflexivity|].
  split; [vm_compute; reflexivity|].
  vm_compute. discriminate.
Qed.

Lemma DisplayFadeBlocking_trace_witness :
  let d := dimmed in
  bus (DisplayFadeBlocking d 1000)
  = TxAll (bus d) (Address d)
          (List.map brightnessCommand (countdown (currentBrightness d))
           ++ [displayData (buffer d)]
           ++ List.map brightnessCommand (countup 15)
           ++ [brightnessCommand 15])
  /\ Z.of_nat (length (countdown (currentBrightness d)))
     = currentBrightness d + 1
  /\ length (countup 15) = 16%nat
  /\ currentBrightness (DisplayFadeBlocking d 1000) = 15
  /\ fields (DisplayFadeBlocking d 1000) = with_currentBrightness (fields d) 15.
Proof.
  apply (DisplayFadeBlocking_trace dimmed 1000). vm_compute. split; discriminate.
Defined.

(** ** Non-blocking fade *)

Lemma well_spaced_app (delay last : Z) (t1 t2 : list tick) :
  well_spaced delay last (t1 ++ t2)
  = well_spaced delay last t1
    && well_spaced delay (List.last (List.map snd t1) last) t2.
Proof.
  revert last. induction t1 as [|t t1 IH]; intros last; [reflexivity|].
  cbn [app well_spaced List.map]. rewrite IH, last_cons, andb_assoc.
  reflexivity.
Qed.

Lemma filter_flush_commands (levels : list Z) :
  List.filter is_flush (List.map brightnessCommand levels) = [].
Proof. induction levels as [|i levels IH]; [reflexivity|exact IH]. Qed.

Section Fade.
Context {B : Type} `{I2CBus B}.

Lemma run_ticks_app (d : Device B) (t1 t2 : list tick) :
  run_ticks d (t1 ++ t2) = run_ticks (run_ticks d t1) t2.
Proof. unfold run_ticks. apply fold_left_app. Qed.

Lemma run_ticks_cons (d : Device B) (t : tick) (ticks : list tick) :
  run_ticks d (t :: ticks)
  = run_ticks (fst (UpdateFade d (fst t) (snd t))) ticks.
Proof. reflexivity. Qed.

(** *** Single ticks *)

Lemma UpdateFade_idle (d : Device B) (checked stamped : Z) :
  fadeState d = fadeStateIdle ->
  UpdateFade d checked stamped = (d, false).
Proof.
  intros Hs. unfold UpdateFade, IsFading. rewrite Hs. reflexivity.
Qed.

Lemma UpdateFade_too_early (d : Device B) (checked stamped : Z) :
  checked - lastUpdateTime d < fadeDelay d ->
  UpdateFade d checked stamped = (d, IsFading d).
Proof.
  intros Hearly. unfold UpdateFade.
  destruct (Z.ltb_spec (checked - lastUpdateTime d) (fadeDelay d)); [|lia].
  rewrite orb_true_r. reflexivity.
Qed.

(** Fading out above step 0: one brightness command, no display write. *)
Lemma UpdateFade_out_step (d : Device B) (checked stamped : Z) :
  fadeState d = fadeStateOut -> 0 < fadeStep d <= 255 ->
  fadeDelay d <= checked - lastUpdateTime d ->
  UpdateFade d checked stamped
  = (mkDevice (TxAll (bus d) (Address d) [brightnessCommand (fadeStep d)])
              (Address d) (buffer d) (clamp15 (fadeStep d))
              fadeStateOut (fadeStep d - 1) stamped (fadeDelay d), true).
Proof.
  intros Hs Hrange Hdue.
  destruct d as [b a buf cb fs st lt fd]; cbn in *; subst fs.
  unfold UpdateFade. cbn.
  destruct (Z.ltb_spec (checked - lt) fd); [lia|].
  cbn. destruct (Z.ltb_spec (st - 1) 0); [lia|].
  rewrite u8_small by lia. reflexivity.
Qed.

(** Fading out at step 0: the step counter goes below 0, the buffer is
    written to the display RAM and the machine turns to fading in. *)
Lemma UpdateFade_out_last (d : Device B) (checked stamped : Z) :
  fadeState d = fadeStateOut -> fadeStep d = 0 ->
  fadeDelay d <= checked - lastUpdateTime d ->
  UpdateFade d checked stamped
  = (mkDevice (TxAll (bus d) (Address d)
                     [brightnessCommand 0; displayData (buffer d)])
              (Address d) (buffer d) 0
              fadeStateIn 0 stamped (fadeDelay d), true).
Proof.
  intros Hs Hstep Hdue.
  destruct d as [b a buf cb fs st lt fd]; cbn in *; subst fs st.
  unfold UpdateFade. cbn.
  destruct (Z.ltb_spec (checked - lt) fd); [lia|].
  reflexivity.
Qed.

Lemma UpdateFade_in_step (d : Device B) (checked stamped : Z) :
  fadeState d = fadeStateIn -> 0 <= fadeStep d < 15 ->
  fadeDelay d <= checked - lastUpdateTime d ->
  UpdateFade d checked stamped
  = (mkDevice (TxAll (bus d) (Address d) [brightnessCommand (fadeStep d)])
              (Address d) (buffer d) (clamp15 (fadeStep d))
              fadeStateIn (fadeStep d + 1) stamped (fadeDelay d), true).
Proof.
  intros Hs Hrange Hdue.
  destruct d as [b a buf cb fs st lt fd]; cbn in *; subst fs.
  unfold UpdateFade. cbn.
  destruct (Z.ltb_spec (checked - lt) fd); [lia|].
  cbn. destruct (Z.ltb_spec 15 (st + 1)); [lia|].
  rewrite u8_small by lia. reflexivity.
Qed.

Lemma UpdateFade_in_last (d : Device B) (checked stamped : Z) :
  fadeState d = fadeStateIn -> fadeStep d = 15 ->
  fadeDelay d <= checked - lastUpdateTime d ->
  UpdateFade d checked stamped
  = (mkDevice (TxAll (bus d) (Address d) [brightnessCommand 15])
              (Address d) (buffer d) 15
              fadeStateIdle 16 stamped (fadeDelay d), false).
Proof.
  intros Hs Hstep Hdue.
  destruct d as [b a buf cb fs st lt fd]; cbn in *; subst fs st.
  unfold UpdateFade. cbn.
  destruct (Z.ltb_spec (checked - lt) fd); [lia|].
  reflexivity.
Qed.

(** *** Phases *)

Lemma StartFade_idle (d : Device B) (delay now : Z) :
  fadeState d = fadeStateIdle ->
  StartFade d delay now
  = mkDevice (bus d) (Address d) (buffer d) (currentBrightness d)
             fadeStateOut (currentBrightness d) now delay.
Proof.
  intros Hs. unfold StartFade. rewrite Hs. reflexivity.
Qed.

Lemma run_ticks_idle (d : Device B) (ticks : list tick) :
  fadeState d = fadeStateIdle -> run_ticks d ticks = d.
Proof.
  intros Hs. induction ticks as [|t ticks IH]; [reflexivity|].
  unfold run_ticks in *. cbn [fold_left].
  rewrite UpdateFade_idle by assumption. exact IH.
Qed.

(** [j] ticks of fading out that leave [m] steps to go: [j] brightness
    commands, the machine still fading out. *)
Lemma fade_out_prefix (j m : nat) (d : Device B) (ticks : list tick) :
  fadeState d = fadeStateOut ->
  fadeStep d = Z.of_nat (j + m) -> Z.of_nat (j + m) <= 255 ->
  well_spaced (fadeDelay d) (lastUpdateTime d) ticks = true ->
  length ticks = j ->
  run_ticks d ticks
  = mkDevice
      (TxAll (bus d) (Address d)
             (List.map brightnessCommand (take j (countdown (Z.of_nat (j + m))))))
      (Address d) (buffer d)
      (List.last (List.map clamp15 (take j (countdown (Z.of_nat (j + m)))))
                 (currentBrightness d))
      fadeStateOut (Z.of_nat m)
      (List.last (List.map snd ticks) (lastUpdateTime d)) (fadeDelay d).
Proof.
  revert d ticks. induction j as [|j IH]; intros d ticks Hs Hstep Hmax Hsp Hlen.
  - destruct ticks; [|discriminate].
    destruct d as [b a buf cb fs st lt fd]; cbn in *; subst. reflexivity.
  - destruct ticks as [|t ticks]; [discriminate|].
    cbn [well_spaced] in Hsp. apply andb_true_iff in Hsp as [Hdue Hsp].
    apply Z.leb_le in Hdue.
    rewrite run_ticks_cons.
    rewrite (UpdateFade_out_step d) by (assumption || lia).
    cbn [fst].
    rewrite IH; cbn [bus Address buffer currentBrightness fadeState fadeStep
                         lastUpdateTime fadeDelay];
      [ | reflexivity | rewrite Hstep; lia | lia | exact Hsp
        | cbn in Hlen; lia ].
    rewrite Hstep.
    change (S j + m)%nat with (S (j + m)).
    rewrite countdown_succ. cbn [take List.map]. rewrite !last_cons.
    reflexivity.
Qed.

(** [j] ticks of fading in from step [s], not beyond step 15. *)
Lemma fade_in_prefix (j s : nat) (d : Device B) (ticks : list tick) :
  fadeState d = fadeStateIn ->
  fadeStep d = Z.of_nat s -> (s + j <= 15)%nat ->
  well_spaced (fadeDelay d) (lastUpdateTime d) ticks = true ->
  length ticks = j ->
  run_ticks d ticks
  = mkDevice
      (TxAll (bus d) (Address d)
             (List.map brightnessCommand (List.map Z.of_nat (seq s j))))
      (Address d) (buffer d)
      (List.last (List.map clamp15 (List.map Z.of_nat (seq s j)))
                 (currentBrightness d))
      fadeStateIn (Z.of_nat (s + j))
      (List.last (List.map snd ticks) (lastUpdateTime d)) (fadeDelay d).
Proof.
  revert s d ticks.
  induction j as [|j IH]; intros s d ticks Hs Hstep Hmax Hsp Hlen.
  - destruct ticks; [|discriminate].
    destruct d as [b a buf cb fs st lt fd]; cbn in *; subst.
    rewrite Nat.add_0_r. reflexivity.
  - destruct ticks as [|t ticks]; [discriminate|].
    cbn [well_spaced] in Hsp. apply andb_true_iff in Hsp as [Hdue Hsp].
    apply Z.leb_le in Hdue.
    rewrite run_ticks_cons.
    rewrite (UpdateFade_in_step d) by (assumption || lia).
    cbn [fst].
    rewrite (IH (S s));
      cbn [bus Address buffer currentBrightness fadeState fadeStep
               lastUpdateTime fadeDelay];
      [ | reflexivity | rewrite Hstep; lia | lia | exact Hsp
        | cbn in Hlen; lia ].
    rewrite Hstep.
    cbn [seq List.map]. rewrite !last_cons.
    replace (S s + j)%nat with (s + S j)%nat by lia.
    reflexivity.
Qed.

Lemma countdown_split (n : nat) :
  countdown (Z.of_nat n) = take n (countdown (Z.of_nat n)) ++ [0].
Proof.
  induction n as [|n IH]; [reflexivity|].
  rewrite countdown_succ. cbn [firstn app]. rewrite <- IH. reflexivity.
Qed.

(** A whole fade, tick by tick: [n] ticks of fading out, the tick of the
    hand-over, fifteen ticks of fading in and the tick that ends it. *)
Lemma fade_decomposed (n : nat) (d : Device B) (delay now : Z)
      (t1 t2 : list tick) (tA tB : tick) :
  fadeState d = fadeStateIdle ->
  currentBrightness d = Z.of_nat n -> Z.of_nat n <= 255 ->
  length t1 = n -> length t2 = 15%nat ->
  well_spaced delay now (t1 ++ tA :: t2 ++ [tB]) = true ->
  run_ticks (StartFade d delay now) t1
  = mkDevice
      (TxAll (bus d) (Address d)
             (List.map brightnessCommand (take n (countdown (Z.of_nat n)))))
      (Address d) (buffer d)
      (List.last (List.map clamp15 (take n (countdown (Z.of_nat n))))
                 (currentBrightness d))
      fadeStateOut 0 (List.last (List.map snd t1) now) delay
  /\ run_ticks (StartFade d delay now) (t1 ++ [tA])
     = mkDevice
         (TxAll (bus d) (Address d)
                (List.map brightnessCommand (countdown (Z.of_nat n))
                 ++ [displayData (buffer d)]))
         (Address d) (buffer d) 0 fadeStateIn 0 (snd tA) delay
  /\ run_ticks (StartFade d delay now) (t1 ++ tA :: t2 ++ [tB])
     = mkDevice
         (TxAll (bus d) (Address d)
                (List.map brightnessCommand (countdown (Z.of_nat n))
                 ++ [displayData (buffer d)]
                 ++ List.map brightnessCommand (countup 15)))
         (Address d) (buffer d) 15 fadeStateIdle 16 (snd tB) delay.
Proof.
  intros Hidle Hcb Hmax Hl1 Hl2 Hsp.
  rewrite StartFade_idle by assumption.
  set (d0 := mkDevice (bus d) (Address d) (buffer d) (currentBrightness d)
                      fadeStateOut (currentBrightness d) now delay).
  rewrite well_spaced_app in Hsp. apply andb_true_iff in Hsp as [Hsp1 Hsp].
  cbn [well_spaced] in Hsp. apply andb_true_iff in Hsp as [HdueA Hsp].
  apply Z.leb_le in HdueA.
  rewrite well_spaced_app in Hsp. apply andb_true_iff in Hsp as [Hsp2 Hsp].
  cbn [well_spaced] in Hsp. rewrite andb_true_r in Hsp.
  apply Z.leb_le in Hsp. rename Hsp into HdueB.
  (* fading out *)
  assert (E1 : run_ticks d0 t1
    = mkDevice
        (TxAll (bus d) (Address d)
               (List.map brightnessCommand (take n (countdown (Z.of_nat n)))))
        (Address d) (buffer d)
        (List.last (List.map clamp15 (take n (countdown (Z.of_nat n))))
                   (currentBrightness d))
        fadeStateOut 0 (List.last (List.map snd t1) now) delay).
  { rewrite (fade_out_prefix n 0 d0 t1);
      rewrite ?Nat.add_0_r; cbn; first [reflexivity | assumption | lia]. }
  (* the hand-over *)
  assert (E2 : run_ticks d0 (t1 ++ [tA])
    = mkDevice
        (TxAll (bus d) (Address d)
               (List.map brightnessCommand (countdown (Z.of_nat n))
                ++ [displayData (buffer d)]))
        (Address d) (buffer d) 0 fadeStateIn 0 (snd tA) delay).
  { rewrite run_ticks_app, E1, run_ticks_cons.
    rewrite UpdateFade_out_last by (cbn; first [reflexivity | assumption]).
    cbn [fst run_ticks fold_left bus Address buffer fadeDelay].
    rewrite <- TxAll_app.
    rewrite (countdown_split n) at 2.
    rewrite List.map_app, <- List.app_assoc. reflexivity. }
  split; [exact E1|]. split; [exact E2|].
  (* fading in *)
  change (t1 ++ tA :: t2 ++ [tB]) with (t1 ++ [tA] ++ t2 ++ [tB]).
  rewrite List.app_assoc, run_ticks_app, E2.
  rewrite run_ticks_app.
  rewrite (fade_in_prefix 15 0 _ t2);
    cbn [bus Address buffer currentBrightness fadeState fadeStep
             lastUpdateTime fadeDelay];
    [ | reflexivity | reflexivity | lia | exact Hsp2 | exact Hl2 ].
  rewrite run_ticks_cons.
  rewrite UpdateFade_in_last by (cbn; first [reflexivity | assumption]).
  cbn [fst run_ticks fold_left bus Address buffer fadeDelay].
  rewrite <- !TxAll_app, <- List.app_assoc.
  reflexivity.
Qed.

End Fade.

Lemma split_ticks (n : nat) (l : list tick) :
  (n + 17 <= length l)%nat ->
  exists t1 tA t2 tB rest,
    l = (t1 ++ tA :: t2 ++ [tB]) ++ rest
    /\ length t1 = n /\ length t2 = 15%nat.
Proof.
  intros Hlen.
  pose proof (take_drop n l) as Hl.
  pose proof (length_take l n) as Ht1.
  pose proof (length_drop l n) as Hd1.
  destruct (drop n l) as [|tA r2] eqn:E1; cbn in Hd1; [lia|].
  pose proof (take_drop 15 r2) as Hr2.
  pose proof (length_take r2 15) as Ht2.
  pose proof (length_drop r2 15) as Hd2.
  destruct (drop 15 r2) as [|tB rest] eqn:E2; cbn in Hd2; [lia|].
  exists (take n l), tA, (take 15 r2), tB, rest.
  split; [|split; lia].
  rewrite <- Hl at 1. rewrite <- Hr2 at 1.
  rewrite <- !List.app_assoc. cbn [app].
  rewrite <- List.app_assoc. reflexivity.
Qed.

Section FullFade.
Context {B : Type} `{I2CBus B}.

(** C6.  Take an idle device with stored brightness [b0] and start a
    non-blocking fade; then call [UpdateFade] at least [b0 + 17] times,
    every call at least the configured delay after the time stored by the
    previous one (the first after the start).  The fade ends idle with
    stored brightness 15.  The bus has received, in order, the brightness
    commands for [b0, ..., 0], one display-RAM write of the buffer and the
    brightness commands for [0, ..., 15]: exactly one flush.  That flush
    is made by tick number [b0 + 1]: after [b0] ticks the machine is
    still fading out with step 0 and only brightness commands have been
    written; the next tick takes the step below 0, writes the buffer and
    leaves the machine fading in at step 0. *)
Theorem nonblocking_fade_full (d : Device B) (delay now : Z)
        (ticks : list tick) :
  fadeState d = fadeStateIdle ->
  0 <= currentBrightness d <= 255 ->
  length (buffer d) = 16%nat ->
  well_spaced delay now ticks = true ->
  (Z.to_nat (currentBrightness d + 17) <= length ticks)%nat ->
  let b0 := currentBrightness d in
  let started := StartFade d delay now in
  let finished := run_ticks started ticks in
  let before := run_ticks started (take (Z.to_nat b0) ticks) in
  let after := run_ticks started (take (Z.to_nat (b0 + 1)) ticks) in
  let writes :=
    List.map brightnessCommand (countdown b0)
    ++ [displayData (buffer d)]
    ++ List.map brightnessCommand (countup 15) in
  (fadeState finished = fadeStateIdle
   /\ IsFading finished = false
   /\ currentBrightness finished = 15
   /\ buffer finished = buffer d
   /\ bus finished = TxAll (bus d) (Address d) writes
   /\ length (List.filter is_flush writes) = 1%nat)
  /\ (fadeState before = fadeStateOut
      /\ fadeStep before = 0
      /\ bus before
         = TxAll (bus d) (Address d)
                 (List.map brightnessCommand
                    (take (Z.to_nat b0) (countdown b0))))
  /\ (fadeState after = fadeStateIn
      /\ fadeStep after = 0
      /\ bus after
         = TxAll (bus d) (Address d)
                 (List.map brightnessCommand (countdown b0)
                  ++ [displayData (buffer d)])).
Proof.
  intros Hidle Hb Hbuf Hsp Hlen. cbv zeta.
  set (n := Z.to_nat (currentBrightness d)).
  assert (Hcb : currentBrightness d = Z.of_nat n) by (unfold n; lia).
  replace (Z.to_nat (currentBrightness d + 17)) with (n + 17)%nat in Hlen
    by (unfold n; lia).
  replace (Z.to_nat (currentBrightness d + 1)) with (n + 1)%nat
    by (unfold n; lia).
  destruct (split_ticks n ticks Hlen) as (t1 & tA & t2 & tB & rest & -> & Hl1 & Hl2).
  rewrite well_spaced_app in Hsp. apply andb_true_iff in Hsp as [Hsp _].
  destruct (fade_decomposed n d delay now t1 t2 tA tB
              Hidle Hcb ltac:(lia) Hl1 Hl2 Hsp) as (E1 & E2 & E3).
  rewrite Hcb.
  split; [|split].
  - rewrite run_ticks_app, E3, run_ticks_idle by reflexivity.
    cbn [fadeState currentBrightness buffer bus IsFading].
    repeat split.
    rewrite !List.filter_app, !filter_flush_commands.
    destruct (buffer d); [discriminate|]. reflexivity.
  - rewrite <- List.app_assoc, take_app_length' by (symmetry; exact Hl1).
    rewrite E1. repeat split.
  - replace ((t1 ++ tA :: t2 ++ [tB]) ++ rest)
      with ((t1 ++ [tA]) ++ (t2 ++ [tB]) ++ rest)
      by (rewrite <- !List.app_assoc; cbn [app];
          rewrite <- ?List.app_assoc; reflexivity).
    rewrite take_app_length' by (rewrite List.length_app; cbn; lia).
    rewrite E2. repeat split.
Qed.

End FullFade.

Lemma nonblocking_fade_full_witness :
  let d := New healthy_bus 0x70 in
  let started := StartFade d 50 0 in
  let finished := run_ticks started sample_ticks in
  let before := run_ticks started (take (Z.to_nat 15) sample_ticks) in
  let after := run_ticks started (take (Z.to_nat (15 + 1)) sample_ticks) in
  let writes :=
    List.map brightnessCommand (countdown 15)
    ++ [displayData (buffer d)]
    ++ List.map brightnessCommand (countup 15) in
  (fadeState finished = fadeStateIdle
   /\ IsFading finished = false
   /\ currentBrightness finished = 15
   /\ buffer finished = buffer d
   /\ bus finished = TxAll (bus d) (Address d) writes
   /\ length (List.filter is_flush writes) = 1%nat)
  /\ (fadeState before = fadeStateOut
      /\ fadeStep before = 0
      /\ bus before
         = TxAll (bus d) (Address d)
                 (List.map brightnessCommand (take (Z.to_nat 15) (countdown 15))))
  /\ (fadeState after = fadeStateIn
      /\ fadeStep after = 0
      /\ bus after
         = TxAll (bus d) (Address d)
                 (List.map brightnessCommand (countdown 15)
                  ++ [displayData (buffer d)])).
Proof.
  apply (nonblocking_fade_full (New healthy_bus 0x70) 50 0 sample_ticks).
  - reflexivity.
  - cbn. lia.
  - reflexivity.
  - vm_compute. reflexivity.
  - vm_compute. lia.
Defined.

(** ** The brightness invariant *)

Lemma for_upto_preserves {S} (P : S -> Prop) (n : nat) (body : nat -> S -> S)
      (s : S) :
  (forall i x, P x -> P (body i x)) -> P s -> P (for_upto n body s).
Proof.
  intros Hbody Hs. induction n as [|n IH]; [exact Hs|].
  rewrite for_upto_S. apply Hbody, IH.
Qed.

Section Invariant.
Context {B : Type} `{I2CBus B}.

Lemma brightness_setPattern (d : Device B) (display position pattern : Z)
      (dot : bool) :
  currentBrightness (setPattern d display position pattern dot)
  = currentBrightness d.
Proof. rewrite setPattern_frame. reflexivity. Qed.

Lemma brightness_SetDigitOnDisplay (d : Device B) (display position num : Z)
      (dot : bool) :
  currentBrightness (SetDigitOnDisplay d display position num dot)
  = currentBrightness d.
Proof. rewrite SetDigitOnDisplay_setPattern. apply brightness_setPattern. Qed.

Lemma brightness_ClearOnDisplay (d : Device B) (display : Z) :
  currentBrightness (ClearOnDisplay d display) = currentBrightness d.
Proof.
  unfold ClearOnDisplay. destruct (_ || _); [reflexivity|].
  apply (for_upto_preserves
           (fun d' => currentBrightness d' = currentBrightness d));
    [|reflexivity].
  intros i x Hx. rewrite brightness_SetDigitOnDisplay. exact Hx.
Qed.

Lemma brightness_WriteString_loop (fuel : nat) (runes : list Z)
      (display i digitPos : Z) (d : Device B) :
  currentBrightness (WriteString_loop fuel runes display i digitPos d)
  = currentBrightness d.
Proof.
  revert i digitPos d. induction fuel as [|fuel IH]; intros i digitPos d;
    [reflexivity|].
  cbn [WriteString_loop]. destruct (_ && _); [|reflexivity]. cbv zeta.
  destruct (font !! _); rewrite IH; [|reflexivity].
  apply brightness_setPattern.
Qed.

Lemma brightness_WriteString (d : Device B) (display : Z) (runes : list Z) :
  currentBrightness (WriteString d display runes) = currentBrightness d.
Proof.
  unfold WriteString. destruct (_ || _); [reflexivity|].
  rewrite brightness_WriteString_loop. apply brightness_ClearOnDisplay.
Qed.

Lemma brightness_ok_SetBrightness (d : Device B) (level : Z) :
  0 <= level -> brightness_ok (SetBrightness d level).
Proof. intros Hl. apply clamp15_range, Hl. Qed.

Lemma brightness_DisplayFadeBlocking (d : Device B) (delay : Z) :
  currentBrightness (DisplayFadeBlocking d delay) = 15.
Proof. reflexivity. Qed.

Lemma brightness_ok_ramp (levels : list Z) (d : Device B) :
  brightness_ok d ->
  brightness_ok (for_each levels (fun i d => SetBrightness d (u8 i)) d).
Proof.
  revert d. induction levels as [|i levels IH]; intros d Hd; [exact Hd|].
  apply IH, brightness_ok_SetBrightness. apply u8_range.
Qed.

Lemma brightness_ok_UpdateFade (d : Device B) (checked stamped : Z) :
  brightness_ok d -> brightness_ok (fst (UpdateFade d checked stamped)).
Proof.
  intros Hd. unfold UpdateFade.
  destruct (_ || _); [exact Hd|]. cbn [fst].
  destruct d as [b a buf cb fs st lt fd]. cbn in Hd.
  destruct fs; cbn [fadeState with_lastUpdateTime].
  - exact Hd.
  - cbv zeta. destruct (_ <? 0); apply clamp15_range, u8_range.
  - cbv zeta. destruct (15 <? _); apply clamp15_range, u8_range.
Qed.

Lemma brightness_ok_exec (o : op) (d : Device B) :
  uint8_args o = true -> brightness_ok d -> brightness_ok (exec o d).
Proof.
  intros Hargs Hd. unfold brightness_ok in *.
  destruct o; cbn [exec uint8_args] in *.
  - change (currentBrightness (Configure d)) with 15. lia.
  - exact Hd.
  - rewrite brightness_SetDigitOnDisplay. exact Hd.
  - unfold SetDigit16. destruct (_ || _); [exact Hd|].
    rewrite brightness_SetDigitOnDisplay. exact Hd.
  - rewrite brightness_ClearOnDisplay. exact Hd.
  - unfold ClearFadeOnDisplayBlocking. destruct (_ || _); [exact Hd|].
    rewrite brightness_DisplayFadeBlocking. lia.
  - unfold ClearAllFadeBlocking. rewrite brightness_DisplayFadeBlocking. lia.
  - rewrite brightness_WriteString. exact Hd.
  - exact Hd.
  - exact Hd.
  - apply brightness_ok_ramp. exact Hd.
  - rewrite brightness_DisplayFadeBlocking. lia.
  - unfold StartFade. destruct (negb _); exact Hd.
  - apply brightness_ok_UpdateFade. exact Hd.
  - exact Hd.
  - apply brightness_ok_SetBrightness.
    apply andb_true_iff in Hargs as [Hlo _]. apply Z.leb_le in Hlo. exact Hlo.
Qed.

End Invariant.

(** ** The buffer keeps its sixteen bytes *)

(** After the bounds checks every row index used by a digit write is an
    index of the [[16]byte] array, so no access is out of range. *)
Lemma row_index_in_range (display : Z) (i : nat) :
  0 <= display < NumDisplays -> (i < 8)%nat ->
  (Z.to_nat (display * MaxDigitsPerDisplay + Z.of_nat i) < 16)%nat.
Proof. unfold NumDisplays, MaxDigitsPerDisplay. lia. Qed.

Section BufferLength.
Context {B : Type} `{I2CBus B}.

Lemma length_setPattern (d : Device B) (display position pattern : Z)
      (dot : bool) :
  length (buffer (setPattern d display position pattern dot))
  = length (buffer d).
Proof.
  unfold setPattern. destruct (_ || _); [reflexivity|].
  cbn [buffer with_buffer].
  assert (Hsegs : forall buf, length buf = length (buffer d) ->
    length (for_upto 7
              (fun seg buf =>
                 if Z.land (Z.shiftr pattern (Z.of_nat seg)) 1 =? 1
                 then alter (fun b => Z.lor b (u8 (Z.shiftl 1 position)))
                        (Z.to_nat (display * MaxDigitsPerDisplay + Z.of_nat seg))
                        buf
                 else buf) buf) = length (buffer d)).
  { intros buf Hbuf.
    apply (for_upto_preserves (fun l => length l = length (buffer d)));
      [|exact Hbuf].
    intros i x Hx. destruct (_ =? 1); [rewrite length_alter|]; exact Hx. }
  assert (Hclear :
    length (for_upto (Z.to_nat MaxDigitsPerDisplay)
              (fun i buf =>
                 alter (fun b => Z.land b (Z.lxor 255 (u8 (Z.shiftl 1 position))))
                       (Z.to_nat (display * MaxDigitsPerDisplay + Z.of_nat i)) buf)
              (buffer d)) = length (buffer d)).
  { apply (for_upto_preserves (fun l => length l = length (buffer d)));
      [|reflexivity].
    intros i x Hx. rewrite length_alter. exact Hx. }
  destruct dot; [rewrite length_alter|]; apply Hsegs, Hclear.
Qed.

Lemma length_ClearOnDisplay (d : Device B) (display : Z) :
  length (buffer (ClearOnDisplay d display)) = length (buffer d).
Proof.
  unfold ClearOnDisplay. destruct (_ || _); [reflexivity|].
  apply (for_upto_preserves
           (fun d' => length (buffer d') = length (buffer d)));
    [|reflexivity].
  intros i x Hx.
  rewrite SetDigitOnDisplay_setPattern, length_setPattern. exact Hx.
Qed.

Lemma length_WriteString_loop (fuel : nat) (runes : list Z)
      (display i digitPos : Z) (d : Device B) :
  length (buffer (WriteString_loop fuel runes display i digitPos d))
  = length (buffer d).
Proof.
  revert i digitPos d. induction fuel as [|fuel IH]; intros i digitPos d;
    [reflexivity|].
  cbn [WriteString_loop]. destruct (_ && _); [|reflexivity]. cbv zeta.
  destruct (font !! _); rewrite IH; [|reflexivity].
  apply length_setPattern.
Qed.

Lemma buffer_SetBrightness (d : Device B) (level : Z) :
  buffer (SetBrightness d level) = buffer d.
Proof. reflexivity. Qed.

Lemma buffer_Display (d : Device B) : buffer (Display d) = buffer d.
Proof. reflexivity. Qed.

Lemma buffer_ramp (levels : list Z) (d : Device B) :
  buffer (for_each levels (fun i d => SetBrightness d (u8 i)) d) = buffer d.
Proof.
  revert d. induction levels as [|i levels IH]; intros d; [reflexivity|].
  unfold for_each in *. cbn [fold_left]. rewrite IH. reflexivity.
Qed.

Lemma buffer_DisplayFadeBlocking (d : Device B) (delay : Z) :
  buffer (DisplayFadeBlocking d delay) = buffer d.
Proof.
  unfold DisplayFadeBlocking. cbv zeta.
  rewrite buffer_SetBrightness, buffer_ramp, buffer_Display.
  apply buffer_ramp.
Qed.

Lemma buffer_UpdateFade (d : Device B) (checked stamped : Z) :
  buffer (fst (UpdateFade d checked stamped)) = buffer d.
Proof.
  unfold UpdateFade. destruct (_ || _); [reflexivity|]. cbn [fst].
  destruct d as [b a buf cb fs st lt fd].
  destruct fs; cbn [fadeState with_lastUpdateTime]; [reflexivity| |].
  - cbv zeta. destruct (_ <? 0); reflexivity.
  - cbv zeta. destruct (15 <? _); reflexivity.
Qed.

Lemma length_buffer_exec (o : op) (d : Device B) :
  length (buffer (exec o d)) = length (buffer d).
Proof.
  destruct o; cbn [exec].
  - reflexivity.
  - unfold ClearAll. cbn [buffer with_buffer].
    rewrite for_upto_fill. apply length_replicate.
  - rewrite SetDigitOnDisplay_setPattern. apply length_setPattern.
  - unfold SetDigit16. destruct (_ || _); [reflexivity|].
    rewrite SetDigitOnDisplay_setPattern. apply length_setPattern.
  - apply length_ClearOnDisplay.
  - unfold ClearFadeOnDisplayBlocking. destruct (_ || _); [reflexivity|].
    rewrite buffer_DisplayFadeBlocking. apply length_ClearOnDisplay.
  - unfold ClearAllFadeBlocking. rewrite buffer_DisplayFadeBlocking.
    unfold ClearAll. cbn [buffer with_buffer].
    rewrite for_upto_fill. apply length_replicate.
  - unfold WriteString. destruct (_ || _); [reflexivity|].
    rewrite length_WriteString_loop. apply length_ClearOnDisplay.
  - reflexivity.
  - unfold LightUpAll. cbn [buffer with_buffer].
    rewrite for_upto_fill. apply length_replicate.
  - unfold LightUpAllFadeBlocking. rewrite buffer_ramp.
    unfold LightUpAll. cbn [buffer with_buffer].
    rewrite for_upto_fill. apply length_replicate.
  - rewrite buffer_DisplayFadeBlocking. reflexivity.
  - unfold StartFade. destruct (negb _); reflexivity.
  - rewrite buffer_UpdateFade. reflexivity.
  - reflexivity.
  - reflexivity.
Qed.

(** Whatever the public calls made on a device from [New], its buffer has
    sixteen bytes: the length that the array type fixes, and that the
    statements about a flush assume. *)
Lemma length_buffer_run (b : B) (address : Z) (ops : list op) :
  length (buffer (run ops (New b address))) = 16%nat.
Proof.
  assert (Hgen : forall d, length (buffer (run ops d)) = length (buffer d)).
  { induction ops as [|o ops IH]; intros d; [reflexivity|].
    unfold run in *. cbn [fold_left]. rewrite IH. apply length_buffer_exec. }
  rewrite Hgen. reflexivity.
Qed.

End BufferLength.

(** * Further properties of the driver *)

(** ** Digit slots, bit by bit *)

(** The test [(pattern >> seg) & 1 == 1] reads bit [seg] of the pattern. *)
Lemma segment_test (pattern : Z) (seg : nat) :
  (Z.land (Z.shiftr pattern (Z.of_nat seg)) 1 =? 1)
  = Z.testbit pattern (Z.of_nat seg).
Proof.
  change 1 with (Z.ones 1) at 1.
  rewrite Z.land_ones by lia. change (2 ^ 1) with 2.
  rewrite <- Z.bit0_mod, Z.shiftr_spec, Z.add_0_l by lia.
  destruct (Z.testbit pattern (Z.of_nat seg)); reflexivity.
Qed.

(** Bit [q] of a row after a digit write to slot [position]: the wanted
    segment in the slot itself, the old bit in the seven other slots. *)
Lemma testbit_digit_row (position pattern : Z) (dot : bool) (j : nat)
      (b q : Z) :
  0 <= position < MaxDigitsPerDisplay -> 0 <= q ->
  Z.testbit (digit_row position pattern dot j b) q
  = if q =? position then wanted pattern dot j
    else Z.testbit b q && (q <? 8).
Proof.
  intros Hp Hq. unfold digit_row, wanted. cbv zeta.
  rewrite segment_test, bit_is_pow2 by assumption.
  unfold MaxDigitsPerDisplay in Hp.
  assert (Hmask : Z.testbit (Z.lxor 255 (2 ^ position)) q
                  = (q <? 8) && negb (q =? position)).
  { rewrite Z.lxor_spec, Z.pow2_bits_eqb by lia.
    change 255 with (Z.ones 8). rewrite Z.testbit_ones_nonneg by lia.
    rewrite (Z.eqb_sym position q).
    destruct (Z.ltb_spec q 8), (Z.eqb_spec q position); try reflexivity; lia. }
  destruct (if (j <? 7)%nat then _ else dot).
  - rewrite Z.lor_spec, Z.land_spec, Hmask, Z.pow2_bits_eqb by lia.
    rewrite (Z.eqb_sym position q).
    destruct (Z.eqb_spec q position), (Z.testbit b q), (q <? 8); reflexivity.
  - rewrite Z.land_spec, Hmask.
    destruct (Z.eqb_spec q position), (Z.testbit b q), (q <? 8); reflexivity.
Qed.

Lemma fmap_Some_eq {A C} (f : A -> C) (x : A) : f <$> Some x = Some (f x).
Proof. reflexivity. Qed.

Lemma with_buffer_twice {B} (d : Device B) (buf1 buf2 : list Z) :
  with_buffer (with_buffer d buf1) buf2 = with_buffer d buf2.
Proof. reflexivity. Qed.

Lemma default_Some_eq {A} (x y : A) : default x (Some y) = y.
Proof. reflexivity. Qed.

Lemma digit_row_overwrite (position pattern1 pattern2 : Z) (dot1 dot2 : bool)
      (j : nat) (b : Z) :
  0 <= position < MaxDigitsPerDisplay ->
  digit_row position pattern2 dot2 j (digit_row position pattern1 dot1 j b)
  = digit_row position pattern2 dot2 j b.
Proof.
  intros Hp. apply Z.bits_inj'. intros q Hq.
  rewrite !testbit_digit_row by assumption.
  destruct (q =? position); [reflexivity|].
  destruct (Z.testbit b q), (q <? 8); reflexivity.
Qed.

Lemma digit_row_commute (position1 position2 pattern1 pattern2 : Z)
      (dot1 dot2 : bool) (j : nat) (b : Z) :
  0 <= position1 < MaxDigitsPerDisplay ->
  0 <= position2 < MaxDigitsPerDisplay ->
  position1 <> position2 ->
  digit_row position2 pattern2 dot2 j (digit_row position1 pattern1 dot1 j b)
  = digit_row position1 pattern1 dot1 j (digit_row position2 pattern2 dot2 j b).
Proof.
  intros Hp1 Hp2 Hne. apply Z.bits_inj'. intros q Hq.
  rewrite !testbit_digit_row by assumption.
  unfold MaxDigitsPerDisplay in *.
  destruct (Z.eqb_spec q position1), (Z.eqb_spec q position2),
    (Z.ltb_spec q 8); try lia;
    rewrite ?andb_true_r, ?andb_false_r; reflexivity.
Qed.

Section Slots.
Context {B : Type} `{I2CBus B}.

Lemma segment_lit_written (d : Device B) (display position pattern : Z)
      (dot : bool) (j : nat) :
  0 <= display <= 1 -> 0 <= position <= 7 -> (j < 8)%nat ->
  length (buffer d) = 16%nat ->
  segment_lit (buffer (setPattern d display position pattern dot))
              display position j
  = wanted pattern dot j.
Proof.
  intros Hd Hp Hj Hlen. unfold segment_lit, MaxDigitsPerDisplay.
  rewrite lookup_setPattern
    by (unfold NumDisplays, MaxDigitsPerDisplay; lia).
  destruct (decide _) as [_|Hout]; [|lia].
  destruct (lookup_lt_is_Some_2 (buffer d) (Z.to_nat (display * 8 + Z.of_nat j)))
    as [b Hb]; [lia|].
  rewrite Hb, fmap_Some_eq, default_Some_eq.
  rewrite testbit_digit_row by (unfold MaxDigitsPerDisplay; lia).
  rewrite Z.eqb_refl. f_equal. lia.
Qed.

(** X1.  Reading a digit back.  After a digit write to a valid slot of a
    sixteen-byte buffer, each of the eight segments of that slot is lit
    exactly when the write asked for it: segments a-g follow bits 0-6 of
    the pattern, the decimal point follows the dot flag. *)
Theorem setPattern_readback (d : Device B) (display position pattern : Z)
        (dot : bool) (j : nat) :
  0 <= display <= 1 -> 0 <= position <= 7 -> (j < 8)%nat ->
  length (buffer d) = 16%nat ->
  segment_lit (buffer (setPattern d display position pattern dot))
              display position j
  = wanted pattern dot j.
Proof. apply segment_lit_written. Qed.

(** X2.  A digit write leaves every other digit alone: the segments of any
    other valid slot, on either display, are lit after the write exactly
    when they were before. *)
Theorem setPattern_other_slots (d : Device B)
        (display position pattern : Z) (dot : bool)
        (display' position' : Z) (j : nat) :
  0 <= display' <= 1 -> 0 <= position' <= 7 -> (j < 8)%nat ->
  display' <> display \/ position' <> position ->
  segment_lit (buffer (setPattern d display position pattern dot))
              display' position' j
  = segment_lit (buffer d) display' position' j.
Proof.
  intros Hd' Hp' Hj Hne.
  destruct (decide (0 <= display < NumDisplays)) as [Hd|Hd];
    [|rewrite setPattern_out_of_range by tauto; reflexivity].
  destruct (decide (0 <= position < MaxDigitsPerDisplay)) as [Hp|Hp];
    [|rewrite setPattern_out_of_range by tauto; reflexivity].
  unfold segment_lit. rewrite lookup_setPattern by assumption.
  unfold NumDisplays, MaxDigitsPerDisplay in *.
  destruct (decide _) as [Hin|Hout]; [|reflexivity].
  destruct (buffer d !! _) as [b|]; [|reflexivity].
  rewrite ?fmap_Some_eq, !default_Some_eq.
  rewrite testbit_digit_row by (unfold MaxDigitsPerDisplay; lia).
  destruct (Z.eqb_spec position' position) as [Heq|_]; [lia|].
  destruct (Z.ltb_spec position' 8); [|lia].
  apply andb_true_r.
Qed.

(** X3.  The last write to a slot wins: whatever was written there before
    leaves no trace, so no segment of the previous character stays lit. *)
Theorem setPattern_overwrite (d : Device B) (display position : Z)
        (pattern1 pattern2 : Z) (dot1 dot2 : bool) :
  setPattern (setPattern d display position pattern1 dot1)
             display position pattern2 dot2
  = setPattern d display position pattern2 dot2.
Proof.
  destruct (decide (0 <= display < NumDisplays)) as [Hd|Hd];
    [|rewrite !setPattern_out_of_range by tauto; reflexivity].
  destruct (decide (0 <= position < MaxDigitsPerDisplay)) as [Hp|Hp];
    [|rewrite !setPattern_out_of_range by tauto; reflexivity].
  set (d1 := setPattern d display position pattern1 dot1).
  rewrite (setPattern_frame d1), (setPattern_frame d display position pattern2).
  assert (Hbuf : buffer (setPattern d1 display position pattern2 dot2)
                 = buffer (setPattern d display position pattern2 dot2)).
  { apply list_eq. intros k.
    rewrite (lookup_setPattern d1), (lookup_setPattern d) by assumption.
    unfold d1. rewrite (lookup_setPattern d) by assumption.
    destruct (decide _); [|reflexivity].
    destruct (buffer d !! k); cbn; [|reflexivity].
    rewrite digit_row_overwrite by assumption. reflexivity. }
  rewrite Hbuf. unfold d1.
  rewrite (setPattern_frame d display position pattern1).
  reflexivity.
Qed.

(** X4.  Writes to two different slots can be made in either order. *)
Theorem setPattern_commute (d : Device B)
        (display1 position1 pattern1 : Z) (dot1 : bool)
        (display2 position2 pattern2 : Z) (dot2 : bool) :
  display1 <> display2 \/ position1 <> position2 ->
  setPattern (setPattern d display1 position1 pattern1 dot1)
             display2 position2 pattern2 dot2
  = setPattern (setPattern d display2 position2 pattern2 dot2)
               display1 position1 pattern1 dot1.
Proof.
  intros Hne.
  destruct (decide (0 <= display1 < NumDisplays)) as [Hd1|Hd1];
    [|rewrite !(setPattern_out_of_range _ display1) by tauto; reflexivity].
  destruct (decide (0 <= position1 < MaxDigitsPerDisplay)) as [Hp1|Hp1];
    [|rewrite !(setPattern_out_of_range _ display1) by tauto; reflexivity].
  destruct (decide (0 <= display2 < NumDisplays)) as [Hd2|Hd2];
    [|rewrite !(setPattern_out_of_range _ display2) by tauto; reflexivity].
  destruct (decide (0 <= position2 < MaxDigitsPerDisplay)) as [Hp2|Hp2];
    [|rewrite !(setPattern_out_of_range _ display2) by tauto; reflexivity].
  set (a := setPattern d display1 position1 pattern1 dot1).
  set (b := setPattern d display2 position2 pattern2 dot2).
  rewrite (setPattern_frame a), (setPattern_frame b).
  assert (Hbuf : buffer (setPattern a display2 position2 pattern2 dot2)
                 = buffer (setPattern b display1 position1 pattern1 dot1)).
  { apply list_eq. intros k.
    rewrite (lookup_setPattern a), (lookup_setPattern b) by assumption.
    unfold a, b. rewrite !(lookup_setPattern d) by assumption.
    unfold NumDisplays in *.
    repeat destruct (decide _); try reflexivity; try lia.
    assert (display1 = display2) as -> by lia.
    destruct (buffer d !! k); cbn; [|reflexivity].
    rewrite digit_row_commute by (assumption || lia). reflexivity. }
  rewrite Hbuf. unfold a, b.
  rewrite (setPattern_frame d display1), (setPattern_frame d display2).
  reflexivity.
Qed.

End Slots.

Lemma setPattern_readback_witness :
  segment_lit (buffer (setPattern (New healthy_bus 0x70) 1 7 0x5B true)) 1 7 3
  = wanted 0x5B true 3.
Proof.
  apply (setPattern_readback (New healthy_bus 0x70) 1 7 0x5B true 3);
    [lia | lia | lia | reflexivity].
Defined.

Lemma setPattern_other_slots_witness :
  let d := setPattern (New healthy_bus 0x70) 1 6 0x7F true in
  segment_lit (buffer (setPattern d 1 7 0x5B true)) 1 6 2
  = segment_lit (buffer d) 1 6 2.
Proof.
  apply (setPattern_other_slots
           (setPattern (New healthy_bus 0x70) 1 6 0x7F true) 1 7 0x5B true 1 6 2);
    lia.
Defined.

Lemma setPattern_commute_witness :
  let d := New healthy_bus 0x70 in
  setPattern (setPattern d 0 3 0x06 false) 0 4 0x5B true
  = setPattern (setPattern d 0 4 0x5B true) 0 3 0x06 false.
Proof.
  apply (setPattern_commute (New healthy_bus 0x70) 0 3 0x06 false 0 4 0x5B true).
  lia.
Defined.

(** ** Clearing *)

(** [blankPatternIndex] names no glyph: ['0' + 10] is not a key of [font]. *)
Lemma blank_glyph : default 0 (font !! u8 (rune "0" + blankPatternIndex)) = 0.
Proof. vm_compute. reflexivity. Qed.

Lemma digit_row_blank (position : Z) (j : nat) (b : Z) :
  digit_row position 0 false j b
  = Z.land b (Z.lxor 0xFF (u8 (Z.shiftl 1 position))).
Proof.
  unfold digit_row. cbv zeta. rewrite segment_test, Z.bits_0.
  destruct (j <? 7)%nat; reflexivity.
Qed.

(** Blanking the eight slots of a row, one after the other, empties it. *)
Lemma blank_every_slot (j : nat) (b : Z) :
  digit_row 7 0 false j (digit_row 6 0 false j (digit_row 5 0 false j
    (digit_row 4 0 false j (digit_row 3 0 false j (digit_row 2 0 false j
      (digit_row 1 0 false j (digit_row 0 0 false j b))))))) = 0.
Proof.
  rewrite !digit_row_blank, <- !Z.land_assoc.
  change (Z.land b 0 = 0). apply Z.land_0_r.
Qed.

Section Clearing.
Context {B : Type} `{I2CBus B}.

Lemma ClearOnDisplay_frame (d : Device B) (display : Z) :
  ClearOnDisplay d display = with_buffer d (buffer (ClearOnDisplay d display)).
Proof.
  unfold ClearOnDisplay.
  destruct (_ || _); [symmetry; apply with_buffer_same|].
  apply (for_upto_preserves (fun d' => d' = with_buffer d (buffer d')));
    [|symmetry; apply with_buffer_same].
  intros i x Hx. rewrite SetDigitOnDisplay_setPattern, setPattern_frame.
  rewrite Hx at 1. reflexivity.
Qed.

Lemma lookup_ClearOnDisplay (d : Device B) (display : Z) (k : nat) :
  0 <= display < NumDisplays ->
  buffer (ClearOnDisplay d display) !! k
  = if decide (Z.to_nat (display * 8) <= k < Z.to_nat (display * 8) + 8)%nat
    then (fun _ => 0) <$> buffer d !! k
    else buffer d !! k.
Proof.
  intros Hd. unfold ClearOnDisplay.
  assert (Hguard : (display <? 0) || (display >=? NumDisplays) = false).
  { unfold NumDisplays in *. rewrite Z.geb_leb.
    destruct (Z.ltb_spec display 0), (Z.leb_spec 2 display);
      try lia; reflexivity. }
  rewrite Hguard.
  change (Z.to_nat MaxDigitsPerDisplay) with 8%nat.
  rewrite !for_upto_S. unfold for_upto. cbn [seq fold_left].
  rewrite !SetDigitOnDisplay_setPattern, blank_glyph.
  rewrite !lookup_setPattern
    by (assumption || (unfold MaxDigitsPerDisplay; cbn; lia)).
  destruct (decide _); [|reflexivity].
  destruct (buffer d !! k) as [b|]; [|reflexivity].
  rewrite !fmap_Some_eq. f_equal. apply blank_every_slot.
Qed.

(** X5.  [ClearOnDisplay] on display 0 or 1 zeroes the eight rows of that
    display and changes nothing else: the rows of the other display and
    every other field of the device stay as they were. *)
Theorem ClearOnDisplay_zeroes_block (d : Device B) (display : Z) :
  0 <= display <= 1 ->
  length (buffer d) = 16%nat ->
  buffer (ClearOnDisplay d display)
  = (if display =? 0 then replicate 8 0 ++ drop 8 (buffer d)
     else take 8 (buffer d) ++ replicate 8 0)
  /\ ClearOnDisplay d display
     = with_buffer d (buffer (ClearOnDisplay d display)).
Proof.
  intros Hd Hlen. split; [|apply ClearOnDisplay_frame].
  apply list_eq. intros k.
  rewrite lookup_ClearOnDisplay by (unfold NumDisplays; lia).
  assert (display = 0 \/ display = 1) as [-> | ->] by lia; cbn [Z.eqb].
  - change (Z.to_nat (0 * 8)) with 0%nat.
    destruct (decide _) as [Hin|Hout].
    + rewrite lookup_app_l by (rewrite length_replicate; lia).
      destruct (lookup_lt_is_Some_2 (buffer d) k) as [b ->]; [lia|].
      rewrite fmap_Some_eq. symmetry. apply lookup_replicate_2. lia.
    + rewrite lookup_app_r by (rewrite length_replicate; lia).
      rewrite length_replicate, lookup_drop. f_equal. lia.
  - change (Z.to_nat (1 * 8)) with 8%nat.
    destruct (decide _) as [Hin|Hout].
    + rewrite lookup_app_r by (rewrite length_take; lia).
      rewrite length_take.
      destruct (lookup_lt_is_Some_2 (buffer d) k) as [b ->]; [lia|].
      rewrite fmap_Some_eq. symmetry. apply lookup_replicate_2. lia.
    + destruct (decide (k < 8)%nat).
      * rewrite lookup_app_l by (rewrite length_take; lia).
        rewrite lookup_take_lt by lia. reflexivity.
      * rewrite lookup_app_r by (rewrite length_take; lia).
        rewrite length_take.
        rewrite (lookup_ge_None_2 (buffer d)) by lia.
        symmetry. apply lookup_ge_None_2. rewrite length_replicate. lia.
Qed.

(** X6.  [ClearAll] zeroes every byte of the buffer and changes nothing else;
    clearing display 0 and then display 1 has the same effect. *)
Theorem ClearAll_zeroes (d : Device B) :
  length (buffer d) = 16%nat ->
  ClearAll d = with_buffer d (replicate 16 0)
  /\ ClearOnDisplay (ClearOnDisplay d 0) 1 = ClearAll d.
Proof.
  intros Hlen.
  assert (Hall : ClearAll d = with_buffer d (replicate 16 0)).
  { unfold ClearAll. rewrite for_upto_fill, Hlen. reflexivity. }
  split; [exact Hall|].
  rewrite Hall, ClearOnDisplay_frame.
  rewrite (ClearOnDisplay_frame d 0) at 1.
  rewrite with_buffer_twice.
  apply (f_equal (with_buffer d)). apply list_eq. intros k.
  rewrite !lookup_ClearOnDisplay by (unfold NumDisplays; lia).
  change (Z.to_nat (0 * 8)) with 0%nat. change (Z.to_nat (1 * 8)) with 8%nat.
  destruct (decide (k < 16)%nat) as [Hk|Hk].
  - destruct (lookup_lt_is_Some_2 (buffer d) k) as [b ->]; [lia|].
    rewrite lookup_replicate_2 by lia.
    repeat destruct (decide _); try lia; reflexivity.
  - rewrite (lookup_ge_None_2 (buffer d)) by lia.
    rewrite (lookup_ge_None_2 (replicate 16 0)) by (rewrite length_replicate; lia).
    repeat destruct (decide _); reflexivity.
Qed.

End Clearing.

Lemma ClearOnDisplay_zeroes_block_witness :
  let d := LightUpAll (New healthy_bus 0x70) in
  buffer (ClearOnDisplay d 1)
  = (if 1 =? 0 then replicate 8 0 ++ drop 8 (buffer d)
     else take 8 (buffer d) ++ replicate 8 0)
  /\ ClearOnDisplay d 1 = with_buffer d (buffer (ClearOnDisplay d 1)).
Proof.
  apply (ClearOnDisplay_zeroes_block (LightUpAll (New healthy_bus 0x70)) 1);
    [lia | reflexivity].
Defined.

Lemma ClearAll_zeroes_witness :
  let d := LightUpAll (New healthy_bus 0x70) in
  ClearAll d = with_buffer d (replicate 16 0)
  /\ ClearOnDisplay (ClearOnDisplay d 0) 1 = ClearAll d.
Proof.
  apply (ClearAll_zeroes (LightUpAll (New healthy_bus 0x70))). reflexivity.
Defined.

(** ** Writing strings *)

Section Strings.
Context {B : Type} `{I2CBus B}.

(** The loop of [WriteString], started at index [i] with enough fuel,
    writes the glyphs of the runes from [i] on. *)
Lemma WriteString_loop_glyphs (fuel : nat) (runes : list Z) (display : Z)
      (i : nat) (digitPos : Z) (d : Device B) :
  (i <= length runes)%nat -> (length runes - i <= fuel)%nat ->
  WriteString_loop fuel runes display (Z.of_nat i) digitPos d
  = place display digitPos (glyphs (drop i runes)) d.
Proof.
  revert i digitPos d.
  induction fuel as [|fuel IH]; intros i digitPos d Hi Hfuel.
  - rewrite drop_ge by lia. reflexivity.
  - cbn [WriteString_loop].
    destruct (Z.ltb_spec (Z.of_nat i) (Z.of_nat (length runes))) as [Hlt|Hge].
    2:{ rewrite drop_ge by lia. reflexivity. }
    destruct (lookup_lt_is_Some_2 runes i) as [c Hc]; [lia|].
    rewrite (drop_S _ _ _ Hc). rewrite Nat2Z.id, Hc.
    cbn [andb default from_option].
    destruct (digitPos <? MaxDigitsPerDisplay) eqn:Hdp.
    2:{ destruct (glyphs (c :: drop (S i) runes)) as [|[p dot] gs];
          cbn [place]; rewrite ?Hdp; reflexivity. }
    cbv zeta. change (id c) with c.
    fold (to_upper c). cbn [glyphs].
    replace (Z.of_nat i + 1) with (Z.of_nat (S i)) by lia.
    destruct (font !! to_upper c) as [pattern|]; [|apply IH; lia].
    destruct (Z.ltb_spec (Z.of_nat (S i)) (Z.of_nat (length runes)))
      as [Hlt'|Hge'].
    + destruct (lookup_lt_is_Some_2 runes (S i)) as [c' Hc']; [lia|].
      rewrite (drop_S _ _ _ Hc'). rewrite Nat2Z.id, Hc'.
      cbn [andb default from_option]. change (id c') with c'.
      destruct (c' =? rune ".").
      * cbn [place]. rewrite Hdp.
        replace (Z.of_nat (S i) + 1) with (Z.of_nat (S (S i))) by lia.
        apply IH; lia.
      * cbn [place]. rewrite Hdp.
        replace (Z.of_nat i + 1) with (Z.of_nat (S i)) by lia.
        rewrite IH by lia. rewrite (drop_S _ _ _ Hc'). reflexivity.
    + cbn [andb].
      replace (Z.of_nat i + 1) with (Z.of_nat (S i)) by lia.
      rewrite IH by lia.
      rewrite drop_ge by lia. cbn [place glyphs]. rewrite Hdp. reflexivity.
Qed.

Lemma WriteString_eq_place (d : Device B) (display : Z) (runes : list Z) :
  0 <= display < NumDisplays ->
  WriteString d display runes
  = place display 0 (glyphs runes) (ClearOnDisplay d display).
Proof.
  intros Hd. unfold WriteString.
  assert (Hguard : (display <? 0) || (display >=? NumDisplays) = false).
  { unfold NumDisplays in *. rewrite Z.geb_leb.
    destruct (Z.ltb_spec display 0), (Z.leb_spec 2 display);
      try lia; reflexivity. }
  rewrite Hguard.
  apply (WriteString_loop_glyphs (length runes) runes display 0); lia.
Qed.

End Strings.

Lemma testbit_row_place (gs : list (Z * bool)) (digitPos : Z) (j : nat)
      (b q : Z) :
  0 <= digitPos -> 0 <= q < 8 ->
  Z.testbit (row_place digitPos gs j b) q
  = if (digitPos <=? q) && (q <? digitPos + Z.of_nat (length gs))
    then match gs !! Z.to_nat (q - digitPos) with
         | Some (pattern, dot) => wanted pattern dot j
         | None => false
         end
    else Z.testbit b q.
Proof.
  revert digitPos b. induction gs as [|[pattern dot] gs IH];
    intros digitPos b Hdp Hq.
  - cbn [row_place length].
    destruct (Z.leb_spec digitPos q), (Z.ltb_spec q (digitPos + Z.of_nat 0));
      try lia; reflexivity.
  - cbn [row_place]. unfold MaxDigitsPerDisplay.
    destruct (Z.ltb_spec digitPos 8) as [Hlt|Hge].
    + rewrite IH by lia.
      rewrite testbit_digit_row by (unfold MaxDigitsPerDisplay; lia).
      cbn [length]. rewrite Nat2Z.inj_succ.
      destruct (Z.leb_spec (digitPos + 1) q),
        (Z.ltb_spec q (digitPos + 1 + Z.of_nat (length gs))),
        (Z.leb_spec digitPos q),
        (Z.ltb_spec q (digitPos + Z.succ (Z.of_nat (length gs))));
        try lia; cbn [andb].
      * replace (Z.to_nat (q - digitPos))
          with (S (Z.to_nat (q - (digitPos + 1)))) by lia.
        reflexivity.
      * destruct (Z.eqb_spec q digitPos); [lia|].
        destruct (Z.ltb_spec q 8); [|lia]. apply andb_true_r.
      * assert (q = digitPos) as -> by lia.
        rewrite Z.eqb_refl, Z.sub_diag. reflexivity.
      * destruct (Z.eqb_spec q digitPos); [lia|].
        destruct (Z.ltb_spec q 8); [|lia]. apply andb_true_r.
    + destruct (Z.leb_spec digitPos q); [lia|]. reflexivity.
Qed.

Section StringProperties.
Context {B : Type} `{I2CBus B}.

Lemma place_frame (display digitPos : Z) (gs : list (Z * bool)) (d : Device B) :
  place display digitPos gs d
  = with_buffer d (buffer (place display digitPos gs d)).
Proof.
  revert digitPos d. induction gs as [|[pattern dot] gs IH]; intros digitPos d.
  - symmetry. apply with_buffer_same.
  - cbn [place]. destruct (_ <? _); [|symmetry; apply with_buffer_same].
    rewrite IH at 1. rewrite setPattern_frame. reflexivity.
Qed.

Lemma lookup_place (display digitPos : Z) (gs : list (Z * bool))
      (d : Device B) (k : nat) :
  0 <= display < NumDisplays -> 0 <= digitPos ->
  buffer (place display digitPos gs d) !! k
  = if decide (Z.to_nat (display * 8) <= k < Z.to_nat (display * 8) + 8)%nat
    then row_place digitPos gs (k - Z.to_nat (display * 8)) <$> buffer d !! k
    else buffer d !! k.
Proof.
  intros Hd. revert digitPos d.
  induction gs as [|[pattern dot] gs IH]; intros digitPos d Hdp.
  - cbn [place row_place].
    destruct (decide _); [|reflexivity].
    destruct (buffer d !! k); reflexivity.
  - cbn [place row_place]. unfold MaxDigitsPerDisplay.
    destruct (Z.ltb_spec digitPos 8) as [Hlt|Hge].
    + rewrite IH by lia.
      rewrite lookup_setPattern by (assumption || (unfold MaxDigitsPerDisplay; lia)).
      destruct (decide _); [|reflexivity].
      destruct (buffer d !! k); reflexivity.
    + destruct (decide _); [|reflexivity].
      destruct (buffer d !! k); reflexivity.
Qed.

Lemma lookup_WriteString (d : Device B) (display : Z) (runes : list Z)
      (k : nat) :
  0 <= display < NumDisplays ->
  buffer (WriteString d display runes) !! k
  = if decide (Z.to_nat (display * 8) <= k < Z.to_nat (display * 8) + 8)%nat
    then (fun _ => row_place 0 (glyphs runes) (k - Z.to_nat (display * 8)) 0)
           <$> buffer d !! k
    else buffer d !! k.
Proof.
  intros Hd. rewrite WriteString_eq_place by assumption.
  rewrite lookup_place by (assumption || lia).
  rewrite lookup_ClearOnDisplay by assumption.
  destruct (decide _); [|reflexivity].
  destruct (buffer d !! k); reflexivity.
Qed.

Lemma WriteString_frame (d : Device B) (display : Z) (runes : list Z) :
  WriteString d display runes
  = with_buffer d (buffer (WriteString d display runes)).
Proof.
  destruct (decide (0 <= display < NumDisplays)) as [Hd|Hd].
  - rewrite WriteString_eq_place by assumption.
    rewrite place_frame at 1. rewrite ClearOnDisplay_frame. reflexivity.
  - unfold WriteString, NumDisplays in *. rewrite Z.geb_leb.
    destruct (Z.ltb_spec display 0), (Z.leb_spec 2 display); try lia;
      symmetry; apply with_buffer_same.
Qed.

(** X7.  [WriteString] on display 0 or 1 clears the display and then writes
    the glyphs of the runes into slots 0, 1, ... for as long as there is a
    slot left (eight per display). *)
Theorem WriteString_places_glyphs (d : Device B) (display : Z)
        (runes : list Z) :
  0 <= display <= 1 ->
  WriteString d display runes
  = place display 0 (glyphs runes) (ClearOnDisplay d display).
Proof.
  intros Hd. apply WriteString_eq_place. unfold NumDisplays. lia.
Qed.

(** X8.  What the display shows after [WriteString]: slot [i] (0-7) shows glyph
    number [i] of the string, with its decimal point, and every slot
    beyond the last glyph is dark. *)
Theorem WriteString_shows (d : Device B) (display : Z) (runes : list Z)
        (i j : nat) :
  0 <= display <= 1 -> length (buffer d) = 16%nat ->
  (i < 8)%nat -> (j < 8)%nat ->
  segment_lit (buffer (WriteString d display runes)) display (Z.of_nat i) j
  = match glyphs runes !! i with
    | Some (pattern, dot) => wanted pattern dot j
    | None => false
    end.
Proof.
  intros Hd Hlen Hi Hj. unfold segment_lit, MaxDigitsPerDisplay.
  rewrite lookup_WriteString by (unfold NumDisplays; lia).
  destruct (decide _) as [_|Hout]; [|lia].
  destruct (lookup_lt_is_Some_2 (buffer d) (Z.to_nat (display * 8 + Z.of_nat j)))
    as [b Hb]; [lia|].
  rewrite Hb, fmap_Some_eq, default_Some_eq.
  replace (Z.to_nat (display * 8 + Z.of_nat j) - Z.to_nat (display * 8))%nat
    with j by lia.
  rewrite testbit_row_place by lia.
  rewrite Z.sub_0_r, Nat2Z.id.
  destruct (Z.leb_spec 0 (Z.of_nat i)); [|lia].
  destruct (Z.ltb_spec (Z.of_nat i) (0 + Z.of_nat (length (glyphs runes))));
    cbn [andb]; [reflexivity|].
  rewrite Z.bits_0, lookup_ge_None_2 by lia. reflexivity.
Qed.

(** X9.  A string written to a display replaces whatever an earlier
    [WriteString] left on that display; in particular writing the same
    string twice is writing it once. *)
Theorem WriteString_overwrite (d : Device B) (display : Z)
        (runes1 runes2 : list Z) :
  WriteString (WriteString d display runes1) display runes2
  = WriteString d display runes2.
Proof.
  destruct (decide (0 <= display < NumDisplays)) as [Hd|Hd].
  2:{ unfold WriteString, NumDisplays in *. rewrite Z.geb_leb.
      destruct (Z.ltb_spec display 0), (Z.leb_spec 2 display); try lia;
        reflexivity. }
  rewrite (WriteString_frame (WriteString d display runes1)).
  rewrite (WriteString_frame d display runes2).
  rewrite (WriteString_frame d display runes1) at 1.
  rewrite with_buffer_twice.
  apply (f_equal (with_buffer d)). apply list_eq. intros k.
  rewrite !lookup_WriteString by assumption.
  destruct (decide _); [|reflexivity].
  destruct (buffer d !! k); reflexivity.
Qed.

(** X10.  The two displays are independent: writing a string to one and a
    string to the other gives the same device in either order. *)
Theorem WriteString_displays_commute (d : Device B) (runes0 runes1 : list Z) :
  WriteString (WriteString d 0 runes0) 1 runes1
  = WriteString (WriteString d 1 runes1) 0 runes0.
Proof.
  rewrite (WriteString_frame (WriteString d 0 runes0)).
  rewrite (WriteString_frame (WriteString d 1 runes1)).
  rewrite (WriteString_frame d 0 runes0) at 1.
  rewrite (WriteString_frame d 1 runes1) at 1.
  rewrite !with_buffer_twice.
  apply (f_equal (with_buffer d)). apply list_eq. intros k.
  rewrite !lookup_WriteString by (unfold NumDisplays; lia).
  change (Z.to_nat (0 * 8)) with 0%nat. change (Z.to_nat (1 * 8)) with 8%nat.
  repeat destruct (decide _); try lia; reflexivity.
Qed.

End StringProperties.

Lemma to_upper_idem (c : Z) : to_upper (to_upper c) = to_upper c.
Proof.
  unfold to_upper. change (rune "a") with 97. change (rune "z") with 122.
  change (rune "A") with 65. rewrite !Z.geb_leb.
  destruct (Z.leb_spec 97 c), (Z.leb_spec c 122); cbn [andb];
    destruct (Z.leb_spec 97 (c - 97 + 65)), (Z.leb_spec (c - 97 + 65) 122);
    cbn [andb]; try lia; try reflexivity;
    destruct (Z.leb_spec 97 c), (Z.leb_spec c 122); cbn [andb];
    try lia; reflexivity.
Qed.

Lemma to_upper_dot (c : Z) : (to_upper c =? rune ".") = (c =? rune ".").
Proof.
  unfold to_upper. change (rune "a") with 97. change (rune "z") with 122.
  change (rune "A") with 65. change (rune ".") with 46. rewrite !Z.geb_leb.
  destruct (Z.leb_spec 97 c), (Z.leb_spec c 122); cbn [andb];
    destruct (Z.eqb_spec (c - 97 + 65) 46), (Z.eqb_spec c 46);
    try lia; reflexivity.
Qed.

Lemma glyphs_to_upper (runes : list Z) :
  glyphs (List.map to_upper runes) = glyphs runes.
Proof.
  assert (Hgen : forall n runes, (length runes <= n)%nat ->
                 glyphs (List.map to_upper runes) = glyphs runes).
  { clear runes. induction n as [|n IH]; intros runes Hlen.
    - destruct runes; [reflexivity|cbn in Hlen; lia].
    - destruct runes as [|c rest]; [reflexivity|].
      cbn [List.map glyphs]. rewrite to_upper_idem.
      cbn [length] in Hlen.
      destruct (font !! to_upper c); [|apply IH; lia].
      destruct rest as [|c' rest']; [reflexivity|].
      cbn [List.map]. rewrite to_upper_dot.
      cbn [length] in Hlen.
      destruct (c' =? rune "."); f_equal.
      + apply IH. lia.
      + apply (IH (c' :: rest')). cbn [length]. lia. }
  apply (Hgen (length runes)). lia.
Qed.

Section StringEdges.
Context {B : Type} `{I2CBus B}.

Lemma WriteString_out_of_range (d : Device B) (display : Z) (runes : list Z) :
  ~ (0 <= display < NumDisplays) -> WriteString d display runes = d.
Proof.
  intros Hd. unfold WriteString, NumDisplays in *. rewrite Z.geb_leb.
  destruct (Z.ltb_spec display 0), (Z.leb_spec 2 display); try lia;
    reflexivity.
Qed.

(** X11.  [WriteString] does not tell lower case from upper case: a string and
    its upper-case form give the same device. *)
Theorem WriteString_case_insensitive (d : Device B) (display : Z)
        (runes : list Z) :
  WriteString d display (List.map to_upper runes)
  = WriteString d display runes.
Proof.
  destruct (decide (0 <= display < NumDisplays)) as [Hd|Hd].
  - rewrite !WriteString_eq_place by assumption.
    rewrite glyphs_to_upper. reflexivity.
  - rewrite !WriteString_out_of_range by assumption. reflexivity.
Qed.

(** X12.  A leading rune that has no glyph is dropped without using a slot; so
    is a leading ['.'], which has no digit to attach to. *)
Theorem WriteString_drops_leading_unknown (d : Device B) (display c : Z)
        (runes : list Z) :
  font !! to_upper c = None ->
  WriteString d display (c :: runes) = WriteString d display runes
  /\ WriteString d display (rune "." :: runes) = WriteString d display runes.
Proof.
  intros Hc.
  destruct (decide (0 <= display < NumDisplays)) as [Hd|Hd].
  - rewrite !WriteString_eq_place by assumption.
    cbn [glyphs]. rewrite Hc.
    change (font !! to_upper (rune ".")) with (@None Z).
    split; reflexivity.
  - rewrite !WriteString_out_of_range by assumption. split; reflexivity.
Qed.

(** X13.  A display number other than 0 or 1 makes [ClearOnDisplay],
    [WriteString] and [ClearFadeOnDisplayBlocking] return at once: the
    device is unchanged, and so is its bus (no transfer is made). *)
Theorem display_out_of_range_is_noop (d : Device B) (display delay : Z)
        (runes : list Z) :
  display < 0 \/ 1 < display ->
  ClearOnDisplay d display = d
  /\ WriteString d display runes = d
  /\ ClearFadeOnDisplayBlocking d display delay = d.
Proof.
  intros Hd.
  unfold ClearOnDisplay, ClearFadeOnDisplayBlocking.
  rewrite WriteString_out_of_range by (unfold NumDisplays; lia).
  unfold NumDisplays. rewrite Z.geb_leb.
  destruct (Z.ltb_spec display 0), (Z.leb_spec 2 display); try lia;
    repeat split; reflexivity.
Qed.

End StringEdges.

Lemma WriteString_places_glyphs_witness :
  let d := New healthy_bus 0x70 in
  WriteString d 1 (ascii_runes "12.5")
  = place 1 0 (glyphs (ascii_runes "12.5")) (ClearOnDisplay d 1).
Proof.
  apply (WriteString_places_glyphs (New healthy_bus 0x70) 1 (ascii_runes "12.5")).
  lia.
Defined.

Lemma WriteString_shows_witness :
  segment_lit (buffer (WriteString (New healthy_bus 0x70) 1 (ascii_runes "12.5")))
              1 (Z.of_nat 1) 7
  = match glyphs (ascii_runes "12.5") !! 1%nat with
    | Some (pattern, dot) => wanted pattern dot 7
    | None => false
    end.
Proof.
  apply (WriteString_shows (New healthy_bus 0x70) 1 (ascii_runes "12.5") 1 7);
    [lia | reflexivity | lia | lia].
Defined.

Lemma WriteString_drops_leading_unknown_witness :
  let d := New healthy_bus 0x70 in
  WriteString d 0 (rune "z" :: ascii_runes "42")
  = WriteString d 0 (ascii_runes "42")
  /\ WriteString d 0 (rune "." :: ascii_runes "42")
     = WriteString d 0 (ascii_runes "42").
Proof.
  apply (WriteString_drops_leading_unknown
           (New healthy_bus 0x70) 0 (rune "z") (ascii_runes "42")).
  vm_compute. reflexivity.
Defined.

Lemma display_out_of_range_is_noop_witness :
  let d := New healthy_bus 0x70 in
  ClearOnDisplay d 2 = d
  /\ WriteString d 2 (ascii_runes "12.5") = d
  /\ ClearFadeOnDisplayBlocking d 2 1000 = d.
Proof.
  apply (display_out_of_range_is_noop
           (New healthy_bus 0x70) 2 1000 (ascii_runes "12.5")).
  lia.
Defined.

(** ** More on fades *)

Lemma last_take_countdown (k n : nat) (x : Z) :
  (k <= n)%nat ->
  List.last (List.map clamp15 (take k (countdown (Z.of_nat n)))) x
  = if Nat.eqb k 0 then x else clamp15 (Z.of_nat n - Z.of_nat k + 1).
Proof.
  revert n x. induction k as [|k IH]; intros n x Hk; [reflexivity|].
  destruct n as [|m]; [lia|].
  rewrite countdown_succ. cbn [firstn List.map]. rewrite last_cons.
  rewrite IH by lia. cbn [Nat.eqb].
  destruct k; cbn [Nat.eqb]; f_equal; lia.
Qed.

Lemma last_count_up (j : nat) (x : Z) :
  (j <= 16)%nat ->
  List.last (List.map clamp15 (List.map Z.of_nat (seq 0 j))) x
  = if Nat.eqb j 0 then x else Z.of_nat j - 1.
Proof.
  intros Hj. destruct j as [|j]; [reflexivity|].
  rewrite seq_S, !List.map_app. cbn [List.map Nat.add Nat.eqb].
  rewrite List.last_last. unfold clamp15.
  destruct (Z.ltb_spec 15 (Z.of_nat j)); lia.
Qed.

Section FadeProgress.
Context {B : Type} `{I2CBus B}.

(** X14.  Polling when nothing is due is harmless.  If the device is idle, or if
    every tick of a series comes less than the configured delay after the
    last update, the series leaves the device exactly as it was (no
    transfer, no change of brightness or state), and every call returns
    whether a fade is in progress. *)
Theorem ticks_without_effect (d : Device B) (ticks : list tick) :
  fadeState d = fadeStateIdle \/ forallb (too_early d) ticks = true ->
  run_ticks d ticks = d
  /\ List.map (fun t => snd (UpdateFade d (fst t) (snd t))) ticks
     = List.map (fun _ => IsFading d) ticks.
Proof.
  intros [Hidle|Hearly].
  - split; [apply run_ticks_idle, Hidle|].
    apply List.map_ext. intros t. rewrite UpdateFade_idle by assumption.
    unfold IsFading. rewrite Hidle. reflexivity.
  - induction ticks as [|t ticks IH]; [split; reflexivity|].
    cbn [forallb] in Hearly. apply andb_true_iff in Hearly as [Ht Hrest].
    unfold too_early in Ht. apply Z.ltb_lt in Ht.
    destruct (IH Hrest) as [IHrun IHret].
    rewrite run_ticks_cons. cbn [List.map].
    rewrite UpdateFade_too_early by assumption. cbn [fst snd].
    split; [exact IHrun|]. f_equal. exact IHret.
Qed.

(** X15.  The brightness ramp of a non-blocking fade.  From an idle device with
    stored brightness [b0] (0-15), after [k] ticks spaced by at least the
    delay, with [1 <= k <= b0 + 16], the fade is still in progress and the
    stored brightness is [b0 - k + 1] on the way down (up to tick
    [b0 + 1], which reaches 0) and [k - b0 - 2] on the way up: one level
    per tick, down to 0 and up again. *)
Theorem fade_ramp (d : Device B) (delay now : Z) (ticks : list tick) :
  fadeState d = fadeStateIdle ->
  0 <= currentBrightness d <= 15 ->
  well_spaced delay now ticks = true ->
  (1 <= length ticks)%nat ->
  Z.of_nat (length ticks) <= currentBrightness d + 16 ->
  let k := Z.of_nat (length ticks) in
  let d' := run_ticks (StartFade d delay now) ticks in
  IsFading d' = true
  /\ currentBrightness d'
     = if k <=? currentBrightness d + 1
       then currentBrightness d - k + 1
       else k - currentBrightness d - 2.
Proof.
  intros Hidle Hb Hsp Hk1 Hk2. cbv zeta.
  rewrite StartFade_idle by assumption.
  set (n := Z.to_nat (currentBrightness d)).
  assert (Hcb : currentBrightness d = Z.of_nat n) by (unfold n; lia).
  destruct (le_lt_dec (length ticks) n) as [Hle|Hgt].
  - (* still fading out *)
    rewrite (fade_out_prefix (length ticks) (n - length ticks) _ ticks);
      cbn [fadeState fadeStep lastUpdateTime fadeDelay];
      [ | reflexivity | rewrite Hcb; f_equal; lia | lia | exact Hsp
        | reflexivity ].
    cbn [IsFading fadeState currentBrightness fadeState_eqb negb].
    split; [reflexivity|].
    replace (length ticks + (n - length ticks))%nat with n by lia.
    rewrite last_take_countdown by lia.
    destruct (Nat.eqb_spec (length ticks) 0); [lia|].
    destruct (Z.leb_spec (Z.of_nat (length ticks)) (currentBrightness d + 1));
      [|lia].
    unfold clamp15.
    destruct (Z.ltb_spec 15 (Z.of_nat n - Z.of_nat (length ticks) + 1)); lia.
  - (* the hand-over has been made *)
    pose proof (take_drop n ticks) as Hsplit.
    pose proof (length_take ticks n) as Hl1.
    pose proof (length_drop ticks n) as Hl2.
    destruct (drop n ticks) as [|tA t2] eqn:Hdrop; cbn [length] in Hl2; [lia|].
    rewrite <- Hsplit in Hsp |- *.
    rewrite well_spaced_app in Hsp. apply andb_true_iff in Hsp as [Hsp1 Hsp].
    cbn [well_spaced] in Hsp. apply andb_true_iff in Hsp as [HdueA Hsp2].
    apply Z.leb_le in HdueA.
    rewrite run_ticks_app.
    rewrite (fade_out_prefix n 0 _ (take n ticks));
      rewrite ?Nat.add_0_r;
      cbn [fadeState fadeStep lastUpdateTime fadeDelay];
      [ | reflexivity | exact Hcb | lia | exact Hsp1 | lia ].
    rewrite run_ticks_cons.
    rewrite UpdateFade_out_last by (cbn; first [reflexivity | assumption]).
    cbn [fst].
    rewrite (fade_in_prefix (length t2) 0 _ t2);
      cbn [fadeState fadeStep lastUpdateTime fadeDelay];
      [ | reflexivity | reflexivity | lia | exact Hsp2 | reflexivity ].
    cbn [IsFading fadeState currentBrightness fadeState_eqb negb].
    split; [reflexivity|].
    rewrite last_count_up by lia.
    rewrite List.length_app, Hl1. cbn [length].
    destruct (Nat.eqb_spec (length t2) 0) as [Hz|Hnz].
    + destruct (Z.leb_spec (Z.of_nat (Nat.min n (length ticks) + S (length t2)))
                           (currentBrightness d + 1)); lia.
    + destruct (Z.leb_spec (Z.of_nat (Nat.min n (length ticks) + S (length t2)))
                           (currentBrightness d + 1)); lia.
Qed.

End FadeProgress.

Lemma ticks_without_effect_witness :
  let d := StartFade (New healthy_bus 0x70) 50 1000 in
  let ticks := [(1010, 1011); (1049, 1049)] in
  run_ticks d ticks = d
  /\ List.map (fun t => snd (UpdateFade d (fst t) (snd t))) ticks
     = List.map (fun _ => IsFading d) ticks.
Proof.
  apply (ticks_without_effect (StartFade (New healthy_bus 0x70) 50 1000)
                              [(1010, 1011); (1049, 1049)]).
  right. reflexivity.
Defined.

Lemma fade_ramp_witness :
  let d := New healthy_bus 0x70 in
  let ticks := take 20 sample_ticks in
  let k := Z.of_nat (length ticks) in
  let d' := run_ticks (StartFade d 50 0) ticks in
  IsFading d' = true
  /\ currentBrightness d'
     = if k <=? currentBrightness d + 1
       then currentBrightness d - k + 1
       else k - currentBrightness d - 2.
Proof.
  apply (fade_ramp (New healthy_bus 0x70) 50 0 (take 20 sample_ticks)).
  - reflexivity.
  - cbn. lia.
  - vm_compute. reflexivity.
  - vm_compute. lia.
  - vm_compute. discriminate.
Defined.

Section FadeModes.
Context {B : Type} `{I2CBus B}.

Lemma full_fade_device (d : Device B) (delay now : Z) (ticks : list tick) :
  fadeState d = fadeStateIdle ->
  0 <= currentBrightness d <= 255 ->
  well_spaced delay now ticks = true ->
  (Z.to_nat (currentBrightness d + 17) <= length ticks)%nat ->
  exists stamp,
    run_ticks (StartFade d delay now) ticks
    = mkDevice
        (TxAll (bus d) (Address d)
               (fade_writes (currentBrightness d) (buffer d)))
        (Address d) (buffer d) 15 fadeStateIdle 16 stamp delay.
Proof.
  intros Hidle Hb Hsp Hlen.
  set (n := Z.to_nat (currentBrightness d)).
  assert (Hcb : currentBrightness d = Z.of_nat n) by (unfold n; lia).
  replace (Z.to_nat (currentBrightness d + 17)) with (n + 17)%nat in Hlen
    by (unfold n; lia).
  destruct (split_ticks n ticks Hlen)
    as (t1 & tA & t2 & tB & rest & -> & Hl1 & Hl2).
  rewrite well_spaced_app in Hsp. apply andb_true_iff in Hsp as [Hsp _].
  destruct (fade_decomposed n d delay now t1 t2 tA tB
              Hidle Hcb ltac:(lia) Hl1 Hl2 Hsp) as (_ & _ & E3).
  exists (snd tB).
  rewrite run_ticks_app, E3, run_ticks_idle by reflexivity.
  unfold fade_writes. rewrite Hcb. reflexivity.
Qed.

Lemma DisplayFadeBlocking_device (d : Device B) (delay : Z) :
  0 <= currentBrightness d <= 255 ->
  DisplayFadeBlocking d delay
  = with_bus (with_currentBrightness d 15)
             (TxAll (bus d) (Address d)
                    (fade_writes (currentBrightness d) (buffer d)
                     ++ [brightnessCommand 15])).
Proof.
  intros Hb. unfold DisplayFadeBlocking, fade_writes.
  rewrite (for_each_SetBrightness (countdown _)) by (apply countdown_range; lia).
  rewrite Display_eq.
  rewrite (for_each_SetBrightness (countup 15)) by (apply countup_range; lia).
  rewrite SetBrightness_eq.
  destruct d as [b a buf cb fs st lt fd].
  cbn [bus Address buffer currentBrightness with_bus with_currentBrightness
         fadeState fadeStep lastUpdateTime fadeDelay].
  rewrite <- !TxAll_app, <- !List.app_assoc. reflexivity.
Qed.

(** X16.  The two fades do the same thing to the display.  A non-blocking fade
    run to its end, followed by [SetBrightness(15)], leaves the same bus
    (the same transfers in the same order), the same buffer and the same
    stored brightness as the blocking fade from the same idle device. *)
Theorem fade_modes_agree (d : Device B) (delay now delay' : Z)
        (ticks : list tick) :
  fadeState d = fadeStateIdle ->
  0 <= currentBrightness d <= 255 ->
  well_spaced delay now ticks = true ->
  (Z.to_nat (currentBrightness d + 17) <= length ticks)%nat ->
  let polled := SetBrightness (run_ticks (StartFade d delay now) ticks) 15 in
  let blocking := DisplayFadeBlocking d delay' in
  bus polled = bus blocking
  /\ buffer polled = buffer blocking
  /\ currentBrightness polled = currentBrightness blocking
  /\ Address polled = Address blocking.
Proof.
  intros Hidle Hb Hsp Hlen. cbv zeta.
  destruct (full_fade_device d delay now ticks Hidle Hb Hsp Hlen) as [stamp ->].
  rewrite DisplayFadeBlocking_device by assumption.
  rewrite SetBrightness_eq.
  cbn [bus Address buffer currentBrightness with_bus with_currentBrightness].
  rewrite <- TxAll_app. repeat split.
Qed.

(** X17.  [LightUpAllFadeBlocking] fills the buffer with 0xFF and ramps the
    brightness from 0 to 15 with sixteen brightness commands, but makes no
    display-RAM write: the filled buffer stays in the device until
    [Display] is called.  It ends with stored brightness 15 and leaves the
    fade machine alone. *)
Theorem LightUpAllFadeBlocking_trace (d : Device B) (delay : Z) :
  length (buffer d) = 16%nat ->
  LightUpAllFadeBlocking d delay
  = with_bus (with_currentBrightness (with_buffer d (replicate 16 0xFF)) 15)
             (TxAll (bus d) (Address d)
                    (List.map brightnessCommand (countup 15)))
  /\ List.filter is_flush (List.map brightnessCommand (countup 15)) = []
  /\ length (List.map brightnessCommand (countup 15)) = 16%nat.
Proof.
  intros Hlen. split; [|split; reflexivity].
  unfold LightUpAllFadeBlocking.
  rewrite (for_each_SetBrightness (countup 15)) by (apply countup_range; lia).
  unfold LightUpAll. rewrite for_upto_fill, Hlen.
  destruct d; reflexivity.
Qed.

End FadeModes.

Lemma fade_modes_agree_witness :
  let d := New healthy_bus 0x70 in
  let polled := SetBrightness (run_ticks (StartFade d 50 0) sample_ticks) 15 in
  let blocking := DisplayFadeBlocking d 20 in
  bus polled = bus blocking
  /\ buffer polled = buffer blocking
  /\ currentBrightness polled = currentBrightness blocking
  /\ Address polled = Address blocking.
Proof.
  apply (fade_modes_agree (New healthy_bus 0x70) 50 0 20 sample_ticks).
  - reflexivity.
  - cbn. lia.
  - vm_compute. reflexivity.
  - vm_compute. lia.
Defined.

Lemma LightUpAllFadeBlocking_trace_witness :
  let d := New healthy_bus 0x70 in
  LightUpAllFadeBlocking d 20
  = with_bus (with_currentBrightness (with_buffer d (replicate 16 0xFF)) 15)
             (TxAll (bus d) (Address d)
                    (List.map brightnessCommand (countup 15)))
  /\ List.filter is_flush (List.map brightnessCommand (countup 15)) = []
  /\ length (List.map brightnessCommand (countup 15)) = 16%nat.
Proof.
  apply (LightUpAllFadeBlocking_trace (New healthy_bus 0x70) 20). reflexivity.
Defined.

(** ** The bus has no say *)

Lemma fields_for_upto {B} (n : nat) (body : nat -> Device B -> Device B)
      (body' : nat -> Device unit -> Device unit) (d : Device B) :
  (forall i x, fields (body i x) = body' i (fields x)) ->
  fields (for_upto n body d) = for_upto n body' (fields d).
Proof.
  intros Hbody. induction n as [|n IH]; [reflexivity|].
  rewrite !for_upto_S, Hbody, IH. reflexivity.
Qed.

Lemma fields_for_each {B} (xs : list Z) (body : Z -> Device B -> Device B)
      (body' : Z -> Device unit -> Device unit) (d : Device B) :
  (forall i x, fields (body i x) = body' i (fields x)) ->
  fields (for_each xs body d) = for_each xs body' (fields d).
Proof.
  intros Hbody. revert d. induction xs as [|i xs IH]; intros d; [reflexivity|].
  unfold for_each in *. cbn [fold_left]. rewrite IH, Hbody. reflexivity.
Qed.

Section NoSay.
Context {B : Type} `{I2CBus B}.

Lemma fields_setPattern (d : Device B) (display position pattern : Z)
      (dot : bool) :
  fields (setPattern d display position pattern dot)
  = setPattern (fields d) display position pattern dot.
Proof. unfold setPattern. destruct (_ || _); reflexivity. Qed.

Lemma fields_ClearOnDisplay (d : Device B) (display : Z) :
  fields (ClearOnDisplay d display) = ClearOnDisplay (fields d) display.
Proof.
  unfold ClearOnDisplay. destruct (_ || _); [reflexivity|].
  apply fields_for_upto. intros i x.
  rewrite !SetDigitOnDisplay_setPattern. apply fields_setPattern.
Qed.

Lemma fields_WriteString_loop (fuel : nat) (runes : list Z)
      (display i digitPos : Z) (d : Device B) :
  fields (WriteString_loop fuel runes display i digitPos d)
  = WriteString_loop fuel runes display i digitPos (fields d).
Proof.
  revert i digitPos d. induction fuel as [|fuel IH]; intros i digitPos d;
    [reflexivity|].
  cbn [WriteString_loop]. destruct (_ && _); [|reflexivity]. cbv zeta.
  destruct (font !! _); rewrite IH; [|reflexivity].
  rewrite fields_setPattern. reflexivity.
Qed.

Lemma fields_ramp (levels : list Z) (d : Device B) :
  fields (for_each levels (fun i d => SetBrightness d (u8 i)) d)
  = for_each levels (fun i d => SetBrightness d (u8 i)) (fields d).
Proof. apply fields_for_each. reflexivity. Qed.

Lemma fields_DisplayFadeBlocking (d : Device B) (delay : Z) :
  fields (DisplayFadeBlocking d delay) = DisplayFadeBlocking (fields d) delay.
Proof.
  unfold DisplayFadeBlocking. cbv zeta.
  change (currentBrightness (fields d)) with (currentBrightness d).
  rewrite fields_SetBrightness, fields_ramp, fields_Display, fields_ramp.
  reflexivity.
Qed.

Lemma fields_UpdateFade (d : Device B) (checked stamped : Z) :
  fields (fst (UpdateFade d checked stamped))
  = fst (UpdateFade (fields d) checked stamped)
  /\ snd (UpdateFade d checked stamped)
     = snd (UpdateFade (fields d) checked stamped).
Proof.
  destruct d as [b a buf cb fs st lt fd].
  unfold UpdateFade, fields, with_bus.
  cbn [bus Address buffer currentBrightness fadeState fadeStep
         lastUpdateTime fadeDelay].
  destruct (_ || _); [split; reflexivity|].
  destruct fs; unfold with_lastUpdateTime;
    cbn [bus Address buffer currentBrightness fadeState fadeStep
           lastUpdateTime fadeDelay fst snd].
  - split; reflexivity.
  - cbv zeta. unfold SetBrightness, with_fadeStep, with_bus,
      with_currentBrightness.
    cbn [bus Address buffer currentBrightness fadeState fadeStep
           lastUpdateTime fadeDelay].
    destruct (st - 1 <? 0); split; reflexivity.
  - cbv zeta. unfold SetBrightness, with_fadeStep, with_bus,
      with_currentBrightness.
    cbn [bus Address buffer currentBrightness fadeState fadeStep
           lastUpdateTime fadeDelay].
    destruct (15 <? st + 1); split; reflexivity.
Qed.

Lemma fields_exec (o : op) (d : Device B) :
  fields (exec o d) = exec o (fields d).
Proof.
  destruct o; cbn [exec].
  - reflexivity.
  - reflexivity.
  - rewrite !SetDigitOnDisplay_setPattern. apply fields_setPattern.
  - unfold SetDigit16. destruct (_ || _); [reflexivity|].
    rewrite !SetDigitOnDisplay_setPattern. apply fields_setPattern.
  - apply fields_ClearOnDisplay.
  - unfold ClearFadeOnDisplayBlocking. destruct (_ || _); [reflexivity|].
    rewrite fields_DisplayFadeBlocking, fields_ClearOnDisplay. reflexivity.
  - unfold ClearAllFadeBlocking. rewrite fields_DisplayFadeBlocking.
    reflexivity.
  - unfold WriteString. destruct (_ || _); [reflexivity|].
    rewrite fields_WriteString_loop, fields_ClearOnDisplay. reflexivity.
  - reflexivity.
  - reflexivity.
  - unfold LightUpAllFadeBlocking. rewrite fields_ramp. reflexivity.
  - apply fields_DisplayFadeBlocking.
  - unfold StartFade.
    change (fadeState (fields d)) with (fadeState d).
    destruct (negb _); reflexivity.
  - apply fields_UpdateFade.
  - reflexivity.
  - reflexivity.
Qed.

(** X18.  No public operation looks at what the bus does.  After any sequence of
    public calls the fields of the device (buffer, brightness, fade state)
    are those the same calls produce on a bus that swallows every
    transfer, and every [UpdateFade] returns the same [bool]: a transport
    error never changes the buffer, the brightness or the course of a
    fade. *)
Theorem bus_has_no_say (d : Device B) (ops : list op) (checked stamped : Z) :
  fields (run ops d) = run ops (fields d)
  /\ snd (UpdateFade (run ops d) checked stamped)
     = snd (UpdateFade (run ops (fields d)) checked stamped).
Proof.
  assert (Hrun : forall d : Device B, fields (run ops d) = run ops (fields d)).
  { induction ops as [|o ops IH]; intros d0; [reflexivity|].
    unfold run in *. cbn [fold_left]. rewrite IH, fields_exec. reflexivity. }
  split; [apply Hrun|].
  rewrite <- Hrun. apply fields_UpdateFade.
Qed.

End NoSay.

(** ** The other revisions *)

Lemma lookup_map {A C} (f : A -> C) (l : list A) (i : nat) :
  List.map f l !! i = f <$> l !! i.
Proof.
  revert i. induction l as [|x l IH]; intros [|i]; cbn; auto.
Qed.

Lemma RuneAPI_font_eq : RuneAPI.font = font.
Proof. vm_compute. reflexivity. Qed.

(** The ten digits. *)
Lemma digit_cases (n : Z) : 0 <= n <= 9 -> List.In n (countup 9).
Proof.
  intros Hn. unfold countup. apply List.in_map_iff.
  exists (Z.to_nat n). split; [lia|]. apply List.in_seq. lia.
Qed.

(** For a digit the array of the digits-only revision and the font map
    hold the same pattern. *)
Lemma digit_patterns_agree (n : Z) :
  0 <= n <= 9 ->
  default 0 (DigitAPI.font !! Z.to_nat n) = default 0 (font !! (rune "0" + n))
  /\ font !! (rune "0" + n) = Some (default 0 (DigitAPI.font !! Z.to_nat n))
  /\ u8 (rune "0" + n) = rune "0" + n
  /\ to_upper (rune "0" + n) = rune "0" + n.
Proof.
  intros Hn. pose proof (digit_cases n Hn) as Hin.
  vm_compute in Hin.
  repeat (destruct Hin as [<-|Hin]; [repeat split; vm_compute; reflexivity|]).
  destruct Hin.
Qed.

Lemma DigitAPI_SetDigitOnDisplay_setPattern {B} (d : Device B)
      (display position num : Z) (dot : bool) :
  DigitAPI.SetDigitOnDisplay d display position num dot
  = setPattern d display position
      (if num <? 10
       then default 0 (DigitAPI.font !! Z.to_nat num)
       else default 0 (DigitAPI.font !! Z.to_nat blankPatternIndex))
      dot.
Proof. reflexivity. Qed.

(** X20.  In the digits-only revision [SetDigitOnDisplay] shows the glyph of the
    digit for 0-9 and blanks the slot for every other byte, as its
    comment says. *)
Theorem DigitAPI_SetDigitOnDisplay_digit_or_blank {B} (d : Device B)
        (display position num : Z) (dot : bool) :
  0 <= num <= 255 ->
  DigitAPI.SetDigitOnDisplay d display position num dot
  = setPattern d display position
      (if num <=? 9 then default 0 (font !! (rune "0" + num)) else 0) dot.
Proof.
  intros Hnum. rewrite DigitAPI_SetDigitOnDisplay_setPattern.
  destruct (Z.ltb_spec num 10), (Z.leb_spec num 9); try lia.
  - destruct (digit_patterns_agree num) as (-> & _); [lia|]. reflexivity.
  - reflexivity.
Qed.

Lemma SetDigitOnDisplay_DigitAPI_eq {B} (d : Device B)
      (display position num : Z) (dot : bool) :
  0 <= num <= 10 ->
  SetDigitOnDisplay d display position num dot
  = DigitAPI.SetDigitOnDisplay d display position num dot.
Proof.
  intros Hnum.
  rewrite SetDigitOnDisplay_setPattern, DigitAPI_SetDigitOnDisplay_setPattern.
  destruct (Z.ltb_spec num 10).
  - destruct (digit_patterns_agree num) as (-> & _ & -> & _); [lia|].
    reflexivity.
  - assert (num = 10) as -> by lia. reflexivity.
Qed.

(** X21.  The font-map revision keeps the behaviour of the digits-only one for
    the digits 0-9 and for [blankPatternIndex] (10). *)
Theorem SetDigitOnDisplay_agrees_with_DigitAPI {B} (d : Device B)
        (display position num : Z) (dot : bool) :
  0 <= num <= 10 ->
  SetDigitOnDisplay d display position num dot
  = DigitAPI.SetDigitOnDisplay d display position num dot.
Proof. apply SetDigitOnDisplay_DigitAPI_eq. Qed.

Lemma DigitAPI_ClearOnDisplay_eq {B} (d : Device B) (display : Z) :
  DigitAPI.ClearOnDisplay d display = ClearOnDisplay d display.
Proof.
  unfold DigitAPI.ClearOnDisplay, ClearOnDisplay.
  destruct (_ || _); [reflexivity|].
  apply for_upto_ext; intros i x _.
  symmetry. apply SetDigitOnDisplay_DigitAPI_eq.
  unfold blankPatternIndex. lia.
Qed.

Lemma RuneAPI_ClearOnDisplay_eq {B} (d : Device B) (display : Z) :
  RuneAPI.ClearOnDisplay d display = ClearOnDisplay d display.
Proof.
  unfold RuneAPI.ClearOnDisplay, ClearOnDisplay.
  destruct (_ || _); [reflexivity|].
  apply for_upto_ext; intros i x _.
  rewrite SetDigitOnDisplay_setPattern, blank_glyph, RuneAPI_font_eq.
  reflexivity.
Qed.

(** X22.  [ClearOnDisplay] does the same in the three revisions. *)
Theorem ClearOnDisplay_same_in_all_revisions {B} (d : Device B) (display : Z) :
  DigitAPI.ClearOnDisplay d display = ClearOnDisplay d display
  /\ RuneAPI.ClearOnDisplay d display = ClearOnDisplay d display.
Proof.
  split; [apply DigitAPI_ClearOnDisplay_eq | apply RuneAPI_ClearOnDisplay_eq].
Qed.

Lemma digit_rune (c : Z) :
  (c >=? rune "0") && (c <=? rune "9") = true ->
  0 <= c - rune "0" <= 9.
Proof.
  change (rune "0") with 48. change (rune "9") with 57. rewrite Z.geb_leb.
  destruct (Z.leb_spec 48 c), (Z.leb_spec c 57); cbn [andb];
    intros; try discriminate; lia.
Qed.

Lemma plain_runes_lookup (runes : list Z) (i : nat) (c : Z) :
  forallb plain_rune runes = true -> runes !! i = Some c ->
  plain_rune c = true.
Proof.
  intros Hall Hc. rewrite forallb_forall in Hall. apply Hall.
  apply list_elem_of_In. apply list_elem_of_lookup. exists i. exact Hc.
Qed.

(** The loops of the digits-only revision and of the driver run in step
    on plain runes. *)
Lemma DigitAPI_loop_plain {B} (fuel : nat) (runes : list Z) (display : Z)
      (i digitPos : Z) (d : Device B) :
  forallb plain_rune runes = true -> 0 <= i ->
  DigitAPI.WriteString_loop fuel runes display i digitPos d
  = WriteString_loop fuel runes display i digitPos d.
Proof.
  intros Hplain. revert i digitPos d.
  induction fuel as [|fuel IH]; intros i digitPos d Hi; [reflexivity|].
  cbn [DigitAPI.WriteString_loop WriteString_loop].
  destruct (Z.ltb_spec i (Z.of_nat (length runes))) as [Hlt|Hge];
    [|reflexivity].
  destruct (digitPos <? MaxDigitsPerDisplay); [|reflexivity].
  cbn [andb]. cbv zeta.
  destruct (lookup_lt_is_Some_2 runes (Z.to_nat i)) as [c Hc]; [lia|].
  rewrite Hc, default_Some_eq. fold (to_upper c).
  pose proof (plain_runes_lookup runes _ c Hplain Hc) as Hpc.
  unfold plain_rune in Hpc.
  destruct ((c >=? rune "0") && (c <=? rune "9")) eqn:Hdigit.
  - pose proof (digit_rune c Hdigit) as Hn.
    destruct (digit_patterns_agree (c - rune "0") Hn) as (_ & Hfont & _ & Hup).
    replace (rune "0" + (c - rune "0")) with c in Hfont, Hup by lia.
    rewrite Hup, Hfont.
    rewrite DigitAPI_SetDigitOnDisplay_setPattern.
    rewrite u8_small by lia.
    destruct (Z.ltb_spec (c - rune "0") 10); [|lia].
    apply IH.
    match goal with |- context [if ?c then _ else _] => destruct c end; lia.
  - destruct (font !! to_upper c); [discriminate|].
    apply IH. lia.
Qed.

(** The loop of the rune revision on the upper-cased runes and the loop
    of the driver run in step. *)
Lemma RuneAPI_loop_upper {B} (fuel : nat) (runes : list Z) (display : Z)
      (i digitPos : Z) (d : Device B) :
  0 <= i ->
  RuneAPI.WriteString_loop fuel (List.map to_upper runes) display i digitPos d
  = WriteString_loop fuel runes display i digitPos d.
Proof.
  revert i digitPos d.
  induction fuel as [|fuel IH]; intros i digitPos d Hi; [reflexivity|].
  cbn [RuneAPI.WriteString_loop WriteString_loop].
  rewrite List.length_map.
  destruct (Z.ltb_spec i (Z.of_nat (length runes))) as [Hlt|Hge];
    [|reflexivity].
  destruct (digitPos <? MaxDigitsPerDisplay); [|reflexivity].
  cbn [andb]. cbv zeta.
  destruct (lookup_lt_is_Some_2 runes (Z.to_nat i)) as [c Hc]; [lia|].
  rewrite !lookup_map, Hc, fmap_Some_eq, !default_Some_eq.
  fold (to_upper c). rewrite RuneAPI_font_eq.
  destruct (font !! to_upper c); [|apply IH; lia].
  destruct (Z.ltb_spec (i + 1) (Z.of_nat (length runes))) as [Hlt'|Hge'];
    cbn [andb]; [|apply IH; lia].
  destruct (lookup_lt_is_Some_2 runes (Z.to_nat (i + 1))) as [c' Hc']; [lia|].
  rewrite Hc', fmap_Some_eq, !default_Some_eq, to_upper_dot.
  apply IH. destruct (c' =? rune "."); lia.
Qed.

Section Revisions.
Context {B : Type} `{I2CBus B}.

(** X23.  On a string made of digits and of runes without a glyph (dots
    included) the digits-only revision and the driver write the same
    thing. *)
Theorem WriteString_agrees_with_DigitAPI (d : Device B) (display : Z)
        (runes : list Z) :
  forallb plain_rune runes = true ->
  DigitAPI.WriteString d display runes = WriteString d display runes.
Proof.
  intros Hplain. unfold DigitAPI.WriteString, WriteString.
  destruct (_ || _); [reflexivity|]. cbv zeta.
  rewrite DigitAPI_loop_plain by (assumption || lia).
  replace (DigitAPI.ClearOnDisplay d display) with (ClearOnDisplay d display)
    by (symmetry; apply DigitAPI_ClearOnDisplay_eq).
  reflexivity.
Qed.

(** X24.  The driver's [WriteString] is the rune revision's [WriteString] on
    the upper-cased string: case folding is the only difference between
    the two, and on a string without lower-case letters they agree. *)
Theorem WriteString_is_RuneAPI_on_upper (d : Device B) (display : Z)
        (runes : list Z) :
  WriteString d display runes
  = RuneAPI.WriteString d display (List.map to_upper runes).
Proof.
  unfold RuneAPI.WriteString, WriteString.
  destruct (_ || _); [reflexivity|]. cbv zeta.
  rewrite List.length_map, RuneAPI_loop_upper by lia.
  replace (RuneAPI.ClearOnDisplay d display) with (ClearOnDisplay d display)
    by (symmetry; apply RuneAPI_ClearOnDisplay_eq).
  reflexivity.
Qed.

(** X26.  [SetDigitOnDisplay] of the rune revision shows the glyph of the rune
    in the addressed slot, and a blank for a rune that has none: each
    segment is lit exactly when the glyph (or the dot flag) says so. *)
Theorem RuneAPI_SetDigitOnDisplay_shows (d : Device B)
        (display position char : Z) (dot : bool) (j : nat) :
  0 <= display <= 1 -> 0 <= position <= 7 -> (j < 8)%nat ->
  length (buffer d) = 16%nat ->
  segment_lit (buffer (RuneAPI.SetDigitOnDisplay d display position char dot))
              display position j
  = wanted (default 0 (font !! char)) dot j.
Proof.
  intros Hd Hp Hj Hlen. unfold RuneAPI.SetDigitOnDisplay. cbv zeta.
  rewrite segment_lit_written by assumption.
  rewrite RuneAPI_font_eq. destruct (font !! char); reflexivity.
Qed.

(** X25.  [SetDigit16] of the rune revision on the sixteen-digit view: for a
    position from 0 to 15 it is [SetDigitOnDisplay] on display
    [position / 8], digit [position mod 8], and that slot then shows the
    glyph of the rune (a blank when it has none) with the requested
    decimal point. *)
Theorem RuneAPI_SetDigit16_shows (d : Device B) (position char : Z)
        (dot : bool) (j : nat) :
  0 <= position <= 15 -> (j < 8)%nat -> length (buffer d) = 16%nat ->
  RuneAPI.SetDigit16 d position char dot
  = RuneAPI.SetDigitOnDisplay d (position / 8) (position mod 8) char dot
  /\ segment_lit (buffer (RuneAPI.SetDigit16 d position char dot))
                 (position / 8) (position mod 8) j
     = wanted (default 0 (font !! char)) dot j.
Proof.
  intros Hp Hj Hlen.
  assert (Heq : RuneAPI.SetDigit16 d position char dot
                = RuneAPI.SetDigitOnDisplay d (position / 8) (position mod 8)
                                            char dot).
  { unfold RuneAPI.SetDigit16, MaxDigitsPerDisplay, NumDisplays.
    rewrite Z.geb_leb.
    destruct (Z.ltb_spec position 0); [lia|].
    destruct (Z.leb_spec (8 * 2) position); [lia|]. cbn [orb].
    rewrite Z.quot_div_nonneg, Z.rem_mod_nonneg by lia. reflexivity. }
  split; [exact Heq|]. rewrite Heq.
  unfold RuneAPI.SetDigitOnDisplay. cbv zeta.
  assert (0 <= position / 8 <= 1 /\ 0 <= position mod 8 <= 7) as [Hd Hm]
    by (Z.div_mod_to_equations; lia).
  rewrite segment_lit_written by assumption.
  rewrite RuneAPI_font_eq. destruct (font !! char); reflexivity.
Qed.

End Revisions.

Lemma RuneAPI_SetDigit16_shows_witness :
  let d := New healthy_bus 0x70 in
  RuneAPI.SetDigit16 d 9 (rune "2") true
  = RuneAPI.SetDigitOnDisplay d (9 / 8) (9 mod 8) (rune "2") true
  /\ segment_lit (buffer (RuneAPI.SetDigit16 d 9 (rune "2") true))
                 (9 / 8) (9 mod 8) 6
     = wanted (default 0 (font !! rune "2")) true 6.
Proof.
  apply (RuneAPI_SetDigit16_shows (New healthy_bus 0x70) 9 (rune "2") true 6);
    [lia | lia | reflexivity].
Defined.

Lemma DigitAPI_SetDigitOnDisplay_digit_or_blank_witness :
  let d := New healthy_bus 0x70 in
  DigitAPI.SetDigitOnDisplay d 0 3 17 true
  = setPattern d 0 3
      (if 17 <=? 9 then default 0 (font !! (rune "0" + 17)) else 0) true.
Proof.
  apply (DigitAPI_SetDigitOnDisplay_digit_or_blank (New healthy_bus 0x70) 0 3 17 true).
  lia.
Defined.

Lemma SetDigitOnDisplay_agrees_with_DigitAPI_witness :
  let d := New healthy_bus 0x70 in
  SetDigitOnDisplay d 1 2 8 true = DigitAPI.SetDigitOnDisplay d 1 2 8 true.
Proof.
  apply (SetDigitOnDisplay_agrees_with_DigitAPI (New healthy_bus 0x70) 1 2 8 true).
  lia.
Defined.

Lemma WriteString_agrees_with_DigitAPI_witness :
  let d := New healthy_bus 0x70 in
  DigitAPI.WriteString d 0 (ascii_runes "12.5x")
  = WriteString d 0 (ascii_runes "12.5x").
Proof.
  apply (WriteString_agrees_with_DigitAPI
           (New healthy_bus 0x70) 0 (ascii_runes "12.5x")).
  vm_compute. reflexivity.
Defined.

Lemma RuneAPI_SetDigitOnDisplay_shows_witness :
  segment_lit (buffer (RuneAPI.SetDigitOnDisplay
                         (New healthy_bus 0x70) 1 7 (rune "H") true)) 1 7 6
  = wanted (default 0 (font !! rune "H")) true 6.
Proof.
  apply (RuneAPI_SetDigitOnDisplay_shows
           (New healthy_bus 0x70) 1 7 (rune "H") true 6);
    [lia | lia | lia | reflexivity].
Defined.

(** ** Clearing with a fade *)

Section ClearingFades.
Context {B : Type} `{I2CBus B}.

(** X19.  The clearing fades clear first and fade afterwards, so the buffer
    written to the display RAM at the dark point of the fade is the
    cleared one: sixteen zero bytes for [ClearAllFadeBlocking], the
    buffer with the rows of the display zeroed for
    [ClearFadeOnDisplayBlocking].  Both end with stored brightness 15. *)
Theorem clearing_fades_flush_cleared_buffer (d : Device B)
        (display delay : Z) :
  0 <= display <= 1 ->
  0 <= currentBrightness d <= 255 ->
  length (buffer d) = 16%nat ->
  ClearAllFadeBlocking d delay
  = with_bus (with_currentBrightness (with_buffer d (replicate 16 0)) 15)
             (TxAll (bus d) (Address d)
                    (fade_writes (currentBrightness d) (replicate 16 0)
                     ++ [brightnessCommand 15]))
  /\ ClearFadeOnDisplayBlocking d display delay
     = with_bus
         (with_currentBrightness
            (with_buffer d (buffer (ClearOnDisplay d display))) 15)
         (TxAll (bus d) (Address d)
                (fade_writes (currentBrightness d)
                             (buffer (ClearOnDisplay d display))
                 ++ [brightnessCommand 15])).
Proof.
  intros Hd Hb Hlen. split.
  - unfold ClearAllFadeBlocking.
    assert (Hall : ClearAll d = with_buffer d (replicate 16 0)).
    { unfold ClearAll. rewrite for_upto_fill, Hlen. reflexivity. }
    rewrite Hall, DisplayFadeBlocking_device by exact Hb. reflexivity.
  - unfold ClearFadeOnDisplayBlocking, NumDisplays. rewrite Z.geb_leb.
    destruct (Z.ltb_spec display 0), (Z.leb_spec 2 display); try lia.
    cbn [orb]. rewrite (ClearOnDisplay_frame d display) at 1.
    rewrite DisplayFadeBlocking_device by exact Hb. reflexivity.
Qed.

End ClearingFades.

Lemma clearing_fades_flush_cleared_buffer_witness :
  let d := LightUpAll (New healthy_bus 0x70) in
  ClearAllFadeBlocking d 20
  = with_bus (with_currentBrightness (with_buffer d (replicate 16 0)) 15)
             (TxAll (bus d) (Address d)
                    (fade_writes (currentBrightness d) (replicate 16 0)
                     ++ [brightnessCommand 15]))
  /\ ClearFadeOnDisplayBlocking d 1 20
     = with_bus
         (with_currentBrightness
            (with_buffer d (buffer (ClearOnDisplay d 1))) 15)
         (TxAll (bus d) (Address d)
                (fade_writes (currentBrightness d)
                             (buffer (ClearOnDisplay d 1))
                 ++ [brightnessCommand 15])).
Proof.
  apply (clearing_fades_flush_cleared_buffer
           (LightUpAll (New healthy_bus 0x70)) 1 20);
    [lia | cbn; lia | reflexivity].
Defined.

(** ** What the fades hand to [SetBrightness] *)

Lemma clamp15_small (level : Z) : level <= 15 -> clamp15 level = level.
Proof. intros Hl. rewrite clamp15_min. lia. Qed.

Lemma countdown_levels (hi : Z) :
  hi <= 15 -> Forall (fun level => 0 <= level <= 15) (countdown hi).
Proof.
  intros Hhi. apply List.Forall_forall. intros i Hin.
  apply List.in_map_iff in Hin as (k & <- & Hk).
  apply List.in_rev in Hk.
  apply List.in_seq in Hk. lia.
Qed.

Lemma countup_levels :
  Forall (fun level => 0 <= level <= 15) (countup 15 ++ [15]).
Proof.
  apply List.Forall_forall. intros i Hin.
  vm_compute in Hin.
  repeat (destruct Hin as [<-|Hin]; [lia|]).
  destruct Hin.
Qed.

Section FadeLevels.
Context {B : Type} `{I2CBus B}.

Lemma ramp_app (l1 l2 : list Z) (d : Device B) :
  ramp (l1 ++ l2) d = ramp l2 (ramp l1 d).
Proof. unfold ramp, for_each. apply fold_left_app. Qed.

(** On levels that fit a [uint8], the conversion [uint8(i)] of the fade
    loops changes nothing: the loop calls [SetBrightness] with the loop
    variable. *)
Lemma for_each_u8_ramp (levels : list Z) (d : Device B) :
  Forall (fun i => 0 <= i <= 255) levels ->
  for_each levels (fun i d => SetBrightness d (u8 i)) d = ramp levels d.
Proof.
  revert d. induction levels as [|i levels IH]; intros d Hall; [reflexivity|].
  inversion Hall as [|? ? Hi Hrest]; subst.
  unfold ramp, for_each in *. cbn [fold_left].
  rewrite u8_small by assumption. apply IH. assumption.
Qed.

Lemma DisplayFadeBlocking_ramp (d : Device B) (delay : Z) :
  0 <= currentBrightness d <= 255 ->
  DisplayFadeBlocking d delay
  = ramp (countup 15 ++ [15])
         (Display (ramp (countdown (currentBrightness d)) d)).
Proof.
  intros Hb. unfold DisplayFadeBlocking. cbv zeta.
  rewrite (for_each_u8_ramp (countdown _)) by (apply countdown_range; lia).
  rewrite (for_each_u8_ramp (countup 15)) by (apply countup_range; lia).
  rewrite ramp_app. reflexivity.
Qed.

Lemma LightUpAllFadeBlocking_ramp (d : Device B) (delay : Z) :
  LightUpAllFadeBlocking d delay = ramp (countup 15) (LightUpAll d).
Proof.
  unfold LightUpAllFadeBlocking. cbv zeta.
  apply for_each_u8_ramp, countup_range. lia.
Qed.

(** Outside [StartFade] and [UpdateFade], no operation touches the fade
    machine. *)
Lemma fade_machine_exec (o : op) (d : Device B) :
  0 <= currentBrightness d <= 255 ->
  match o with
  | OpStartFade _ _ | OpUpdateFade _ _ => True
  | _ => fadeState (exec o d) = fadeState d
         /\ fadeStep (exec o d) = fadeStep d
  end.
Proof.
  intros Hb. destruct o; cbn [exec]; try exact I.
  - split; reflexivity.
  - split; reflexivity.
  - rewrite SetDigitOnDisplay_setPattern, setPattern_frame. split; reflexivity.
  - unfold SetDigit16. destruct (_ || _); [split; reflexivity|].
    rewrite SetDigitOnDisplay_setPattern, setPattern_frame. split; reflexivity.
  - rewrite ClearOnDisplay_frame. split; reflexivity.
  - unfold ClearFadeOnDisplayBlocking. destruct (_ || _); [split; reflexivity|].
    rewrite DisplayFadeBlocking_device
      by (rewrite brightness_ClearOnDisplay; exact Hb).
    rewrite ClearOnDisplay_frame. split; reflexivity.
  - unfold ClearAllFadeBlocking.
    rewrite DisplayFadeBlocking_device by exact Hb. split; reflexivity.
  - rewrite WriteString_frame. split; reflexivity.
  - split; reflexivity.
  - split; reflexivity.
  - unfold LightUpAllFadeBlocking. cbv zeta.
    rewrite for_each_SetBrightness by (apply countup_range; lia).
    split; reflexivity.
  - rewrite DisplayFadeBlocking_device by exact Hb. split; reflexivity.
  - split; reflexivity.
  - split; reflexivity.
Qed.

(** A tick keeps the step counter of a running fade within the levels:
    fading out it goes down to 0 and is reset to 0 at the hand-over; fading
    in it goes up to 15, and the machine is idle when it reaches 16. *)
Lemma fadeStep_ok_UpdateFade (d : Device B) (checked stamped : Z) :
  fadeStep_ok d -> fadeStep_ok (fst (UpdateFade d checked stamped)).
Proof.
  intros Hd. destruct d as [b a buf cb fs st lt fd].
  unfold fadeStep_ok in *. cbn [fadeState fadeStep] in Hd.
  unfold UpdateFade. cbn [fadeState lastUpdateTime fadeDelay].
  destruct (_ || _); [exact Hd|].
  destruct fs; cbn.
  - left. reflexivity.
  - destruct Hd as [Hd|Hd]; [discriminate|].
    destruct (Z.ltb_spec (st - 1) 0); cbn; right; lia.
  - destruct Hd as [Hd|Hd]; [discriminate|].
    destruct (Z.ltb_spec 15 (st + 1)); cbn; [left; reflexivity|right; lia].
Qed.

Lemma fadeStep_ok_exec (o : op) (d : Device B) :
  brightness_ok d -> fadeStep_ok d -> fadeStep_ok (exec o d).
Proof.
  intros Hb Hf.
  assert (Hb' : 0 <= currentBrightness d <= 255)
    by (unfold brightness_ok in Hb; lia).
  pose proof (fade_machine_exec o d Hb') as Hk.
  destruct o; cbv beta iota in Hk;
    try (unfold fadeStep_ok; rewrite (proj1 Hk), (proj2 Hk); exact Hf).
  - cbn [exec]. unfold StartFade. destruct (negb _); [exact Hf|].
    right. exact Hb.
  - cbn [exec]. apply fadeStep_ok_UpdateFade. exact Hf.
Qed.

(** The invariant of the devices reached from [New]. *)
Lemma reachable_ok (b : B) (address : Z) (ops : list op) :
  forallb uint8_args ops = true ->
  brightness_ok (run ops (New b address))
  /\ fadeStep_ok (run ops (New b address)).
Proof.
  intros Hargs.
  assert (Hgen : forall d, brightness_ok d -> fadeStep_ok d ->
                           brightness_ok (run ops d) /\ fadeStep_ok (run ops d)).
  { induction ops as [|o ops IH]; intros d Hb Hf; [split; assumption|].
    cbn [forallb] in Hargs. apply andb_true_iff in Hargs as [Ho Hops].
    unfold run. cbn [fold_left]. apply (IH Hops).
    - apply brightness_ok_exec; assumption.
    - apply fadeStep_ok_exec; assumption. }
  apply Hgen.
  - unfold brightness_ok. cbn. lia.
  - left. reflexivity.
Qed.

(** What a tick does with the level.  A tick that comes while idle or too
    early calls nothing.  Any other tick, on a device whose step counter is
    a level, passes that counter to [SetBrightness]: the conversion to
    [uint8] and the clamp leave it as it is, it is the level stored and the
    level written, and the display write follows it at the hand-over. *)
Lemma UpdateFade_level (d : Device B) (checked stamped : Z) :
  fadeStep_ok d ->
  if fadeState_eqb (fadeState d) fadeStateIdle
     || (checked - lastUpdateTime d <? fadeDelay d)
  then fst (UpdateFade d checked stamped) = d
  else 0 <= fadeStep d <= 15
       /\ u8 (fadeStep d) = fadeStep d
       /\ currentBrightness (fst (UpdateFade d checked stamped)) = fadeStep d
       /\ bus (fst (UpdateFade d checked stamped))
          = bus (if fadeState_eqb (fadeState d) fadeStateOut
                    && (fadeStep d =? 0)
                 then Display (SetBrightness d (fadeStep d))
                 else SetBrightness d (fadeStep d)).
Proof.
  intros Hf.
  destruct (fadeState_eqb (fadeState d) fadeStateIdle
            || (checked - lastUpdateTime d <? fadeDelay d)) eqn:G.
  - unfold UpdateFade. rewrite G. reflexivity.
  - apply orb_false_iff in G as [Gs Gt]. apply Z.ltb_ge in Gt.
    destruct Hf as [Hidle|Hstep]; [rewrite Hidle in Gs; discriminate|].
    split; [exact Hstep|]. split; [apply u8_small; lia|].
    destruct (fadeState d) eqn:Es; [discriminate| |].
    + destruct (Z.eqb_spec (fadeStep d) 0) as [E0|E0].
      * rewrite UpdateFade_out_last by assumption.
        rewrite E0. split; reflexivity.
      * rewrite UpdateFade_out_step by (assumption || lia).
        cbn [fst currentBrightness bus fadeState_eqb andb].
        rewrite clamp15_small by lia. split; reflexivity.
    + cbn [fadeState_eqb andb].
      destruct (Z.eq_dec (fadeStep d) 15) as [E15|E15].
      * rewrite UpdateFade_in_last by assumption.
        rewrite E15. split; reflexivity.
      * rewrite UpdateFade_in_step by (assumption || lia).
        cbn [fst currentBrightness bus].
        rewrite clamp15_small by lia. split; reflexivity.
Qed.

(** C10.  For a device [d] made by [New] and any sequence of public
    operations whose [uint8] arguments are [uint8] values:
    - the stored brightness of [d] lies between 0 and 15 (after the
      sequence, hence after each of its prefixes), and while a fade is
      running its step counter lies between 0 and 15 as well;
    - [New] stores 15;
    - [SetBrightness] stores the minimum of its argument and 15, a level
      between 0 and 15 for every [uint8] argument;
    - [UpdateFade] calls nothing when idle or too early; otherwise the
      argument [uint8(fadeStep)] it passes to [SetBrightness] is the step
      counter itself, between 0 and 15, which is stored and written
      unclamped (followed by the display write at the hand-over);
    - the blocking fades call [SetBrightness] with the loop variable:
      [DisplayFadeBlocking], directly or from the two clearing fades, with
      the levels from the stored brightness down to 0, then 0 up to 15, then
      15; [LightUpAllFadeBlocking] with 0 up to 15; each of these levels
      lies between 0 and 15. *)
Theorem currentBrightness_in_range (b : B) (address : Z) (ops : list op) :
  forallb uint8_args ops = true ->
  let d := run ops (New b address) in
  0 <= currentBrightness d <= 15
  /\ (fadeState d = fadeStateIdle \/ 0 <= fadeStep d <= 15)
  /\ currentBrightness (New b address) = 15
  /\ (forall level : Z,
        currentBrightness (SetBrightness d level) = Z.min level 15
        /\ 0 <= currentBrightness (SetBrightness d (u8 level)) <= 15)
  /\ (forall checked stamped : Z,
        if fadeState_eqb (fadeState d) fadeStateIdle
           || (checked - lastUpdateTime d <? fadeDelay d)
        then fst (UpdateFade d checked stamped) = d
        else 0 <= fadeStep d <= 15
             /\ u8 (fadeStep d) = fadeStep d
             /\ currentBrightness (fst (UpdateFade d checked stamped))
                = fadeStep d
             /\ bus (fst (UpdateFade d checked stamped))
                = bus (if fadeState_eqb (fadeState d) fadeStateOut
                          && (fadeStep d =? 0)
                       then Display (SetBrightness d (fadeStep d))
                       else SetBrightness d (fadeStep d)))
  /\ Forall (fun level => 0 <= level <= 15)
            (countdown (currentBrightness d) ++ countup 15 ++ [15])
  /\ (forall delay : Z,
        DisplayFadeBlocking d delay
        = ramp (countup 15 ++ [15])
               (Display (ramp (countdown (currentBrightness d)) d)))
  /\ (forall delay : Z,
        ClearAllFadeBlocking d delay
        = ramp (countup 15 ++ [15])
               (Display (ramp (countdown (currentBrightness d)) (ClearAll d))))
  /\ (forall display delay : Z,
        ClearFadeOnDisplayBlocking d display delay
        = if (display <? 0) || (display >=? NumDisplays)
          then d
          else ramp (countup 15 ++ [15])
                    (Display (ramp (countdown (currentBrightness d))
                                   (ClearOnDisplay d display))))
  /\ (forall delay : Z,
        LightUpAllFadeBlocking d delay = ramp (countup 15) (LightUpAll d)).
Proof.
  intros Hargs d.
  destruct (reachable_ok b address ops Hargs) as [Hb Hf].
  fold d in Hb, Hf. unfold brightness_ok in Hb.
  split; [exact Hb|]. split; [exact Hf|]. split; [reflexivity|].
  split.
  { intros level. split.
    - rewrite SetBrightness_eq. apply clamp15_min.
    - rewrite SetBrightness_eq. apply clamp15_range, u8_range. }
  split; [intros checked stamped; apply UpdateFade_level; exact Hf|].
  split.
  { apply List.Forall_app. split.
    - apply countdown_levels. lia.
    - apply countup_levels. }
  split; [intros delay; apply DisplayFadeBlocking_ramp; lia|].
  split.
  { intros delay. unfold ClearAllFadeBlocking.
    rewrite DisplayFadeBlocking_ramp by (cbn; lia). reflexivity. }
  split.
  { intros display delay. unfold ClearFadeOnDisplayBlocking.
    destruct (_ || _); [reflexivity|].
    rewrite DisplayFadeBlocking_ramp
      by (rewrite brightness_ClearOnDisplay; lia).
    rewrite brightness_ClearOnDisplay. reflexivity. }
  intros delay. apply LightUpAllFadeBlocking_ramp.
Qed.

End FadeLevels.

Lemma currentBrightness_in_range_witness :
  let d := run sample_session (New healthy_bus 0x70) in
  0 <= currentBrightness d <= 15
  /\ (fadeState d = fadeStateIdle \/ 0 <= fadeStep d <= 15)
  /\ currentBrightness (New healthy_bus 0x70) = 15
  /\ (forall level : Z,
        currentBrightness (SetBrightness d level) = Z.min level 15
        /\ 0 <= currentBrightness (SetBrightness d (u8 level)) <= 15)
  /\ (forall checked stamped : Z,
        if fadeState_eqb (fadeState d) fadeStateIdle
           || (checked - lastUpdateTime d <? fadeDelay d)
        then fst (UpdateFade d checked stamped) = d
        else 0 <= fadeStep d <= 15
             /\ u8 (fadeStep d) = fadeStep d
             /\ currentBrightness (fst (UpdateFade d checked stamped))
                = fadeStep d
             /\ bus (fst (UpdateFade d checked stamped))
                = bus (if fadeState_eqb (fadeState d) fadeStateOut
                          && (fadeStep d =? 0)
                       then Display (SetBrightness d (fadeStep d))
                       else SetBrightness d (fadeStep d)))
  /\ Forall (fun level => 0 <= level <= 15)
            (countdown (currentBrightness d) ++ countup 15 ++ [15])
  /\ (forall delay : Z,
        DisplayFadeBlocking d delay
        = ramp (countup 15 ++ [15])
               (Display (ramp (countdown (currentBrightness d)) d)))
  /\ (forall delay : Z,
        ClearAllFadeBlocking d delay
        = ramp (countup 15 ++ [15])
               (Display (ramp (countdown (currentBrightness d)) (ClearAll d))))
  /\ (forall display delay : Z,
        ClearFadeOnDisplayBlocking d display delay
        = if (display <? 0) || (display >=? NumDisplays)
          then d
          else ramp (countup 15 ++ [15])
                    (Display (ramp (countdown (currentBrightness d))
                                   (ClearOnDisplay d display))))
  /\ (forall delay : Z,
        LightUpAllFadeBlocking d delay = ramp (countup 15) (LightUpAll d)).
Proof.
  apply (currentBrightness_in_range healthy_bus 0x70 sample_session).
  reflexivity.
Defined.
